(** * chat-file-storage-backend: blob / metadata consistency

    A shallow embedding of the file-storage backend:
    - [routes/files.js]: [getFileCategory], [formatFileSize] and the
      upload / delete / stats / search handlers;
    - [routes/profile.js]: the profile-picture upload handler;
    - [database-simple.js]: the SQLite helpers ([upsertUser],
      [createSharedFile], [deleteSharedFile], [incrementDownloadCount],
      [getUserFileStats], [searchFiles], ...).

    JavaScript strings are [string], the bytes of their UTF-8 form (the
    form SQLite stores); JavaScript numbers that hold byte
    counts, row ids, counters and timestamps are [Z]; [null]/[undefined]
    is [None].  The two SQLite tables are lists of rows in rowid order,
    the upload directory is a finite map from server-relative paths to
    file contents.  Handlers are written in a small state-and-exception
    monad whose state is the pair (disk, database) together with the log
    of mutations performed so far. *)

From Stdlib Require Import ZArith String Ascii List Bool Lia Sorted.
From stdpp Require Import base gmap strings list pretty.

Open Scope Z_scope.

(** ** JavaScript string primitives *)

Module Js.

(** [s.startsWith(p)] *)
Definition startsWith (s p : string) : bool := String.prefix p s.

(** [s.includes(p)]: [p] occurs somewhere in [s]. *)
Fixpoint includes (s p : string) : bool :=
  String.prefix p s ||
  match s with
  | EmptyString => false
  | String _ s' => includes s' p
  end.

(** Truthiness of an optional string: [undefined], [null] and the empty
    string are falsy. *)
Definition truthy (v : option string) : option string :=
  match v with
  | Some (String c s) => Some (String c s)
  | _ => None
  end.

(** [v || d] on an optional string. *)
Definition or_else (v : option string) (d : string) : string :=
  match truthy v with Some s => s | None => d end.

(** [v || null] on an optional string. *)
Definition or_null (v : option string) : option string := truthy v.

(** [v || 0] on a nullable number: [null] and [0] both give [0]. *)
Definition or_zero (v : option Z) : Z :=
  match v with Some n => n | None => 0 end.

End Js.

(** ** Classification and formatting ([routes/files.js]) *)

Module Files.

(** [getFileCategory(mimeType)] *)
Definition getFileCategory (mimeType : string) : string :=
  if Js.startsWith mimeType "image/" then "image"
  else if Js.startsWith mimeType "video/" then "video"
  else if Js.startsWith mimeType "audio/" then "audio"
  else if String.eqb mimeType "application/pdf" then "pdf"
  else if Js.startsWith mimeType "text/" then "text"
  else if Js.includes mimeType "word" || Js.includes mimeType "document"
       then "document"
  else if Js.includes mimeType "zip" then "archive"
  else "other".

Definition k : Z := 1024.

Definition sizes : list string := ["Bytes"; "KB"; "MB"; "GB"].

(** [sizes[i]]; an index outside the table reads [undefined], which
    string concatenation prints as the word undefined. *)
Definition sizes_at (i : Z) : string :=
  if i <? 0 then "undefined"
  else default "undefined" (sizes !! Z.to_nat i).

(** [Math.floor(Math.log(bytes) / Math.log(k))] for an integer
    [bytes >= 1]: the floor of the base-1024 logarithm.  [Z.log2] is the
    floor of the base-2 logarithm and [k = 2^10].  The source computes the
    quotient in double precision; at the powers of 1024 it is the exact
    integer, and for the other byte counts of the table's range its
    distance to the next integer (at least 1e-14) is far above the
    rounding error, so the floor taken there is this one. *)
Definition log_index (bytes : Z) : Z := Z.log2 bytes / 10.

(** [(num / den).toFixed(2)], as a count of hundredths.  The quotient of
    an integer below 2^53 by a power of two is an exact double, and
    [toFixed] picks the integer [n] with [n / 100] closest to it, the
    larger one on a tie: [n = floor (100 * num / den + 1/2)]. *)
Definition toFixed2 (num den : Z) : Z := (200 * num + den) / (2 * den).

(** The digits [toFixed(2)] prints: always two decimals. *)
Definition toFixed2_string (n : Z) : string :=
  pretty (n / 100) +:+ "." +:+ pretty (n mod 100 / 10) +:+ pretty (n mod 10).

(** [parseFloat(str) + ' ...'] for [str] a [toFixed(2)] output of [n]
    hundredths: the number is read back and printed in its shortest
    form, so trailing zero decimals (and a bare decimal point) are
    dropped. *)
Definition number_to_string (n : Z) : string :=
  if n mod 100 =? 0 then pretty (n / 100)
  else if n mod 10 =? 0 then pretty (n / 100) +:+ "." +:+ pretty (n mod 100 / 10)
  else toFixed2_string n.

(** [formatFileSize(bytes)] on an integer.  A negative argument makes
    [Math.log] return NaN, which propagates to both the number and the
    table index. *)
Definition formatFileSize (bytes : Z) : string :=
  if bytes =? 0 then "0 Bytes"
  else if bytes <? 0 then "NaN undefined"
  else
    let i := log_index bytes in
    number_to_string (toFixed2 bytes (k ^ i)) +:+ " " +:+ sizes_at i.

End Files.

(** ** The SQLite store ([database-simple.js]) *)

(** Rows of the [users] table.  [TEXT] columns without [NOT NULL] are
    optional strings; [DATETIME] columns are seconds on the server clock. *)
Module User.
Record row := mkRow {
  id : Z;
  user_id : string;
  username : option string;
  email : option string;
  profile_picture_path : option string;
  profile_picture_url : option string;
  created_at : Z;
  updated_at : Z
}.
End User.

(** Rows of the [shared_files] table. *)
Module SharedFile.
Record row := mkRow {
  id : Z;
  file_id : string;
  user_id : string;
  original_name : string;
  file_name : string;
  file_path : string;
  file_url : string;
  file_size : Z;
  mime_type : string;
  description : string;
  category : string;
  download_count : Z;
  is_public : bool;
  created_at : Z;
  last_accessed : Z
}.

(** [SET download_count = download_count + 1, last_accessed = CURRENT_TIMESTAMP] *)
Definition touch (now : Z) (r : row) : row :=
  mkRow (id r) (file_id r) (user_id r) (original_name r) (file_name r)
        (file_path r) (file_url r) (file_size r) (mime_type r)
        (description r) (category r) (download_count r + 1) (is_public r)
        (created_at r) now.
End SharedFile.

Module Db.

(** The argument object of [upsertUser]. *)
Record userData := mkUserData {
  userId : string;
  username : option string;
  email : option string;
  profilePicturePath : option string;
  profilePictureUrl : option string
}.

(** The argument object of [createSharedFile]. *)
Record fileData := mkFileData {
  fileId : string;
  ownerId : string;
  originalName : string;
  fileName : string;
  filePath : string;
  fileUrl : string;
  fileSize : Z;
  mimeType : string;
  description : string;
  category : string
}.

(** Both tables in rowid order, each with its [sqlite_sequence] entry
    (the largest rowid an [AUTOINCREMENT] column has ever handed out). *)
Record t := mk {
  users : list User.row;
  users_seq : Z;
  shared_files : list SharedFile.row;
  shared_files_seq : Z
}.

Definition empty : t := mk [] 0 [] 0.

Definition max_rowid (ids : list Z) : Z := fold_right Z.max 0 ids.

(** The rowid an [INTEGER PRIMARY KEY AUTOINCREMENT] column gets on
    insert: one more than the largest rowid ever used. *)
Definition next_rowid (ids : list Z) (seq : Z) : Z :=
  Z.max (max_rowid ids) seq + 1.

Definition is_user (uid : string) (r : User.row) : bool :=
  String.eqb (User.user_id r) uid.

Definition is_file (fid : string) (r : SharedFile.row) : bool :=
  String.eqb (SharedFile.file_id r) fid.

Definition owned_by (uid : string) (r : SharedFile.row) : bool :=
  String.eqb (SharedFile.user_id r) uid.

(** [SELECT * FROM users WHERE user_id = ?] ([db.get]: first row) *)
Definition getUser (uid : string) (d : t) : option User.row :=
  List.find (is_user uid) (users d).

(** [INSERT OR REPLACE INTO users (user_id, username, email,
    profile_picture_path, profile_picture_url, updated_at)
    VALUES (?, ?, ?, ?, ?, CURRENT_TIMESTAMP)].
    A row that holds the same [user_id] violates the UNIQUE constraint
    and is deleted; the new row is then inserted with a fresh rowid and
    the column default [CURRENT_TIMESTAMP] for [created_at].  Returns the
    store and [this.lastID]. *)
Definition upsertUser (now : Z) (u : userData) (d : t) : t * Z :=
  let rid := next_rowid (map User.id (users d)) (users_seq d) in
  let kept := List.filter (fun r => negb (is_user (userId u) r)) (users d) in
  let r := User.mkRow rid (userId u) (username u) (email u)
                      (profilePicturePath u) (profilePictureUrl u) now now in
  (mk (kept ++ [r]) rid (shared_files d) (shared_files_seq d), rid).

Definition unique_file_id_failed : string :=
  "SQLITE_CONSTRAINT: UNIQUE constraint failed: shared_files.file_id".

(** [INSERT INTO shared_files (file_id, user_id, original_name,
    file_name, file_path, file_url, file_size, mime_type, description,
    category) VALUES (...)].  Fails on a duplicate [file_id]; the other
    columns take their defaults. *)
Definition createSharedFile (now : Z) (f : fileData) (d : t) : string + (t * Z) :=
  if existsb (is_file (fileId f)) (shared_files d) then inl unique_file_id_failed
  else
    let rid := next_rowid (map SharedFile.id (shared_files d)) (shared_files_seq d) in
    let r := SharedFile.mkRow rid (fileId f) (ownerId f) (originalName f)
               (fileName f) (filePath f) (fileUrl f) (fileSize f) (mimeType f)
               (description f) (category f) 0 false now now in
    inr (mk (users d) (users_seq d) (shared_files d ++ [r]) rid, rid).

(** [SELECT * FROM shared_files WHERE file_id = ?] *)
Definition getSharedFile (fid : string) (d : t) : option SharedFile.row :=
  List.find (is_file fid) (shared_files d).

(** [ORDER BY created_at DESC]: a stable insertion sort, so rows with the
    same timestamp stay in rowid order. *)
Fixpoint insert_desc (r : SharedFile.row) (l : list SharedFile.row) : list SharedFile.row :=
  match l with
  | [] => [r]
  | x :: l' =>
      if SharedFile.created_at x <=? SharedFile.created_at r
      then r :: x :: l'
      else x :: insert_desc r l'
  end.

Definition order_by_created_desc (l : list SharedFile.row) : list SharedFile.row :=
  fold_right insert_desc [] l.

(** [LIMIT n OFFSET m]: a negative limit means no limit, a negative
    offset means none. *)
Definition limit_offset {A} (n m : Z) (l : list A) : list A :=
  let l' := drop (Z.to_nat m) l in
  if n <? 0 then l' else take (Z.to_nat n) l'.

(** [SELECT * FROM shared_files WHERE user_id = ?
    ORDER BY created_at DESC LIMIT ? OFFSET ?] *)
Definition getUserSharedFiles (uid : string) (limit offset : Z) (d : t)
  : list SharedFile.row :=
  limit_offset limit offset
    (order_by_created_desc (List.filter (owned_by uid) (shared_files d))).

Definition delete_matches (fid uid : string) (r : SharedFile.row) : bool :=
  is_file fid r && owned_by uid r.

(** [DELETE FROM shared_files WHERE file_id = ? AND user_id = ?];
    returns the store and [this.changes]. *)
Definition deleteSharedFile (fid uid : string) (d : t) : t * Z :=
  let gone := List.filter (delete_matches fid uid) (shared_files d) in
  let kept := List.filter (fun r => negb (delete_matches fid uid r)) (shared_files d) in
  (mk (users d) (users_seq d) kept (shared_files_seq d), Z.of_nat (length gone)).

(** [UPDATE shared_files SET download_count = download_count + 1,
    last_accessed = CURRENT_TIMESTAMP WHERE file_id = ?];
    returns the store and [this.changes]. *)
Definition incrementDownloadCount (now : Z) (fid : string) (d : t) : t * Z :=
  let hit := List.filter (is_file fid) (shared_files d) in
  let rows := map (fun r => if is_file fid r then SharedFile.touch now r else r)
                  (shared_files d) in
  (mk (users d) (users_seq d) rows (shared_files_seq d), Z.of_nat (length hit)).

(** The single row of the aggregate query.  [SUM] over no rows is NULL. *)
Record stats_row := mkStats {
  total_files : Z;
  total_size : option Z;
  total_downloads : option Z
}.

Definition sql_sum (l : list Z) : option Z :=
  match l with
  | [] => None
  | _ => Some (fold_right Z.add 0 l)
  end.

(** [SELECT COUNT( * ) as total_files, SUM(file_size) as total_size,
    SUM(download_count) as total_downloads FROM shared_files
    WHERE user_id = ?] *)
Definition getUserFileStats (uid : string) (d : t) : stats_row :=
  let rows := List.filter (owned_by uid) (shared_files d) in
  mkStats (Z.of_nat (length rows))
          (sql_sum (map SharedFile.file_size rows))
          (sql_sum (map SharedFile.download_count rows)).

(** SQLite folds the 26 ASCII letters when it compares characters in
    [LIKE]. *)
Definition upper (c : ascii) : ascii :=
  let n := nat_of_ascii c in
  if (97 <=? n)%nat && (n <=? 122)%nat then ascii_of_nat (n - 32) else c.

Definition same_letter (c d : ascii) : bool := Ascii.eqb (upper c) (upper d).

Definition percent : ascii := "%".
Definition underscore : ascii := "_".

(** Some suffix of [s] (possibly [s] itself, possibly empty) satisfies
    [f]: what [%] does with the rest of the pattern. *)
Fixpoint any_suffix (f : string -> bool) (s : string) : bool :=
  f s ||
  match s with
  | EmptyString => false
  | String _ s' => any_suffix f s'
  end.

(** [s LIKE pattern] (no ESCAPE clause): [%] matches any run of
    characters, [_] matches exactly one, any other character matches
    itself up to ASCII case.  The characters here are the bytes of the
    text, which are SQLite's characters on ASCII text without NUL; on a
    multi-byte character SQLite's [_] takes the whole character. *)
Fixpoint like (pattern s : string) : bool :=
  match pattern with
  | EmptyString =>
      match s with EmptyString => true | String _ _ => false end
  | String c p' =>
      if Ascii.eqb c percent then any_suffix (like p') s
      else
        match s with
        | EmptyString => false
        | String d s' =>
            (Ascii.eqb c underscore || same_letter c d) && like p' s'
        end
  end.

(** [`%${searchTerm}%`] *)
Definition search_pattern (searchTerm : string) : string :=
  "%" +:+ searchTerm +:+ "%".

Definition search_matches (uid searchTerm : string) (r : SharedFile.row) : bool :=
  owned_by uid r &&
  (like (search_pattern searchTerm) (SharedFile.original_name r) ||
   like (search_pattern searchTerm) (SharedFile.description r) ||
   like (search_pattern searchTerm) (SharedFile.category r)).

(** [SELECT * FROM shared_files WHERE user_id = ? AND
    (original_name LIKE ? OR description LIKE ? OR category LIKE ?)
    ORDER BY created_at DESC LIMIT 20] *)
Definition searchFiles (uid searchTerm : string) (d : t) : list SharedFile.row :=
  take 20 (order_by_created_desc
             (List.filter (search_matches uid searchTerm) (shared_files d))).

(** The UNIQUE constraints of the schema. *)
Definition unique_file_ids (d : t) : Prop :=
  NoDup (map SharedFile.file_id (shared_files d)).

Definition unique_user_ids (d : t) : Prop :=
  NoDup (map User.user_id (users d)).

End Db.

(** ** Node's [path.extname] (POSIX) *)

Module Path.

Record scan := mkScan {
  startDot : Z;
  startPart : Z;
  end_ : Z;
  matchedSlash : bool;
  preDotState : Z;
  stopped : bool
}.

Definition scan0 : scan := mkScan (-1) 0 (-1) true 0 false.

(** One iteration of the backwards loop, at index [i] on character [c]. *)
Definition step (i : Z) (c : ascii) (st : scan) : scan :=
  if stopped st then st
  else if Ascii.eqb c "/" then
    if negb (matchedSlash st)
    then mkScan (startDot st) (i + 1) (end_ st) (matchedSlash st) (preDotState st) true
    else st
  else
    let st1 :=
      if end_ st =? -1
      then mkScan (startDot st) (startPart st) (i + 1) false (preDotState st) false
      else st in
    if Ascii.eqb c "." then
      if startDot st1 =? -1
      then mkScan i (startPart st1) (end_ st1) (matchedSlash st1) (preDotState st1) false
      else if negb (preDotState st1 =? 1)
      then mkScan (startDot st1) (startPart st1) (end_ st1) (matchedSlash st1) 1 false
      else st1
    else if negb (startDot st1 =? -1)
    then mkScan (startDot st1) (startPart st1) (end_ st1) (matchedSlash st1) (-1) false
    else st1.

(** The loop [for (i = path.length - 1; i >= 0; --i)]: the characters
    are visited last to first, each with its index. *)
Fixpoint scan_from (i : Z) (rev_chars : list ascii) (st : scan) : scan :=
  match rev_chars with
  | [] => st
  | c :: rest => scan_from (i - 1) rest (step i c st)
  end.

Definition extname (path : string) : string :=
  let chars := list_ascii_of_string path in
  let st := scan_from (Z.of_nat (length chars) - 1) (rev chars) scan0 in
  if (startDot st =? -1) || (end_ st =? -1) || (preDotState st =? 0) ||
     ((preDotState st =? 1) && (startDot st =? end_ st - 1)
      && (startDot st =? startPart st + 1))
  then EmptyString
  else substring (Z.to_nat (startDot st)) (Z.to_nat (end_ st - startDot st)) path.

End Path.

(** ** The server state and the handler monad *)

Module Server.

(** The mutations a handler performs, in the order it performs them. *)
Inductive event :=
| EvWriteFile (path : string)
| EvRemove (path : string)
| EvUpsertUser (userId : string) (lastID : Z)
| EvCreateSharedFile (fileId : string) (lastID : Z)
| EvDeleteSharedFile (fileId userId : string) (changes : Z)
| EvIncrementDownloadCount (fileId : string) (changes : Z).

(** The upload directory (keyed by the path relative to the server
    root, the form stored in the database: both the write side and the
    read side join it to the same root), the database, and the log.
    [path.join] normalises what it joins, so a key names the file the
    handlers reach only when it is already in normal form: a relative
    path none of whose segments is empty, [.] or [..]. *)
Record world := mkWorld {
  disk : gmap string (list Byte.byte);
  db : Db.t;
  log : list event
}.

(** The calls that touch the disk or the database; any of them can
    reject (I/O error, SQLITE_BUSY, full disk, ...). *)
Inductive op :=
| OpWriteFile | OpStat | OpPathExists | OpRemove
| OpGetUser | OpUpsertUser
| OpCreateSharedFile | OpGetSharedFile | OpGetUserSharedFiles
| OpDeleteSharedFile | OpIncrementDownloadCount
| OpGetUserFileStats | OpSearchFiles.

(** What one request sees of its environment: the clock
    ([CURRENT_TIMESTAMP], [new Date()]), the identifier [uuidv4()]
    returns, [NODE_ENV === 'development'], and which calls reject. *)
Record env := mkEnv {
  now : Z;
  uuid : string;
  development : bool;
  fails : op -> bool
}.

Definition no_faults : op -> bool := fun _ => false.

(** A computation either throws an [Error] (its message) or returns. *)
Definition M (A : Type) : Type := env -> world -> world * (string + A).

Definition ret {A} (a : A) : M A := fun _ w => (w, inr a).

Definition bind {A B} (m : M A) (f : A -> M B) : M B :=
  fun e w =>
    match m e w with
    | (w', inl err) => (w', inl err)
    | (w', inr a) => f a e w'
    end.

Definition throw {A} (message : string) : M A := fun _ w => (w, inl message).

(** [try { m } catch (error) { h error }] *)
Definition try_catch {A} (m : M A) (h : string -> M A) : M A :=
  fun e w =>
    match m e w with
    | (w', inl err) => h err e w'
    | (w', inr a) => (w', inr a)
    end.

Definition ask : M env := fun e w => (w, inr e).

(** A call that rejects when the environment says so and otherwise
    runs the pure transition [f]. *)
Definition call {A} (o : op) (f : env -> world -> world * A) : M A :=
  fun e w =>
    if fails e o then (w, inl "operation failed"%string)
    else let (w', a) := f e w in (w', inr a).

Definition emit (ev : event) (w : world) : world :=
  mkWorld (disk w) (db w) (log w ++ [ev]).

(** [process.env.NODE_ENV === 'development' ? error.message : 'Internal server error'] *)
Definition shown (e : env) (message : string) : string :=
  if development e then message else "Internal server error".

End Server.

Declare Scope handler_scope.
Delimit Scope handler_scope with handler.
Notation "x <- m ;; k" := (Server.bind m (fun x => k))
  (at level 100, m at next level, right associativity) : handler_scope.
Notation "m ;;; k" := (Server.bind m (fun _ => k))
  (at level 100, right associativity) : handler_scope.

(** ** [fs-extra] *)

Module Fs.
Import Server.

(** [fs.writeFile(path, data)] creates or overwrites. *)
Definition writeFile (path : string) (data : list Byte.byte) : M unit :=
  call OpWriteFile (fun _ w =>
    (emit (EvWriteFile path) (mkWorld (<[path := data]> (disk w)) (db w) (log w)), tt)).

(** [fs.stat(path)]: only [size] is used.  A missing file rejects. *)
Definition stat (path : string) : M Z :=
  fun e w =>
    if fails e OpStat then (w, inl "operation failed"%string)
    else match disk w !! path with
         | Some data => (w, inr (Z.of_nat (length data)))
         | None => (w, inl "ENOENT: no such file or directory"%string)
         end.

Definition pathExists (path : string) : M bool :=
  call OpPathExists (fun _ w => (w, bool_decide (is_Some (disk w !! path)))).

(** [fs.remove(path)]: removing an absent path is not an error. *)
Definition remove (path : string) : M unit :=
  call OpRemove (fun _ w =>
    (emit (EvRemove path) (mkWorld (delete path (disk w)) (db w) (log w)), tt)).

End Fs.

(** ** The promise wrappers of [database-simple.js] *)

Module Store.
Import Server.

Definition getUser (uid : string) : M (option User.row) :=
  call OpGetUser (fun _ w => (w, Db.getUser uid (db w))).

Definition upsertUser (u : Db.userData) : M Z :=
  call OpUpsertUser (fun e w =>
    let (d, lastID) := Db.upsertUser (now e) u (db w) in
    (emit (EvUpsertUser (Db.userId u) lastID) (mkWorld (disk w) d (log w)), lastID)).

Definition createSharedFile (f : Db.fileData) : M Z :=
  fun e w =>
    if fails e OpCreateSharedFile then (w, inl "operation failed"%string)
    else match Db.createSharedFile (now e) f (db w) with
         | inl err => (w, inl err)
         | inr (d, lastID) =>
             (emit (EvCreateSharedFile (Db.fileId f) lastID)
                   (mkWorld (disk w) d (log w)), inr lastID)
         end.

Definition getSharedFile (fid : string) : M (option SharedFile.row) :=
  call OpGetSharedFile (fun _ w => (w, Db.getSharedFile fid (db w))).

Definition getUserSharedFiles (uid : string) (limit offset : Z)
  : M (list SharedFile.row) :=
  call OpGetUserSharedFiles (fun _ w =>
    (w, Db.getUserSharedFiles uid limit offset (db w))).

Definition deleteSharedFile (fid uid : string) : M Z :=
  call OpDeleteSharedFile (fun _ w =>
    let (d, changes) := Db.deleteSharedFile fid uid (db w) in
    (emit (EvDeleteSharedFile fid uid changes) (mkWorld (disk w) d (log w)), changes)).

Definition incrementDownloadCount (fid : string) : M Z :=
  call OpIncrementDownloadCount (fun e w =>
    let (d, changes) := Db.incrementDownloadCount (now e) fid (db w) in
    (emit (EvIncrementDownloadCount fid changes) (mkWorld (disk w) d (log w)), changes)).

Definition getUserFileStats (uid : string) : M Db.stats_row :=
  call OpGetUserFileStats (fun _ w => (w, Db.getUserFileStats uid (db w))).

Definition searchFiles (uid searchTerm : string) : M (list SharedFile.row) :=
  call OpSearchFiles (fun _ w => (w, Db.searchFiles uid searchTerm (db w))).

End Store.

(** ** HTTP responses *)

Module Http.

(** [req.file] as multer's memory storage hands it over. *)
Record file := mkFile {
  originalname : string;
  mimetype : string;
  size : Z;
  buffer : list Byte.byte
}.

(** The [file] object of the upload response. *)
Record uploaded := mkUploaded {
  up_fileId : string;
  up_originalName : string;
  up_fileName : string;
  up_fileUrl : string;
  up_fileSize : Z;
  up_formattedSize : string;
  up_mimeType : string;
  up_category : string;
  up_uploadedAt : Z
}.

(** An entry of [results] in the search response. *)
Record found := mkFound {
  fd_fileId : string;
  fd_originalName : string;
  fd_fileSize : Z;
  fd_formattedSize : string;
  fd_mimeType : string;
  fd_category : string;
  fd_description : string;
  fd_downloadCount : Z;
  fd_fileUrl : string;
  fd_uploadedAt : Z
}.

(** An entry of [recentFiles] in the stats response. *)
Record recent := mkRecent {
  rc_fileId : string;
  rc_originalName : string;
  rc_fileSize : Z;
  rc_formattedSize : string;
  rc_category : string;
  rc_uploadedAt : Z
}.

(** The [stats] object of the stats response. *)
Record stats := mkStats {
  totalFiles : Z;
  totalSize : Z;
  formattedTotalSize : string;
  totalDownloads : Z;
  recentFiles : list recent
}.

Inductive body :=
| Error (error : string)                       (* { error } *)
| Failure (error message : string)             (* { error, message } *)
| Success (message : string)                   (* { success: true, message } *)
| Uploaded (message : string) (f : uploaded)   (* { success, message, file } *)
| Picture (message profilePictureUrl : string) (fileSize : Z)
| Stats (s : stats)                            (* { success, stats } *)
| Results (searchTerm : string) (results : list found) (count : Z)
| SentFile (path contentType contentDisposition : string). (* res.sendFile *)

Record response := mkResponse {
  status : Z;
  json : body
}.

(** [res.json(b)] *)
Definition ok (b : body) : response := mkResponse 200 b.

End Http.

(** ** [routes/files.js]: the handlers *)

Module FilesRoute.
Import Server Http.
Local Open Scope handler_scope.

(** [router.post('/upload', ...)] *)
Definition upload (userId description : option string) (file : option Http.file)
  : M response :=
  try_catch
    (match Js.truthy userId with
     | None => ret (mkResponse 400 (Error "User ID is required"))
     | Some userId =>
       match file with
       | None => ret (mkResponse 400 (Error "No file uploaded"))
       | Some file =>
         e <- ask ;;
         let fileId := uuid e in
         let fileExtension := Path.extname (originalname file) in
         let fileName := fileId +:+ fileExtension in
         let filePath := "uploads/shared/" +:+ fileName in
         Fs.writeFile filePath (buffer file) ;;;
         let fileUrl := "/uploads/shared/" +:+ fileName in
         let category := Files.getFileCategory (mimetype file) in
         Store.createSharedFile
           (Db.mkFileData fileId userId (originalname file) fileName
              filePath fileUrl (size file) (mimetype file)
              (Js.or_else description EmptyString) category) ;;;
         ret (ok (Uploaded "File uploaded successfully"
                    (mkUploaded fileId (originalname file) fileName fileUrl
                       (size file) (Files.formatFileSize (size file))
                       (mimetype file) category (now e))))
       end
     end)
    (fun error =>
       e <- ask ;;
       if Js.includes error "File type not allowed"
       then ret (mkResponse 400 (Error error))
       else ret (mkResponse 500 (Failure "Failed to upload file" (shown e error)))).

(** [router.delete('/:fileId', ...)] *)
Definition delete (fileId : string) (userId : option string) : M response :=
  try_catch
    (match Js.truthy userId with
     | None => ret (mkResponse 400 (Error "User ID is required"))
     | Some userId =>
       file <- Store.getSharedFile fileId ;;
       match file with
       | None => ret (mkResponse 404 (Error "File not found"))
       | Some file =>
         if negb (String.eqb (SharedFile.user_id file) userId)
         then ret (mkResponse 403
                     (Error "Unauthorized - you can only delete your own files"))
         else
           let filePath := SharedFile.file_path file in
           present <- Fs.pathExists filePath ;;
           (if present then Fs.remove filePath else ret tt) ;;;
           Store.deleteSharedFile fileId userId ;;;
           ret (ok (Success "File deleted successfully"))
       end
     end)
    (fun _ => ret (mkResponse 500 (Error "Internal server error"))).

Definition quote : string := String (ascii_of_nat 34) EmptyString.

(** Node's [checkInvalidHeaderChar], the test [res.setHeader] applies to
    a value: only the code units [\t], [\x20-\x7e] and [\x80-\xff] may
    occur.  On the UTF-8 bytes of the value these are a tab, a printable
    ASCII byte, and the two-byte sequences led by [C2] or [C3] (the code
    points U+0080 to U+00FF); every other byte belongs to a control
    character or to a code point past U+00FF. *)
Fixpoint validHeaderValue (value : string) : bool :=
  match value with
  | EmptyString => true
  | String c rest =>
    let n := N_of_ascii c in
    if ((n =? 9) || ((32 <=? n) && (n <=? 126)))%N then validHeaderValue rest
    else if ((n =? 194) || (n =? 195))%N then
      match rest with
      | String c' rest' =>
        let n' := N_of_ascii c' in
        ((128 <=? n') && (n' <=? 191))%N && validHeaderValue rest'
      | EmptyString => false
      end
    else false
  end.

(** [res.setHeader(name, value)]: throws on an invalid value. *)
Definition setHeader (name value : string) : M unit :=
  if validHeaderValue value then ret tt
  else throw ("Invalid character in header content [" +:+ quote +:+ name
                +:+ quote +:+ "]").

(** [router.get('/download/:fileId', ...)] *)
Definition download (fileId : string) : M response :=
  try_catch
    (file <- Store.getSharedFile fileId ;;
     match file with
     | None => ret (mkResponse 404 (Error "File not found"))
     | Some file =>
       let filePath := SharedFile.file_path file in
       present <- Fs.pathExists filePath ;;
       if negb present
       then ret (mkResponse 404 (Error "File not found on disk"))
       else
         Store.incrementDownloadCount fileId ;;;
         let contentDisposition :=
           "attachment; filename=" +:+ quote
             +:+ SharedFile.original_name file +:+ quote in
         setHeader "Content-Type" (SharedFile.mime_type file) ;;;
         setHeader "Content-Disposition" contentDisposition ;;;
         ret (ok (SentFile filePath (SharedFile.mime_type file) contentDisposition))
     end)
    (fun _ => ret (mkResponse 500 (Error "Internal server error"))).

Definition recent_of (r : SharedFile.row) : recent :=
  mkRecent (SharedFile.file_id r) (SharedFile.original_name r)
           (SharedFile.file_size r)
           (Files.formatFileSize (SharedFile.file_size r))
           (SharedFile.category r) (SharedFile.created_at r).

(** [router.get('/stats/:userId', ...)] *)
Definition stats (userId : string) : M response :=
  try_catch
    (st <- Store.getUserFileStats userId ;;
     recentFiles <- Store.getUserSharedFiles userId 5 0 ;;
     ret (ok (Stats
       (mkStats (Js.or_zero (Some (Db.total_files st)))
                (Js.or_zero (Db.total_size st))
                (Files.formatFileSize (Js.or_zero (Db.total_size st)))
                (Js.or_zero (Db.total_downloads st))
                (map recent_of recentFiles)))))
    (fun _ => ret (mkResponse 500 (Error "Internal server error"))).

Definition found_of (r : SharedFile.row) : found :=
  mkFound (SharedFile.file_id r) (SharedFile.original_name r)
          (SharedFile.file_size r)
          (Files.formatFileSize (SharedFile.file_size r))
          (SharedFile.mime_type r) (SharedFile.category r)
          (SharedFile.description r) (SharedFile.download_count r)
          (SharedFile.file_url r) (SharedFile.created_at r).

(** [router.get('/search/:userId', ...)] *)
Definition search (userId : string) (q : option string) : M response :=
  try_catch
    (match Js.truthy q with
     | None => ret (mkResponse 400 (Error "Search term is required"))
     | Some searchTerm =>
       files <- Store.searchFiles userId searchTerm ;;
       let formattedFiles := map found_of files in
       ret (ok (Results searchTerm formattedFiles
                  (Z.of_nat (length formattedFiles))))
     end)
    (fun _ => ret (mkResponse 500 (Error "Internal server error"))).

End FilesRoute.

(** ** [routes/profile.js]: the picture upload handler *)

Module ProfileRoute.
Import Server Http.
Local Open Scope handler_scope.

(** The inner [try] block that removes the previous picture; an error in
    it is logged and swallowed. *)
Definition remove_old_picture (userId : string) : M unit :=
  try_catch
    (existingUser <- Store.getUser userId ;;
     match existingUser with
     | None => ret tt
     | Some existingUser =>
       match Js.truthy (User.profile_picture_path existingUser) with
       | None => ret tt
       | Some oldPath =>
         present <- Fs.pathExists oldPath ;;
         if present then Fs.remove oldPath else ret tt
       end
     end)
    (fun _ => ret tt).

(** [router.post('/upload-picture', ...)].  The file is written at
    [path.join(__dirname, '../uploads/profiles', fileName)], which is the
    key [uploads/profiles/fileName] whenever [fileName] holds no
    separator; the row stores that key. *)
Definition upload_picture (userId username email : option string)
    (file : option Http.file) : M response :=
  try_catch
    (match Js.truthy userId with
     | None => ret (mkResponse 400 (Error "User ID is required"))
     | Some userId =>
       match file with
       | None => ret (mkResponse 400 (Error "No file uploaded"))
       | Some file =>
         e <- ask ;;
         let fileId := uuid e in
         let fileExtension :=
           Js.or_else (Some (Path.extname (originalname file))) ".jpg" in
         let fileName :=
           "profile_" +:+ userId +:+ "_" +:+ fileId +:+ fileExtension in
         let filePath := "uploads/profiles/" +:+ fileName in
         Fs.writeFile filePath (buffer file) ;;;
         st <- Fs.stat filePath ;;
         let fileUrl := "/uploads/profiles/" +:+ fileName in
         remove_old_picture userId ;;;
         Store.upsertUser
           (Db.mkUserData userId (Js.or_null username) (Js.or_null email)
              (Some filePath) (Some fileUrl)) ;;;
         ret (ok (Picture "Profile picture uploaded successfully" fileUrl st))
       end
     end)
    (fun error =>
       e <- ask ;;
       if Js.includes error "Only image files"
       then ret (mkResponse 400 (Error error))
       else ret (mkResponse 500
                   (Failure "Failed to upload profile picture"
                      (shown e error)))).

End ProfileRoute.

(** ** The remaining handlers of [routes/files.js] *)

Module FilesRest.
Import Server.
Local Open Scope handler_scope.

Definition allowedTypes : list string :=
  ["image/"; "video/"; "audio/"; "application/pdf";
   "text/"; "application/msword"; "application/vnd.openxmlformats";
   "application/zip"; "application/x-zip-compressed"].

(** [allowedTypes.some(type => file.mimetype.startsWith(type))] *)
Definition isAllowed (mimetype : string) : bool :=
  existsb (fun type => Js.startsWith mimetype type) allowedTypes.

(** multer's [fileFilter]: accept, or pass an [Error] on. *)
Definition fileFilter (mimetype : string) : string + bool :=
  if isAllowed mimetype then inr true else inl "File type not allowed"%string.

(** The body of the file-info response. *)
Record info := mkInfo {
  in_fileId : string;
  in_originalName : string;
  in_fileSize : Z;
  in_formattedSize : string;
  in_mimeType : string;
  in_category : string;
  in_description : string;
  in_downloadCount : Z;
  in_uploadedAt : Z;
  in_lastAccessed : Z
}.

Inductive info_body :=
| InfoError (error : string)
| Info (i : info).

Definition info_of (file : SharedFile.row) : info :=
  mkInfo (SharedFile.file_id file) (SharedFile.original_name file)
         (SharedFile.file_size file)
         (Files.formatFileSize (SharedFile.file_size file))
         (SharedFile.mime_type file) (SharedFile.category file)
         (SharedFile.description file) (SharedFile.download_count file)
         (SharedFile.created_at file) (SharedFile.last_accessed file).

(** [router.get('/info/:fileId', ...)]: status and body. *)
Definition get_info (fileId : string) : M (Z * info_body) :=
  try_catch
    (file <- Store.getSharedFile fileId ;;
     match file with
     | None => ret (404, InfoError "File not found")
     | Some file => ret (200, Info (info_of file))
     end)
    (fun _ => ret (500, InfoError "Internal server error")).

End FilesRest.

(** ** The remaining handlers of [routes/profile.js] *)

Module ProfileRest.
Import Server Http.
Local Open Scope handler_scope.

(** multer's [fileFilter] for profile pictures. *)
Definition fileFilter (mimetype : string) : string + bool :=
  if Js.startsWith mimetype "image/" then inr true
  else inl "Only image files are allowed for profile pictures"%string.

Inductive picture_body :=
| PictureError (error : string)
| PictureFile (path : string)                       (* res.sendFile(filePath) *)
| PictureUrl (profilePictureUrl userId : string).   (* { profilePictureUrl, userId } *)

(** [router.get('/picture/:userId', ...)] *)
Definition get_picture (userId : string) : M (Z * picture_body) :=
  try_catch
    (user <- Store.getUser userId ;;
     match user with
     | None => ret (404, PictureError "Profile picture not found")
     | Some user =>
       match Js.truthy (User.profile_picture_path user) with
       | None => ret (404, PictureError "Profile picture not found")
       | Some filePath =>
         present <- Fs.pathExists filePath ;;
         if negb present
         then ret (404, PictureError "Profile picture file not found")
         else ret (200, PictureFile filePath)
       end
     end)
    (fun _ => ret (500, PictureError "Internal server error")).

(** [router.get('/picture-url/:userId', ...)] *)
Definition get_picture_url (userId : string) : M (Z * picture_body) :=
  try_catch
    (user <- Store.getUser userId ;;
     match user with
     | None => ret (404, PictureError "Profile picture not found")
     | Some user =>
       match Js.truthy (User.profile_picture_url user) with
       | None => ret (404, PictureError "Profile picture not found")
       | Some url => ret (200, PictureUrl url (User.user_id user))
       end
     end)
    (fun _ => ret (500, PictureError "Internal server error")).

(** [router.delete('/picture/:userId', ...)].  The stored path is joined
    to the server root before it is tested and removed; for a stored
    path in normal form that is the key itself. *)
Definition delete_picture (userId : string) : M response :=
  try_catch
    (user <- Store.getUser userId ;;
     match user with
     | None => ret (mkResponse 404 (Error "Profile picture not found"))
     | Some user =>
       match Js.truthy (User.profile_picture_path user) with
       | None => ret (mkResponse 404 (Error "Profile picture not found"))
       | Some filePath =>
         present <- Fs.pathExists filePath ;;
         (if present then Fs.remove filePath else ret tt) ;;;
         Store.upsertUser
           (Db.mkUserData userId (User.username user) (User.email user)
              None None) ;;;
         ret (ok (Success "Profile picture deleted successfully"))
       end
     end)
    (fun _ => ret (mkResponse 500 (Error "Internal server error"))).

(** [req.body.profileData] *)
Record profileData := mkProfileData {
  pd_username : option string;
  pd_email : option string
}.

(** [router.post('/sync', ...)] *)
Definition sync (userId : option string) (data : option profileData) : M response :=
  try_catch
    (match Js.truthy userId, data with
     | Some userId, Some profileData =>
       existingUser <- Store.getUser userId ;;
       Store.upsertUser
         (Db.mkUserData userId (pd_username profileData) (pd_email profileData)
            (Js.or_null (existingUser ≫= User.profile_picture_path))
            (Js.or_null (existingUser ≫= User.profile_picture_url))) ;;;
       ret (ok (Success "Profile synced successfully"))
     | _, _ =>
       ret (mkResponse 400 (Error "User ID and profile data are required"))
     end)
    (fun _ => ret (mkResponse 500 (Error "Internal server error"))).

End ProfileRest.

(** * Vocabulary of the properties and sample states *)

(** ** Strings, categories, sizes *)

(** [s] starts with [p]. *)
Definition has_prefix (p s : string) : Prop := exists t, s = p +:+ t.

(** [p] occurs somewhere in [s]. *)
Definition contains (p s : string) : Prop := exists a b, s = a +:+ p +:+ b.

(** The decision table of the specification, first match wins: each rule
    applies only when no earlier rule does. *)
Inductive category_rule (m : string) : string -> Prop :=
| rule_image : has_prefix "image/" m -> category_rule m "image"
| rule_video : has_prefix "video/" m -> category_rule m "video"
| rule_audio : has_prefix "audio/" m -> category_rule m "audio"
| rule_pdf : m = "application/pdf"%string -> category_rule m "pdf"
| rule_text : has_prefix "text/" m -> category_rule m "text"
| rule_document :
    ~ has_prefix "image/" m -> ~ has_prefix "video/" m ->
    ~ has_prefix "audio/" m -> m <> "application/pdf"%string ->
    ~ has_prefix "text/" m ->
    contains "word" m \/ contains "document" m ->
    category_rule m "document"
| rule_archive :
    ~ has_prefix "image/" m -> ~ has_prefix "video/" m ->
    ~ has_prefix "audio/" m -> m <> "application/pdf"%string ->
    ~ has_prefix "text/" m ->
    ~ contains "word" m -> ~ contains "document" m ->
    contains "zip" m ->
    category_rule m "archive"
| rule_other :
    ~ has_prefix "image/" m -> ~ has_prefix "video/" m ->
    ~ has_prefix "audio/" m -> m <> "application/pdf"%string ->
    ~ has_prefix "text/" m ->
    ~ contains "word" m -> ~ contains "document" m -> ~ contains "zip" m ->
    category_rule m "other".

(** What [parseFloat] drops from the two-decimal string. *)
Definition dropped_zeros (n : Z) : string :=
  if n mod 100 =? 0 then ".00"
  else if n mod 10 =? 0 then "0"
  else EmptyString.

(** ** Repeated downloads *)

(** [incrementDownloadCount] called once per clock reading in [ts]. *)
Definition increment_at (fid : string) (d : Db.t) (t : Z) : Db.t :=
  fst (Db.incrementDownloadCount t fid d).

Definition increment_all (fid : string) (ts : list Z) (d : Db.t) : Db.t :=
  fold_left (increment_at fid) ts d.

(** The [last_accessed] value read back after each of the calls. *)
Fixpoint access_history (fid : string) (ts : list Z) (d : Db.t) : list (option Z) :=
  match ts with
  | [] => []
  | t :: ts' =>
      let d' := increment_at fid d t in
      option_map SharedFile.last_accessed (Db.getSharedFile fid d')
        :: access_history fid ts' d'
  end.

(** Two successive read-backs, both present, in clock order. *)
Definition read_le (a b : option Z) : Prop :=
  match a, b with
  | Some x, Some y => x <= y
  | _, _ => False
  end.

(** ** Search *)

(** ASCII case folding of a whole string. *)
Fixpoint fold_case (s : string) : string :=
  match s with
  | EmptyString => EmptyString
  | String c s' => String (Db.upper c) (fold_case s')
  end.

(** [term] occurs in [s] as a case-insensitive substring. *)
Definition ci_substring (term s : string) : Prop :=
  contains (fold_case term) (fold_case s).

(** [term] holds neither of the two LIKE wildcards. *)
Fixpoint wildcard_free (term : string) : bool :=
  match term with
  | EmptyString => true
  | String c t =>
      negb (Ascii.eqb c Db.percent) && negb (Ascii.eqb c Db.underscore)
      && wildcard_free t
  end.

(** [a] may come before [b] in a listing that is newest first. *)
Definition newest_first (a b : SharedFile.row) : Prop :=
  SharedFile.created_at b <= SharedFile.created_at a.

(** ** Sample requests and states *)

Definition hello : list Byte.byte :=
  [Byte.x68; Byte.x65; Byte.x6c; Byte.x6c; Byte.x6f].

Definition notes_txt : Http.file := Http.mkFile "notes.txt" "text/plain" 5 hello.

Definition face_png : Http.file := Http.mkFile "face.png" "image/png" 5 hello.

Definition hi : list Byte.byte := [Byte.x68; Byte.x69].

Definition other_txt : Http.file := Http.mkFile "other.txt" "text/plain" 2 hi.

Definition world0 : Server.world := Server.mkWorld ∅ Db.empty [].

Definition env_ok (now : Z) (uuid : string) : Server.env :=
  Server.mkEnv now uuid false Server.no_faults.

Definition only (o o' : Server.op) : bool :=
  match o, o' with
  | Server.OpWriteFile, Server.OpWriteFile => true
  | Server.OpUpsertUser, Server.OpUpsertUser => true
  | Server.OpCreateSharedFile, Server.OpCreateSharedFile => true
  | Server.OpDeleteSharedFile, Server.OpDeleteSharedFile => true
  | _, _ => false
  end.

(** An environment in which exactly the call [o] rejects. *)
Definition env_failing (now : Z) (uuid : string) (o : Server.op) : Server.env :=
  Server.mkEnv now uuid false (only o).

(** The state after user u1 uploaded notes.txt, stored under f-1. *)
Definition world1 : Server.world :=
  fst (FilesRoute.upload (Some "u1"%string) None (Some notes_txt)
         (env_ok 100 "f-1") world0).

(** ... and after u1 deleted it again. *)
Definition world2 : Server.world :=
  fst (FilesRoute.delete "f-1" (Some "u1"%string) (env_ok 200 "-") world1).

(** The state after user u1 uploaded a first profile picture, stored
    under p-1. *)
Definition world_pic : Server.world :=
  fst (ProfileRoute.upload_picture (Some "u1"%string) None None (Some face_png)
         (env_ok 100 "p-1") world0).

(** ** Orders and outcomes of the handlers *)

(** The metadata insert that follows the blob write is rejected: by the
    storage engine, or because the identifier is already taken. *)
Definition create_rejected (e : Server.env) (w : Server.world) : Prop :=
  Server.fails e Server.OpCreateSharedFile = true \/
  Db.getSharedFile (Server.uuid e) (Server.db w) <> None.

(** In a run of mutations, every blob removal comes before every row
    delete. *)
Definition removal_before_row_delete (evs : list Server.event) : Prop :=
  forall i j p f u c,
    evs !! i = Some (Server.EvRemove p) ->
    evs !! j = Some (Server.EvDeleteSharedFile f u c) -> (i < j)%nat.

(** In a run of mutations, every row delete comes before every blob
    removal (the order of the specification). *)
Definition row_delete_before_removal (evs : list Server.event) : Prop :=
  forall i j p f u c,
    evs !! i = Some (Server.EvDeleteSharedFile f u c) ->
    evs !! j = Some (Server.EvRemove p) -> (i < j)%nat.

(** The state a delete that passes both gates leaves behind. *)
Definition after_delete (w : Server.world) (fid uid path : string) : Server.world :=
  let present := bool_decide (is_Some (Server.disk w !! path)) in
  Server.mkWorld
    (if present then delete path (Server.disk w) else Server.disk w)
    (fst (Db.deleteSharedFile fid uid (Server.db w)))
    (Server.log w ++ (if present then [Server.EvRemove path] else [])
       ++ [Server.EvDeleteSharedFile fid uid
             (snd (Db.deleteSharedFile fid uid (Server.db w)))]).

(** In a run of mutations, every blob removal comes before every user
    upsert. *)
Definition removal_before_upsert (evs : list Server.event) : Prop :=
  forall i j p u l,
    evs !! i = Some (Server.EvRemove p) ->
    evs !! j = Some (Server.EvUpsertUser u l) -> (i < j)%nat.

(** In a run of mutations, every user upsert comes before every blob
    removal (the order of the specification). *)
Definition upsert_before_removal (evs : list Server.event) : Prop :=
  forall i j p u l,
    evs !! i = Some (Server.EvUpsertUser u l) ->
    evs !! j = Some (Server.EvRemove p) -> (i < j)%nat.

(** The path the handler stores a new picture under. *)
Definition picture_path (userId uuid : string) (file : Http.file) : string :=
  "uploads/profiles/" +:+ "profile_" +:+ userId +:+ "_" +:+ uuid
    +:+ Js.or_else (Some (Path.extname (Http.originalname file))) ".jpg".

(** ** Further vocabulary *)

(** The sum of a column. *)
Definition total (l : list Z) : Z := fold_right Z.add 0 l.

(** The rows of [shared_files] that belong to [uid]. *)
Definition files_of (uid : string) (d : Db.t) : list SharedFile.row :=
  List.filter (Db.owned_by uid) (Db.shared_files d).

(** The categories that are decided by a MIME prefix or by the exact PDF
    type. *)
Definition prefix_categories : list string :=
  ["image"; "video"; "audio"; "pdf"; "text"].

(** A users row has a picture path exactly when it has a picture url. *)
Definition picture_fields_agree (r : User.row) : Prop :=
  Js.truthy (User.profile_picture_path r) = None <->
  Js.truthy (User.profile_picture_url r) = None.

(** The picture path a users row holds, if any. *)
Definition picture_of (uid : string) (d : Db.t) : option string :=
  Db.getUser uid d ≫= (fun r => Js.truthy (User.profile_picture_path r)).

(** The state after the previous picture of [uid], if it is on disk, has
    been removed. *)
Definition without_old_picture (uid : string) (w : Server.world) : Server.world :=
  match picture_of uid (Server.db w) with
  | Some oldPath =>
      if bool_decide (is_Some (Server.disk w !! oldPath))
      then Server.mkWorld (delete oldPath (Server.disk w)) (Server.db w)
             (Server.log w ++ [Server.EvRemove oldPath])
      else w
  | None => w
  end.

(** Every users row has a picture path exactly when it has a url. *)
Definition pictures_agree (d : Db.t) : Prop :=
  forall r, In r (Db.users d) -> picture_fields_agree r.

(** The row an upload inserts, and the state it leaves when the write and
    the insert succeed. *)
Definition uploaded_row (e : Server.env) (d : Db.t) (uid : string)
    (description : option string) (file : Http.file) : SharedFile.row :=
  let fileName := (Server.uuid e +:+ Path.extname (Http.originalname file))%string in
  SharedFile.mkRow
    (Db.next_rowid (map SharedFile.id (Db.shared_files d)) (Db.shared_files_seq d))
    (Server.uuid e) uid (Http.originalname file) fileName
    ("uploads/shared/" +:+ fileName) ("/uploads/shared/" +:+ fileName)
    (Http.size file) (Http.mimetype file) (Js.or_else description EmptyString)
    (Files.getFileCategory (Http.mimetype file)) 0 false (Server.now e) (Server.now e).

Definition after_upload (e : Server.env) (w : Server.world) (uid : string)
    (description : option string) (file : Http.file) : Server.world :=
  let r := uploaded_row e (Server.db w) uid description file in
  Server.mkWorld
    (<[SharedFile.file_path r := Http.buffer file]> (Server.disk w))
    (Db.mk (Db.users (Server.db w)) (Db.users_seq (Server.db w))
       (Db.shared_files (Server.db w) ++ [r]) (SharedFile.id r))
    (Server.log w ++ [Server.EvWriteFile (SharedFile.file_path r);
                      Server.EvCreateSharedFile (Server.uuid e) (SharedFile.id r)]).

(** The Content-Disposition value the download handler builds. *)
Definition contentDisposition_of (name : string) : string :=
  "attachment; filename=" +:+ FilesRoute.quote +:+ name +:+ FilesRoute.quote.

(** Both header values of a download of [r] pass [setHeader]. *)
Definition headers_ok (r : SharedFile.row) : bool :=
  FilesRoute.validHeaderValue (SharedFile.mime_type r) &&
  FilesRoute.validHeaderValue (contentDisposition_of (SharedFile.original_name r)).

(** The segments of a path, split at the separator. *)
Fixpoint segments (p : string) : list string :=
  match p with
  | EmptyString => [EmptyString]
  | String c rest =>
    if Ascii.eqb c "/" then EmptyString :: segments rest
    else match segments rest with
         | seg :: more => String c seg :: more
         | [] => [String c EmptyString]
         end
  end.

Definition plain_segment (seg : string) : bool :=
  negb (String.eqb seg EmptyString) && negb (String.eqb seg ".")
  && negb (String.eqb seg "..").

(** A relative path in normal form: [path.join] of the server root and
    such a path is the root followed by the path itself, and different
    paths of this form are different files. *)
Definition canonical (p : string) : bool := forallb plain_segment (segments p).

(** The state after u1, u2, u1 and u1 again uploaded notes.txt, at times
    100, 150, 200 and 300. *)
Definition world_shared : Server.world :=
  let up (uid fid : string) (now : Z) (w : Server.world) :=
    fst (FilesRoute.upload (Some uid) None (Some notes_txt) (env_ok now fid) w) in
  up "u1" "f-4" 300 (up "u1" "f-3" 200 (up "u2" "f-2" 150 world1)).

(** The character of [path] at index [j], if there is one. *)
Definition char_at (path : string) (j : Z) : option ascii :=
  if j <? 0 then None else String.get (Z.to_nat j) path.

(** [s] holds no path separator. *)
Definition no_separator (s : string) : Prop :=
  forall p, String.get p s <> Some "/"%char.

(** What the backwards scan of [extname] knows before it visits index [i]:
    the end of the last path component is marked before its dot, and no
    separator lies between the marked dot (or the next index to visit)
    and the marked end. *)
Definition scan_ok (path : string) (i : Z) (st : Path.scan) : Prop :=
  (Path.end_ st = -1 -> Path.startDot st = -1) /\
  (Path.end_ st <> -1 -> Path.matchedSlash st = false) /\
  (Path.end_ st <> -1 -> Path.stopped st = false ->
   i < Path.end_ st /\
   forall j, i < j < Path.end_ st -> char_at path j <> Some "/"%char) /\
  (Path.startDot st <> -1 ->
   0 <= Path.startDot st < Path.end_ st /\
   forall j, Path.startDot st <= j < Path.end_ st ->
             char_at path j <> Some "/"%char).

(** * Properties *)

(** ** Strings *)

Lemma prefix_has_prefix p s : String.prefix p s = true <-> has_prefix p s.
Proof.
  revert s. induction p as [|c p IH]; intros s.
  - split; [intros _; exists s; reflexivity | intros _; destruct s; reflexivity].
  - destruct s as [|d s]; simpl.
    + split; [discriminate | intros [t Ht]; discriminate].
    + destruct (ascii_dec c d) as [->|Hne].
      * rewrite IH. split; intros [t Ht]; exists t.
        -- now subst s.
        -- simpl in Ht. now inversion Ht.
      * split; [discriminate | intros [t Ht]; simpl in Ht; inversion Ht; congruence].
Qed.

Lemma includes_contains s p : Js.includes s p = true <-> contains p s.
Proof.
  induction s as [|c s IH]; cbn [Js.includes].
  - rewrite orb_false_r, prefix_has_prefix. split.
    + intros [t Ht]. exists EmptyString, t. exact Ht.
    + intros [a [b Hab]]. destruct a; [exists b; exact Hab | discriminate].
  - rewrite orb_true_iff, prefix_has_prefix, IH. split.
    + intros [[t Ht] | [a [b Hab]]].
      * exists EmptyString, t. exact Ht.
      * exists (String c a), b. now subst s.
    + intros [a [b Hab]]. destruct a as [|c' a].
      * left. exists b. exact Hab.
      * right. exists a, b. simpl in Hab. now inversion Hab.
Qed.

Lemma startsWith_false s p : Js.startsWith s p = false <-> ~ has_prefix p s.
Proof.
  unfold Js.startsWith. rewrite <- prefix_has_prefix.
  destruct (String.prefix p s); split; congruence.
Qed.

Lemma includes_false s p : Js.includes s p = false <-> ~ contains p s.
Proof.
  rewrite <- includes_contains. destruct (Js.includes s p); split; congruence.
Qed.

(** ** The category table *)

Lemma getFileCategory_rule m : category_rule m (Files.getFileCategory m).
Proof.
  unfold Files.getFileCategory.
  destruct (Js.startsWith m "image/") eqn:Hi.
  { apply rule_image. now apply prefix_has_prefix. }
  destruct (Js.startsWith m "video/") eqn:Hv.
  { apply rule_video. now apply prefix_has_prefix. }
  destruct (Js.startsWith m "audio/") eqn:Ha.
  { apply rule_audio. now apply prefix_has_prefix. }
  destruct (String.eqb_spec m "application/pdf") as [Hp|Hp].
  { now apply rule_pdf. }
  destruct (Js.startsWith m "text/") eqn:Ht.
  { apply rule_text. now apply prefix_has_prefix. }
  apply startsWith_false in Hi, Hv, Ha, Ht.
  destruct (Js.includes m "word") eqn:Hw.
  { apply rule_document; auto. left. now apply includes_contains. }
  destruct (Js.includes m "document") eqn:Hd.
  { apply rule_document; auto. right. now apply includes_contains. }
  apply includes_false in Hw, Hd. simpl.
  destruct (Js.includes m "zip") eqn:Hz.
  { apply rule_archive; auto. now apply includes_contains. }
  apply includes_false in Hz. now apply rule_other.
Qed.

(** The table is a function: the rules never overlap. *)
Lemma category_rule_functional m c1 c2 :
  category_rule m c1 -> category_rule m c2 -> c1 = c2.
Proof.
  intros H1 H2.
  destruct H1; destruct H2; try reflexivity; try tauto; try congruence;
    exfalso;
    repeat match goal with
    | H : has_prefix _ _ |- _ => destruct H as [? H]
    end;
    subst; cbn in *; discriminate.
Qed.

(** C6: [getFileCategory] implements the fixed first-match-wins,
    case-sensitive decision table (image/, video/, audio/ prefixes,
    exactly application/pdf, text/ prefix, then "word" or "document"
    anywhere, then "zip" anywhere, otherwise other), and takes the four
    listed values of the specification. *)
Theorem getFileCategory_decision_table :
  (forall m, category_rule m (Files.getFileCategory m)) /\
  (forall m c, category_rule m c <-> c = Files.getFileCategory m) /\
  Files.getFileCategory "image/png" = "image"%string /\
  Files.getFileCategory "application/pdf" = "pdf"%string /\
  Files.getFileCategory "application/zip" = "archive"%string /\
  Files.getFileCategory "application/unknown" = "other"%string /\
  Files.getFileCategory "IMAGE/PNG" = "other"%string /\
  Files.getFileCategory "text/x-word-list" = "text"%string.
Proof.
  split; [exact getFileCategory_rule|].
  split.
  - intros m c. split.
    + intros H. exact (category_rule_functional m _ _ H (getFileCategory_rule m)).
    + intros ->. apply getFileCategory_rule.
  - repeat split; reflexivity.
Qed.

(** ** Size formatting *)

Lemma log_index_bounds bytes :
  1 <= bytes ->
  0 <= Files.log_index bytes /\
  Files.k ^ Files.log_index bytes <= bytes < Files.k ^ (Files.log_index bytes + 1).
Proof.
  intros Hb. unfold Files.log_index, Files.k.
  pose proof (Z.log2_nonneg bytes) as HL.
  destruct (Z.log2_spec bytes ltac:(lia)) as [Hlo Hhi].
  set (L := Z.log2 bytes) in *.
  assert (Hi : 0 <= L / 10) by (apply Z.div_pos; lia).
  assert (Hdm : 10 * (L / 10) <= L < 10 * (L / 10) + 10).
  { pose proof (Z.div_mod L 10 ltac:(lia)). pose proof (Z.mod_pos_bound L 10 ltac:(lia)). lia. }
  split; [exact Hi|].
  change 1024 with (2 ^ 10).
  rewrite <- !Z.pow_mul_r by lia.
  split.
  - apply Z.le_trans with (2 ^ L); [apply Z.pow_le_mono_r; lia | exact Hlo].
  - apply Z.lt_le_trans with (2 ^ Z.succ L); [exact Hhi | apply Z.pow_le_mono_r; lia].
Qed.

Lemma log_index_table bytes :
  1 <= bytes < 1024 ^ 4 -> 0 <= Files.log_index bytes <= 3.
Proof.
  intros [Hlo Hhi]. split; [apply log_index_bounds; lia|].
  unfold Files.log_index.
  assert (Z.log2 bytes < 40).
  { apply Z.log2_lt_pow2; [lia|]. change (2 ^ 40) with (1024 ^ 4). exact Hhi. }
  pose proof (Z.log2_nonneg bytes).
  assert (Z.log2 bytes / 10 < 4) by (apply Z.div_lt_upper_bound; lia).
  lia.
Qed.

(** [toFixed2] is the nearest count of hundredths, ties upwards. *)
Lemma toFixed2_nearest num den :
  0 < den ->
  (2 * Files.toFixed2 num den - 1) * den <= 200 * num
    < (2 * Files.toFixed2 num den + 1) * den.
Proof.
  intros Hd. unfold Files.toFixed2.
  pose proof (Z.div_mod (200 * num + den) (2 * den) ltac:(lia)).
  pose proof (Z.mod_pos_bound (200 * num + den) (2 * den) ltac:(lia)).
  nia.
Qed.

Lemma sizes_at_table i :
  0 <= i <= 3 -> Files.sizes !! Z.to_nat i = Some (Files.sizes_at i).
Proof.
  intros Hi.
  assert (i = 0 \/ i = 1 \/ i = 2 \/ i = 3) as [->|[->|[->| ->]]] by lia;
    reflexivity.
Qed.

Lemma append_cons c (a b : string) : String c a +:+ b = String c (a +:+ b).
Proof. reflexivity. Qed.

Lemma append_assoc (a b c : string) : (a +:+ b) +:+ c = a +:+ (b +:+ c).
Proof.
  induction a as [|x a IH]; [reflexivity|].
  rewrite !append_cons. now rewrite IH.
Qed.

Lemma append_empty_r (a : string) : a +:+ EmptyString = a.
Proof.
  induction a as [|x a IH]; [reflexivity|].
  rewrite append_cons. now rewrite IH.
Qed.

Lemma number_to_string_drops_zeros n :
  Files.toFixed2_string n = Files.number_to_string n +:+ dropped_zeros n.
Proof.
  unfold Files.number_to_string, dropped_zeros, Files.toFixed2_string.
  destruct (Z.eqb_spec (n mod 100) 0) as [H100|H100].
  - assert (H10 : n mod 10 = 0).
    { pose proof (Z.div_mod n 100 ltac:(lia)).
      replace n with (10 * (10 * (n / 100))) at 1 by lia.
      rewrite Z.mul_comm. apply Z.mod_mul. lia. }
    rewrite H100, H10. reflexivity.
  - destruct (Z.eqb_spec (n mod 10) 0) as [H10|H10].
    + rewrite H10. rewrite !append_assoc. reflexivity.
    + now rewrite append_empty_r.
Qed.

(** C5 (as the code has it): [formatFileSize] prints 0 as "0 Bytes" and
    every byte count from 1 up to (not including) 1024^4 in the largest
    unit of Bytes/KB/MB/GB whose scaled value is at least 1, rounded to
    the nearest hundredth and printed in shortest form, that is with at
    most two decimals and no trailing zeros: 1536 gives "1.5 KB" and
    1073741824 gives "1 GB". *)
Theorem formatFileSize_shortest_form :
  (forall bytes, 1 <= bytes < 1024 ^ 4 ->
     exists i n unit,
       0 <= i <= 3 /\
       Files.sizes !! Z.to_nat i = Some unit /\
       1024 ^ i <= bytes < 1024 ^ (i + 1) /\
       (2 * n - 1) * 1024 ^ i <= 200 * bytes < (2 * n + 1) * 1024 ^ i /\
       Files.toFixed2_string n = Files.number_to_string n +:+ dropped_zeros n /\
       Files.formatFileSize bytes = Files.number_to_string n +:+ " " +:+ unit) /\
  Files.formatFileSize 0 = "0 Bytes"%string /\
  Files.formatFileSize 1536 = "1.5 KB"%string /\
  Files.formatFileSize 1073741824 = "1 GB"%string.
Proof.
  split; [|repeat split; vm_compute; reflexivity].
  intros bytes Hb.
  destruct (log_index_bounds bytes ltac:(lia)) as [Hi0 Hpow].
  pose proof (log_index_table bytes Hb) as Hi.
  exists (Files.log_index bytes),
         (Files.toFixed2 bytes (Files.k ^ Files.log_index bytes)),
         (Files.sizes_at (Files.log_index bytes)).
  split; [exact Hi|].
  split; [apply sizes_at_table; exact Hi|].
  split; [exact Hpow|].
  split; [apply toFixed2_nearest; unfold Files.k; lia|].
  split; [apply number_to_string_drops_zeros|].
  unfold Files.formatFileSize.
  destruct (Z.eqb_spec bytes 0); [lia|].
  destruct (Z.ltb_spec bytes 0); [lia|].
  reflexivity.
Qed.

Lemma formatFileSize_shortest_form_witness :
  1 <= 1536 < 1024 ^ 4 /\
  exists i n unit,
    0 <= i <= 3 /\
    Files.sizes !! Z.to_nat i = Some unit /\
    1024 ^ i <= 1536 < 1024 ^ (i + 1) /\
    (2 * n - 1) * 1024 ^ i <= 200 * 1536 < (2 * n + 1) * 1024 ^ i /\
    Files.toFixed2_string n = Files.number_to_string n +:+ dropped_zeros n /\
    Files.formatFileSize 1536 = Files.number_to_string n +:+ " " +:+ unit.
Proof.
  split; [lia|].
  apply (proj1 formatFileSize_shortest_form 1536). lia.
Defined.

(** C5 as stated fails: the two worked values of the specification carry
    two decimals, the code prints neither. *)
Lemma formatFileSize_not_two_decimals :
  Files.formatFileSize 1536 <> "1.50 KB"%string /\
  Files.formatFileSize 1073741824 <> "1.00 GB"%string /\
  Files.formatFileSize 0 = "0 Bytes"%string.
Proof. repeat split; vm_compute; discriminate. Qed.

(** ** Row-level facts about the store *)

Lemma max_rowid_ge ids x : In x ids -> x <= Db.max_rowid ids.
Proof.
  induction ids as [|y ids IH]; simpl; [tauto|].
  intros [->|Hin]; [lia | specialize (IH Hin); lia].
Qed.

Lemma next_rowid_fresh ids seq x : In x ids -> x < Db.next_rowid ids seq.
Proof. intros Hin. apply max_rowid_ge in Hin. unfold Db.next_rowid. lia. Qed.

Lemma find_some_in {A} (f : A -> bool) l x :
  List.find f l = Some x -> In x l /\ f x = true.
Proof. apply List.find_some. Qed.

Lemma find_app_none {A} (f : A -> bool) l1 l2 :
  List.find f l1 = None -> List.find f (l1 ++ l2) = List.find f l2.
Proof.
  induction l1 as [|x l1 IH]; simpl; [reflexivity|].
  destruct (f x); [discriminate | exact IH].
Qed.

Lemma find_filter_negb {A} (f : A -> bool) l :
  List.find f (List.filter (fun x => negb (f x)) l) = None.
Proof.
  induction l as [|x l IH]; simpl; [reflexivity|].
  destruct (f x) eqn:Hf; simpl; [exact IH | now rewrite Hf].
Qed.

(** C10: [upsertUser] on a [userId] that already has a row replaces the
    row instead of updating it: the row read back afterwards carries the
    time of the call as [created_at] and a new, larger rowid (the one
    returned as [lastID]); the previous row, with its creation time, is no
    longer in the table. *)
Theorem upsertUser_replaces_row now u d old :
  Db.getUser (Db.userId u) d = Some old ->
  exists new,
    Db.getUser (Db.userId u) (fst (Db.upsertUser now u d)) = Some new /\
    new = User.mkRow (snd (Db.upsertUser now u d)) (Db.userId u)
            (Db.username u) (Db.email u)
            (Db.profilePicturePath u) (Db.profilePictureUrl u) now now /\
    User.created_at new = now /\
    User.id old < User.id new /\
    ~ In old (Db.users (fst (Db.upsertUser now u d))).
Proof.
  intros Hold. apply find_some_in in Hold as [Hin Huid].
  eexists. split; [|split; [reflexivity|]].
  - unfold Db.getUser, Db.upsertUser. cbn [fst Db.users].
    rewrite find_app_none by apply (find_filter_negb (Db.is_user (Db.userId u))).
    cbn [List.find]. unfold Db.is_user at 1. cbn [User.user_id].
    now rewrite String.eqb_refl.
  - cbn [User.created_at User.id snd Db.upsertUser].
    assert (Hlt : User.id old < Db.next_rowid (map User.id (Db.users d)) (Db.users_seq d)).
    { apply next_rowid_fresh. now apply in_map. }
    split; [reflexivity|]. split; [exact Hlt|].
    unfold Db.upsertUser. cbn [fst Db.users]. rewrite List.in_app_iff.
    intros [Hk|[Hn|[]]].
    + apply List.filter_In in Hk as [_ Hk]. now rewrite Huid in Hk.
    + rewrite <- Hn in Hlt. cbn [User.id] in Hlt. lia.
Qed.

(** The UNIQUE constraint on [file_id] holds in the empty store and is
    kept by every statement that writes [shared_files]. *)
Lemma unique_file_ids_empty : Db.unique_file_ids Db.empty.
Proof. constructor. Qed.

Lemma createSharedFile_unique now f d d' rid :
  Db.unique_file_ids d ->
  Db.createSharedFile now f d = inr (d', rid) ->
  Db.unique_file_ids d'.
Proof.
  unfold Db.unique_file_ids, Db.createSharedFile. intros Hu.
  destruct (existsb (Db.is_file (Db.fileId f)) (Db.shared_files d)) eqn:Hex;
    [discriminate|].
  intros [= <- <-]. cbn [Db.shared_files].
  rewrite map_app. apply NoDup_app. split; [exact Hu|]. split.
  - intros x Hx Hx2. cbn [map SharedFile.file_id] in Hx2.
    apply list_elem_of_In in Hx2 as [Heq|[]]. subst x.
    apply list_elem_of_In, in_map_iff in Hx as (r & Hr & Hin).
    assert (existsb (Db.is_file (Db.fileId f)) (Db.shared_files d) = true).
    { apply existsb_exists. exists r. split; [exact Hin|]. now apply String.eqb_eq. }
    congruence.
  - repeat constructor. intros H. inversion H.
Qed.

Lemma filter_unique (p : SharedFile.row -> bool) rows :
  NoDup (map SharedFile.file_id rows) ->
  NoDup (map SharedFile.file_id (List.filter p rows)).
Proof.
  induction rows as [|r rows IH]; simpl; [trivial|].
  intros Hnd. apply NoDup_cons in Hnd as [Hnotin Hnd].
  destruct (p r); [|now apply IH].
  simpl. apply NoDup_cons. split; [|now apply IH].
  intros Hin. apply Hnotin.
  apply list_elem_of_In, in_map_iff in Hin as (x & Hx & Hin).
  apply List.filter_In in Hin as [Hin _].
  apply list_elem_of_In, in_map_iff. eauto.
Qed.

Lemma deleteSharedFile_unique fid uid d :
  Db.unique_file_ids d -> Db.unique_file_ids (fst (Db.deleteSharedFile fid uid d)).
Proof. apply filter_unique. Qed.

Lemma incrementDownloadCount_unique now fid d :
  Db.unique_file_ids d ->
  Db.unique_file_ids (fst (Db.incrementDownloadCount now fid d)).
Proof.
  unfold Db.unique_file_ids, Db.incrementDownloadCount. cbn [fst Db.shared_files].
  rewrite map_map.
  erewrite map_ext; [exact (fun H => H)|].
  intros r. cbn beta. now destruct (Db.is_file fid r).
Qed.

(** ** Download accounting *)

Lemma filter_unique_length fid rows :
  NoDup (map SharedFile.file_id rows) ->
  (length (List.filter (Db.is_file fid) rows) <= 1)%nat.
Proof.
  induction rows as [|r rows IH]; simpl; [lia|].
  intros Hnd. apply NoDup_cons in Hnd as [Hnotin Hnd].
  specialize (IH Hnd).
  destruct (Db.is_file fid r) eqn:Hr; [|exact IH].
  simpl. apply String.eqb_eq in Hr.
  destruct (List.filter (Db.is_file fid) rows) as [|r' rest] eqn:Hf; [simpl; lia|].
  exfalso. apply Hnotin.
  assert (Hin : In r' (List.filter (Db.is_file fid) rows)) by (rewrite Hf; now left).
  apply List.filter_In in Hin as [Hin Hr'].
  apply String.eqb_eq in Hr'. rewrite list_elem_of_In, Hr, <- Hr'. now apply in_map.
Qed.

Lemma find_filter_length {A} (f : A -> bool) l :
  List.find f l = None <-> length (List.filter f l) = 0%nat.
Proof.
  induction l as [|x l IH]; simpl; [tauto|].
  destruct (f x); simpl; [split; discriminate | exact IH].
Qed.

Lemma touch_file_id now r : SharedFile.file_id (SharedFile.touch now r) = SharedFile.file_id r.
Proof. reflexivity. Qed.

Lemma find_touch now fid fid' rows :
  List.find (Db.is_file fid')
    (map (fun r => if Db.is_file fid r then SharedFile.touch now r else r) rows)
  = option_map (fun r => if Db.is_file fid r then SharedFile.touch now r else r)
      (List.find (Db.is_file fid') rows).
Proof.
  induction rows as [|r rows IH]; simpl; [reflexivity|].
  assert (Hsame : Db.is_file fid'
                    (if Db.is_file fid r then SharedFile.touch now r else r)
                  = Db.is_file fid' r).
  { destruct (Db.is_file fid r); reflexivity. }
  rewrite Hsame. destruct (Db.is_file fid' r); [reflexivity | exact IH].
Qed.

Lemma increment_row now fid d r :
  Db.getSharedFile fid d = Some r ->
  Db.getSharedFile fid (increment_at fid d now) = Some (SharedFile.touch now r).
Proof.
  unfold Db.getSharedFile, increment_at, Db.incrementDownloadCount.
  cbn [fst Db.shared_files]. intros Hr. rewrite find_touch, Hr. simpl.
  apply find_some_in in Hr as [_ Hr]. now rewrite Hr.
Qed.

Lemma increment_other now fid fid' d :
  fid' <> fid ->
  Db.getSharedFile fid' (increment_at fid d now) = Db.getSharedFile fid' d.
Proof.
  unfold Db.getSharedFile, increment_at, Db.incrementDownloadCount.
  cbn [fst Db.shared_files]. intros Hne. rewrite find_touch.
  destruct (List.find (Db.is_file fid') (Db.shared_files d)) as [r|] eqn:Hr;
    [|reflexivity].
  apply find_some_in in Hr as [_ Hr]. apply String.eqb_eq in Hr. simpl.
  destruct (String.eqb_spec (SharedFile.file_id r) fid) as [Heq|_];
    unfold Db.is_file.
  - congruence.
  - destruct (String.eqb_spec (SharedFile.file_id r) fid); [congruence | reflexivity].
Qed.

Lemma increment_all_row fid ts : forall d r,
  Db.getSharedFile fid d = Some r ->
  exists r',
    Db.getSharedFile fid (increment_all fid ts d) = Some r' /\
    SharedFile.download_count r' = SharedFile.download_count r + Z.of_nat (length ts) /\
    access_history fid ts d = map Some ts.
Proof.
  induction ts as [|t ts IH]; intros d r Hr.
  - exists r. simpl. split; [exact Hr|]. split; [lia | reflexivity].
  - apply (increment_row t) in Hr as Hr'.
    destruct (IH _ _ Hr') as (r' & Hget & Hcount & Hhist).
    exists r'. split; [exact Hget|]. split.
    + rewrite Hcount. cbn [SharedFile.touch SharedFile.download_count length]. lia.
    + cbn [access_history map]. rewrite Hr', Hhist. reflexivity.
Qed.

Lemma sorted_read_backs ts : Sorted Z.le ts -> Sorted read_le (map Some ts).
Proof.
  induction 1 as [|t ts Hs IH Hhd]; simpl; constructor; [exact IH|].
  destruct Hhd as [|t' ts' Hle]; constructor. exact Hle.
Qed.

Lemma createSharedFile_row now f d d' rid :
  Db.createSharedFile now f d = inr (d', rid) ->
  exists r,
    Db.getSharedFile (Db.fileId f) d' = Some r /\
    SharedFile.download_count r = 0 /\
    SharedFile.last_accessed r = now.
Proof.
  unfold Db.createSharedFile, Db.getSharedFile.
  destruct (existsb (Db.is_file (Db.fileId f)) (Db.shared_files d)) eqn:Hex;
    [discriminate|].
  intros [= <- <-]. cbn [Db.shared_files].
  assert (Hnone : List.find (Db.is_file (Db.fileId f)) (Db.shared_files d) = None).
  { destruct (List.find (Db.is_file (Db.fileId f)) (Db.shared_files d)) as [x|] eqn:Hx;
      [|reflexivity].
    apply find_some_in in Hx as [Hin Hx].
    assert (existsb (Db.is_file (Db.fileId f)) (Db.shared_files d) = true)
      by (apply existsb_exists; eauto).
    congruence. }
  eexists. split.
  { rewrite (find_app_none _ _ _ Hnone).
    cbn [List.find]. unfold Db.is_file at 1. cbn [SharedFile.file_id].
    rewrite String.eqb_refl. reflexivity. }
  split; reflexivity.
Qed.

(** C9: one [incrementDownloadCount] adds exactly one to [download_count]
    and stores the time of the call in [last_accessed], in the same
    update, leaving every other file alone; under the UNIQUE constraint on
    [file_id] it reports 1 affected row when the id exists and 0 when it
    does not, never more; N calls on an existing id add N to the counter
    (so N on a newly created row, which starts at 0), and the value of
    [last_accessed] read back after each call is the clock reading of that
    call, hence non-decreasing when the clock is. *)
Theorem incrementDownloadCount_counts :
  (forall now fid d r,
     Db.getSharedFile fid d = Some r ->
     exists r',
       Db.getSharedFile fid (fst (Db.incrementDownloadCount now fid d)) = Some r' /\
       r' = SharedFile.touch now r /\
       SharedFile.download_count r' = SharedFile.download_count r + 1 /\
       SharedFile.last_accessed r' = now) /\
  (forall now fid fid' d,
     fid' <> fid ->
     Db.getSharedFile fid' (fst (Db.incrementDownloadCount now fid d))
     = Db.getSharedFile fid' d) /\
  (forall now fid d,
     Db.unique_file_ids d ->
     snd (Db.incrementDownloadCount now fid d)
     = match Db.getSharedFile fid d with Some _ => 1 | None => 0 end) /\
  (forall fid ts d r,
     Db.getSharedFile fid d = Some r ->
     exists r',
       Db.getSharedFile fid (increment_all fid ts d) = Some r' /\
       SharedFile.download_count r'
       = SharedFile.download_count r + Z.of_nat (length ts) /\
       access_history fid ts d = map Some ts /\
       (Sorted Z.le (SharedFile.last_accessed r :: ts) ->
        Sorted read_le
          (Some (SharedFile.last_accessed r) :: access_history fid ts d))) /\
  (forall now f d d' rid,
     Db.createSharedFile now f d = inr (d', rid) ->
     exists r, Db.getSharedFile (Db.fileId f) d' = Some r /\
               SharedFile.download_count r = 0).
Proof.
  split; [|split; [|split; [|split]]].
  - intros now fid d r Hr. exists (SharedFile.touch now r).
    split; [exact (increment_row now fid d r Hr)|]. repeat split.
  - intros now fid fid' d Hne. exact (increment_other now fid fid' d Hne).
  - intros now fid d Hu. unfold Db.incrementDownloadCount, Db.getSharedFile.
    cbn [snd]. pose proof (filter_unique_length fid _ Hu) as Hle.
    pose proof (find_filter_length (Db.is_file fid) (Db.shared_files d)) as Hz.
    destruct (List.find (Db.is_file fid) (Db.shared_files d)).
    + assert (length (List.filter (Db.is_file fid) (Db.shared_files d)) <> 0%nat)
        by (intros H0; apply Hz in H0; discriminate).
      lia.
    + assert (length (List.filter (Db.is_file fid) (Db.shared_files d)) = 0%nat)
        by now apply Hz.
      lia.
  - intros fid ts d r Hr.
    destruct (increment_all_row fid ts d r Hr) as (r' & Hget & Hcount & Hhist).
    exists r'. repeat split; try assumption.
    rewrite Hhist. intros Hs. exact (sorted_read_backs _ Hs).
  - intros now f d d' rid Hc.
    destruct (createSharedFile_row now f d d' rid Hc) as (r & Hr & H0 & _).
    now exists r.
Qed.

(** ** Statistics *)

Lemma filter_none {A} (f : A -> bool) l :
  (forall x, In x l -> f x = false) -> List.filter f l = [].
Proof.
  induction l as [|x l IH]; intros H; simpl; [reflexivity|].
  rewrite (H x) by now left. apply IH. intros y Hy. apply H. now right.
Qed.

Lemma getUserFileStats_null_sums uid d :
  (forall r, In r (Db.shared_files d) -> SharedFile.user_id r <> uid) ->
  Db.getUserFileStats uid d = Db.mkStats 0 None None.
Proof.
  intros Hnone. unfold Db.getUserFileStats.
  rewrite filter_none; [reflexivity|].
  intros r Hr. apply String.eqb_neq. now apply Hnone.
Qed.

(** C8 (as the code has it): for an owner with no shared files the
    repository's [getUserFileStats] returns the count 0 but NULL, not 0,
    for the total size and the total downloads ([SUM] over no rows).  The
    zeros are made by the statistics handler: when both its queries
    succeed, its response carries [totalFiles], [totalSize] and
    [totalDownloads] all equal to the number zero, the size text
    "0 Bytes" and an empty list of recent files, and nothing is changed. *)
Theorem stats_zero_without_files e w uid :
  (forall r, In r (Db.shared_files (Server.db w)) -> SharedFile.user_id r <> uid) ->
  Server.fails e Server.OpGetUserFileStats = false ->
  Server.fails e Server.OpGetUserSharedFiles = false ->
  Db.total_files (Db.getUserFileStats uid (Server.db w)) = 0 /\
  Db.total_size (Db.getUserFileStats uid (Server.db w)) = None /\
  Db.total_downloads (Db.getUserFileStats uid (Server.db w)) = None /\
  exists s,
    FilesRoute.stats uid e w = (w, inr (Http.ok (Http.Stats s))) /\
    Http.totalFiles s = 0 /\ Http.totalSize s = 0 /\ Http.totalDownloads s = 0 /\
    Http.formattedTotalSize s = "0 Bytes"%string /\ Http.recentFiles s = [].
Proof.
  intros Hnone Hf1 Hf2.
  rewrite (getUserFileStats_null_sums uid (Server.db w) Hnone).
  repeat (split; [reflexivity|]).
  assert (Hfilter : List.filter (Db.owned_by uid) (Db.shared_files (Server.db w)) = []).
  { apply filter_none. intros r Hr. apply String.eqb_neq. now apply Hnone. }
  eexists. split.
  - unfold FilesRoute.stats, Server.try_catch, Server.bind,
      Store.getUserFileStats, Store.getUserSharedFiles, Server.call, Server.ret.
    rewrite Hf1, Hf2.
    unfold Db.getUserFileStats, Db.getUserSharedFiles. rewrite Hfilter.
    reflexivity.
  - repeat split.
Qed.

(** C8 as stated fails: u2 has no shared files (the only row belongs to
    u1), and the statistics the repository returns for u2 have a zero
    count but NULL for the total size and the total downloads. *)
Lemma getUserFileStats_sums_are_null :
  let st := Db.getUserFileStats "u2" (Server.db world1) in
  (forall r, In r (Db.shared_files (Server.db world1)) ->
             SharedFile.user_id r <> "u2"%string) /\
  Db.total_files st = 0 /\
  Db.total_size st = None /\ Db.total_size st <> Some 0 /\
  Db.total_downloads st = None /\ Db.total_downloads st <> Some 0.
Proof.
  split.
  - intros r Hr. vm_compute in Hr. destruct Hr as [<-|[]]. vm_compute. discriminate.
  - repeat split; try (vm_compute; reflexivity); vm_compute; discriminate.
Qed.

(** ** Search *)

Lemma any_suffix_ext f g s :
  (forall x, f x = g x) -> Db.any_suffix f s = Db.any_suffix g s.
Proof.
  intros Hfg. induction s as [|c s IH]; simpl; rewrite Hfg; [reflexivity|].
  now rewrite IH.
Qed.

Lemma includes_any_suffix s p :
  Js.includes (fold_case s) p
  = Db.any_suffix (fun x => String.prefix p (fold_case x)) s.
Proof.
  induction s as [|c s IH]; cbn [fold_case Js.includes Db.any_suffix];
    [reflexivity | now rewrite IH].
Qed.

Lemma like_percent_all s : Db.like "%" s = true.
Proof.
  cbn [Db.like]. change (Ascii.eqb "%" Db.percent) with true. cbv iota.
  induction s as [|c s IH]; cbn [Db.any_suffix Db.like]; [reflexivity|].
  rewrite IH. reflexivity.
Qed.

Lemma like_literal_prefix t s :
  wildcard_free t = true ->
  Db.like (t +:+ "%") s = String.prefix (fold_case t) (fold_case s).
Proof.
  revert s. induction t as [|c t IH]; intros s Hw.
  - change (EmptyString +:+ "%") with "%"%string. rewrite like_percent_all.
    destruct (fold_case s); reflexivity.
  - cbn [wildcard_free] in Hw. apply andb_prop in Hw as [Hw Ht].
    apply andb_prop in Hw as [Hp Hu].
    apply negb_true_iff in Hp, Hu.
    rewrite append_cons. cbn [Db.like]. rewrite Hp.
    destruct s as [|d s]; [reflexivity|].
    rewrite Hu, (IH s Ht). cbn [fold_case String.prefix orb].
    unfold Db.same_letter.
    destruct (Ascii.eqb_spec (Db.upper c) (Db.upper d)) as [Heq|Hne];
      destruct (ascii_dec (Db.upper c) (Db.upper d)); try contradiction;
      reflexivity.
Qed.

(** On a term without wildcards, the LIKE test of [searchFiles] is the
    case-insensitive substring test. *)
Lemma like_search_pattern t s :
  wildcard_free t = true ->
  Db.like (Db.search_pattern t) s = Js.includes (fold_case s) (fold_case t).
Proof.
  intros Hw. unfold Db.search_pattern.
  rewrite append_cons. change (EmptyString +:+ (t +:+ "%")) with (t +:+ "%").
  cbn [Db.like]. change (Ascii.eqb "%" Db.percent) with true. cbv iota.
  rewrite includes_any_suffix. apply any_suffix_ext.
  intros x. now apply like_literal_prefix.
Qed.

Lemma like_ci_substring t s :
  wildcard_free t = true ->
  Db.like (Db.search_pattern t) s = true <-> ci_substring t s.
Proof.
  intros Hw. rewrite (like_search_pattern t s Hw). apply includes_contains.
Qed.

Lemma insert_desc_in r x l : In x (Db.insert_desc r l) <-> x = r \/ In x l.
Proof.
  induction l as [|y l IH]; simpl; [intuition congruence|].
  destruct (SharedFile.created_at y <=? SharedFile.created_at r); simpl;
    [intuition congruence|].
  rewrite IH. intuition congruence.
Qed.

Lemma order_by_created_desc_in x l :
  In x (Db.order_by_created_desc l) <-> In x l.
Proof.
  induction l as [|y l IH]; simpl; [tauto|].
  rewrite insert_desc_in, IH. intuition congruence.
Qed.

Lemma insert_desc_sorted r l :
  Sorted newest_first l -> Sorted newest_first (Db.insert_desc r l).
Proof.
  induction 1 as [|y l Hs IH Hhd]; simpl.
  - repeat constructor.
  - destruct (Z.leb_spec (SharedFile.created_at y) (SharedFile.created_at r)).
    + constructor; [constructor; assumption|]. constructor. assumption.
    + constructor; [exact IH|].
      destruct Hhd as [|z l' Hz]; simpl.
      * constructor. unfold newest_first. lia.
      * destruct (Z.leb_spec (SharedFile.created_at z) (SharedFile.created_at r));
          constructor; unfold newest_first in *; lia.
Qed.

Lemma order_by_created_desc_sorted l :
  Sorted newest_first (Db.order_by_created_desc l).
Proof.
  induction l as [|r l IH]; simpl; [constructor | now apply insert_desc_sorted].
Qed.

Lemma take_sorted {A} (R : A -> A -> Prop) n l :
  Sorted R l -> Sorted R (take n l).
Proof.
  intros Hs. revert n. induction Hs as [|x l Hs IH Hhd]; intros [|n]; simpl;
    try constructor.
  - apply IH.
  - destruct Hhd as [|y l' Hy]; destruct n; simpl; constructor. exact Hy.
Qed.

Lemma in_take {A} (x : A) n l : In x (take n l) -> In x l.
Proof.
  revert n. induction l as [|y l IH]; intros [|n]; simpl; try tauto.
  intros [->|Hx]; [now left | right; eauto].
Qed.

(** The parts of the search contract the code keeps: only the owner's
    rows, newest first, never more than 20, and, for a term that holds no
    [%] and no [_], exactly the rows in which the term occurs as a
    case-insensitive substring of the name, the description or the
    category. *)
Lemma searchFiles_without_wildcards uid term d :
  (length (Db.searchFiles uid term d) <= 20)%nat /\
  Sorted newest_first (Db.searchFiles uid term d) /\
  (forall r, In r (Db.searchFiles uid term d) ->
     In r (Db.shared_files d) /\ SharedFile.user_id r = uid) /\
  (wildcard_free term = true ->
   forall r, In r (Db.searchFiles uid term d) ->
     ci_substring term (SharedFile.original_name r) \/
     ci_substring term (SharedFile.description r) \/
     ci_substring term (SharedFile.category r)).
Proof.
  unfold Db.searchFiles.
  assert (Hin : forall r,
    In r (take 20 (Db.order_by_created_desc
                     (List.filter (Db.search_matches uid term) (Db.shared_files d)))) ->
    In r (Db.shared_files d) /\ Db.search_matches uid term r = true).
  { intros r Hr. apply in_take in Hr.
    apply (proj1 (order_by_created_desc_in _ _)) in Hr.
    now apply List.filter_In in Hr. }
  split; [rewrite length_take; lia|].
  split; [apply take_sorted, order_by_created_desc_sorted|].
  split.
  - intros r Hr. destruct (Hin r Hr) as [Hd Hm]. split; [exact Hd|].
    unfold Db.search_matches in Hm. apply andb_prop in Hm as [Ho _].
    now apply String.eqb_eq in Ho.
  - intros Hw r Hr. destruct (Hin r Hr) as [_ Hm].
    unfold Db.search_matches in Hm. apply andb_prop in Hm as [_ Hm].
    rewrite !orb_true_iff, !(like_ci_substring term _ Hw) in Hm. tauto.
Qed.

(** C7 at a term that is a LIKE wildcard: for owner u1 and the search term
    "_" the query returns the row of notes.txt, although the character
    "_" occurs neither in its name ("notes.txt"), nor in its description
    (empty), nor in its category ("text"); the handler reports it as the
    single result. *)
Theorem searchFiles_underscore_is_wildcard :
  exists r,
    Db.getSharedFile "f-1" (Server.db world1) = Some r /\
    Db.searchFiles "u1" "_" (Server.db world1) = [r] /\
    SharedFile.original_name r = "notes.txt"%string /\
    SharedFile.description r = EmptyString /\
    SharedFile.category r = "text"%string /\
    ~ ci_substring "_" (SharedFile.original_name r) /\
    ~ ci_substring "_" (SharedFile.description r) /\
    ~ ci_substring "_" (SharedFile.category r) /\
    snd (FilesRoute.search "u1" (Some "_"%string) (env_ok 200 "-") world1)
    = inr (Http.ok (Http.Results "_" [FilesRoute.found_of r] 1)).
Proof.
  eexists. split; [vm_compute; reflexivity|].
  split; [vm_compute; reflexivity|].
  repeat split; try (vm_compute; reflexivity);
    cbn [SharedFile.original_name SharedFile.description SharedFile.category];
    unfold ci_substring; apply includes_false; vm_compute; reflexivity.
Qed.

(** ** Running handlers *)

Ltac run_handler :=
  unfold Fs.writeFile, Fs.stat, Fs.pathExists, Fs.remove,
    Store.getUser, Store.upsertUser, Store.createSharedFile,
    Store.getSharedFile, Store.getUserSharedFiles, Store.deleteSharedFile,
    Store.incrementDownloadCount, Store.getUserFileStats, Store.searchFiles;
  unfold Server.try_catch, Server.bind, Server.ask, Server.ret, Server.throw,
    Server.call, Server.emit;
  cbv beta.

Lemma rejection_is_not_a_file_type_error :
  Js.includes "operation failed" "File type not allowed" = false /\
  Js.includes Db.unique_file_id_failed "File type not allowed" = false.
Proof. split; vm_compute; reflexivity. Qed.

Lemma existsb_find {A} (f : A -> bool) l :
  existsb f l = true <-> List.find f l <> None.
Proof.
  induction l as [|x l IH]; simpl; [split; [discriminate | congruence]|].
  destruct (f x); simpl; [split; [discriminate | reflexivity] | exact IH].
Qed.

(** ** Download of a shared file *)

(** A download that finds the row and the blob bumps the counter once,
    through [incrementDownloadCount], and touches nothing else. *)
Lemma download_counts_once e w fid r blob :
  (forall o, Server.fails e o = false) ->
  Db.getSharedFile fid (Server.db w) = Some r ->
  Server.disk w !! SharedFile.file_path r = Some blob ->
  headers_ok r = true ->
  exists w' sent,
    FilesRoute.download fid e w = (w', inr (Http.ok sent)) /\
    Server.disk w' = Server.disk w /\
    Server.db w' = increment_at fid (Server.db w) (Server.now e) /\
    Db.getSharedFile fid (Server.db w')
    = Some (SharedFile.touch (Server.now e) r).
Proof.
  intros Hok Hr Hblob Hh.
  apply andb_true_iff in Hh as [Hmime Hname]. unfold contentDisposition_of in Hname.
  unfold FilesRoute.download, FilesRoute.setHeader. run_handler.
  pose proof (increment_row (Server.now e) fid (Server.db w) r Hr) as Hrow.
  unfold increment_at in *.
  repeat first
    [ progress cbn [Server.disk Server.db Server.log negb]
    | rewrite Hok | rewrite Hr | rewrite Hblob | rewrite Hmime | rewrite Hname
    | rewrite bool_decide_eq_true_2 by eauto ].
  destruct (Db.incrementDownloadCount (Server.now e) fid (Server.db w))
    as [d changes].
  eexists _, _. split; [reflexivity|].
  cbn [Server.disk Server.db fst] in *. auto.
Qed.

(** A download whose blob is missing answers 404 and counts nothing. *)
Lemma download_without_blob e w fid r :
  (forall o, Server.fails e o = false) ->
  Db.getSharedFile fid (Server.db w) = Some r ->
  Server.disk w !! SharedFile.file_path r = None ->
  FilesRoute.download fid e w
  = (w, inr (Http.mkResponse 404 (Http.Error "File not found on disk"))).
Proof.
  intros Hok Hr Hblob.
  unfold FilesRoute.download. run_handler.
  repeat first
    [ progress cbn [Server.disk Server.db Server.log negb]
    | rewrite Hok | rewrite Hr | rewrite Hblob
    | rewrite bool_decide_eq_false_2 by (intros [? ?]; discriminate) ].
  reflexivity.
Qed.

(** ** Upload of a shared file *)

(** C1 (as the code has it): when the blob write succeeds and the metadata
    insert is rejected, the upload handler answers 500 and does nothing
    else: the database is unchanged, the only mutation logged is the blob
    write (no removal follows it), and the disk is the old one with the
    uploaded bytes under the new path.  Hence, when no row named that
    path, the blob stays on disk with no row referring to it; and a row
    that does name it (as when the insert was rejected because the
    identifier is taken) is a row of the old table, whose blob is now the
    uploaded bytes. *)
Theorem upload_rejected_create_keeps_blob e w c uid description file :
  Server.fails e Server.OpWriteFile = false ->
  create_rejected e w ->
  let path :=
    ("uploads/shared/" +:+ Server.uuid e +:+ Path.extname (Http.originalname file))%string in
  exists w' message,
    FilesRoute.upload (Some (String c uid)) description (Some file) e w
    = (w', inr (Http.mkResponse 500 (Http.Failure "Failed to upload file" message))) /\
    Server.db w' = Server.db w /\
    Server.log w' = Server.log w ++ [Server.EvWriteFile path] /\
    Server.disk w' = <[path := Http.buffer file]> (Server.disk w) /\
    Server.disk w' !! path = Some (Http.buffer file) /\
    ((forall r, In r (Db.shared_files (Server.db w)) -> SharedFile.file_path r <> path) ->
     forall r, In r (Db.shared_files (Server.db w')) -> SharedFile.file_path r <> path) /\
    (forall r, In r (Db.shared_files (Server.db w')) -> SharedFile.file_path r = path ->
       In r (Db.shared_files (Server.db w)) /\
       Server.disk w' !! SharedFile.file_path r = Some (Http.buffer file)).
Proof.
  intros Hw Hc path.
  destruct rejection_is_not_a_file_type_error as [Hm1 Hm2].
  unfold FilesRoute.upload. cbn [Js.truthy]. run_handler. rewrite Hw.
  fold path.
  destruct (Server.fails e Server.OpCreateSharedFile) eqn:Hf.
  - rewrite Hm1. eexists _, _. split; [reflexivity|].
    cbn [Server.db Server.log Server.disk].
    repeat split; auto.
    + apply lookup_insert_eq.
    + match goal with H : _ = path |- _ => rewrite H end. apply lookup_insert_eq.
  - destruct Hc as [Hc|Hc]; [congruence|].
    unfold Db.createSharedFile. cbn [Db.fileId Server.db].
    apply existsb_find in Hc. unfold Db.getSharedFile in Hc. rewrite Hc, Hm2.
    eexists _, _. split; [reflexivity|].
    cbn [Server.db Server.log Server.disk].
    repeat split; auto.
    + apply lookup_insert_eq.
    + match goal with H : _ = path |- _ => rewrite H end. apply lookup_insert_eq.
Qed.

Lemma upload_rejected_create_keeps_blob_witness :
  (exists w' message,
     FilesRoute.upload (Some "u1"%string) None (Some other_txt)
       (env_failing 200 "f-2" Server.OpCreateSharedFile) world1
     = (w', inr (Http.mkResponse 500 (Http.Failure "Failed to upload file" message))) /\
     Server.db w' = Server.db world1 /\
     Server.log w' = Server.log world1 ++ [Server.EvWriteFile "uploads/shared/f-2.txt"] /\
     Server.disk w' !! "uploads/shared/f-2.txt"%string = Some hi /\
     forall r, In r (Db.shared_files (Server.db w')) ->
               SharedFile.file_path r <> "uploads/shared/f-2.txt"%string) /\
  (exists w' message r,
     FilesRoute.upload (Some "u2"%string) None (Some other_txt)
       (env_ok 200 "f-1") world1
     = (w', inr (Http.mkResponse 500 (Http.Failure "Failed to upload file" message))) /\
     Db.getSharedFile "f-1" (Server.db w') = Some r /\
     SharedFile.user_id r = "u1"%string /\
     Server.disk world1 !! SharedFile.file_path r = Some hello /\
     Server.disk w' !! SharedFile.file_path r = Some hi).
Proof.
  split.
  - destruct (upload_rejected_create_keeps_blob
                (env_failing 200 "f-2" Server.OpCreateSharedFile) world1
                "u" "1" None other_txt eq_refl (or_introl eq_refl))
      as (w' & message & Hrun & Hdb & Hlog & _ & Hblob & Horphan & _).
    exists w', message. repeat split; try assumption.
    apply Horphan. intros r Hr. vm_compute in Hr.
    destruct Hr as [<-|[]]. vm_compute. discriminate.
  - destruct (upload_rejected_create_keeps_blob
                (env_ok 200 "f-1") world1 "u" "2" None other_txt eq_refl)
      as (w' & message & Hrun & Hdb & _ & _ & _ & _ & Hrow).
    { right. vm_compute. discriminate. }
    assert (Hr : exists r, Db.getSharedFile "f-1" (Server.db world1) = Some r /\
                           In r (Db.shared_files (Server.db world1)) /\
                           SharedFile.user_id r = "u1"%string /\
                           SharedFile.file_path r = "uploads/shared/f-1.txt"%string /\
                           Server.disk world1 !! SharedFile.file_path r = Some hello).
    { eexists. split; [vm_compute; reflexivity|].
      split; [vm_compute; left; reflexivity|].
      split; [reflexivity|]. split; [reflexivity|]. vm_compute. reflexivity. }
    destruct Hr as (r & Hget & Hin & Hown & Hpath & Hold).
    exists w', message, r. rewrite Hdb.
    repeat split; try assumption.
    apply Hrow; [now rewrite Hdb | exact Hpath].
Defined.

(** C1 as stated fails: u1 uploads notes.txt, the write succeeds and the
    insert is rejected; the handler answers 500, no removal is ever
    issued, and the blob store is not what it was: the orphaned blob is
    on disk. *)
Lemma upload_rejected_create_orphans_blob :
  let e := env_failing 100 "f-1" Server.OpCreateSharedFile in
  let r := FilesRoute.upload (Some "u1"%string) None (Some notes_txt) e world0 in
  Server.fails e Server.OpWriteFile = false /\
  Server.fails e Server.OpCreateSharedFile = true /\
  snd r = inr (Http.mkResponse 500
                 (Http.Failure "Failed to upload file" "Internal server error")) /\
  Server.log (fst r) = [Server.EvWriteFile "uploads/shared/f-1.txt"] /\
  Server.db (fst r) = Db.empty /\
  Server.disk world0 !! "uploads/shared/f-1.txt"%string = None /\
  Server.disk (fst r) !! "uploads/shared/f-1.txt"%string = Some hello /\
  Server.disk (fst r) <> Server.disk world0.
Proof.
  repeat split; try (vm_compute; reflexivity).
  intros Heq.
  assert (H : Server.disk
                (fst (FilesRoute.upload (Some "u1"%string) None (Some notes_txt)
                        (env_failing 100 "f-1" Server.OpCreateSharedFile) world0))
              !! "uploads/shared/f-1.txt"%string
              = Server.disk world0 !! "uploads/shared/f-1.txt"%string)
    by (rewrite Heq; reflexivity).
  vm_compute in H. discriminate.
Qed.

(** ** Deletion of a shared file *)

Lemma delete_log_shape e w fid uid w' res :
  FilesRoute.delete fid uid e w = (w', res) ->
  exists evs, Server.log w' = Server.log w ++ evs /\
    (evs = [] \/ (exists p, evs = [Server.EvRemove p]) \/
     (exists p u c, evs = [Server.EvRemove p; Server.EvDeleteSharedFile fid u c]) \/
     (exists u c, evs = [Server.EvDeleteSharedFile fid u c])).
Proof.
  unfold FilesRoute.delete. run_handler. intros H.
  repeat case_match; simplify_eq; cbn [Server.log].
  all: try (exists []; rewrite app_nil_r; split; [reflexivity | tauto]).
  - eexists. split; [reflexivity|]. right. left. eauto.
  - eexists. rewrite <- app_assoc. split; [reflexivity|]. right. right. left. eauto.
  - eexists. split; [reflexivity|]. right. right. right. eauto.
Qed.

Lemma deleteSharedFile_hits fid u d r :
  Db.getSharedFile fid d = Some r -> SharedFile.user_id r = u ->
  0 < snd (Db.deleteSharedFile fid u d).
Proof.
  intros Hr Hu. apply find_some_in in Hr as [Hin Hfid].
  unfold Db.deleteSharedFile. cbn [snd].
  assert (Hm : In r (List.filter (Db.delete_matches fid u) (Db.shared_files d))).
  { apply List.filter_In. split; [exact Hin|].
    unfold Db.delete_matches, Db.owned_by. rewrite Hfid, Hu, String.eqb_refl.
    reflexivity. }
  destruct (List.filter (Db.delete_matches fid u) (Db.shared_files d));
    [destruct Hm | simpl; lia].
Qed.

(** C2 (as the code has it): a delete that passes the existence and
    ownership gates with the blob on disk removes the blob first and
    deletes the row second (the lookup, the existence check and the
    removal not failing): the disk loses the blob, and the row delete
    follows the removal in the log; when the row delete is then rejected,
    the blob is already gone while the database is unchanged.  In every
    run, a blob removal comes before a row delete.  And whenever the row
    delete would affect zero rows (no row with this id and this owner),
    the handler stops at its gates with an error status and leaves disk,
    database and log exactly as they were. *)
Theorem delete_removes_blob_before_row e w fid uid w' res :
  FilesRoute.delete fid uid e w = (w', res) ->
  (exists evs,
     Server.log w' = Server.log w ++ evs /\ removal_before_row_delete evs) /\
  (forall u r blob,
     Js.truthy uid = Some u ->
     Db.getSharedFile fid (Server.db w) = Some r ->
     SharedFile.user_id r = u ->
     Server.disk w !! SharedFile.file_path r = Some blob ->
     Server.fails e Server.OpGetSharedFile = false ->
     Server.fails e Server.OpPathExists = false ->
     Server.fails e Server.OpRemove = false ->
     Server.disk w' = delete (SharedFile.file_path r) (Server.disk w) /\
     Server.disk w' !! SharedFile.file_path r = None /\
     (Server.fails e Server.OpDeleteSharedFile = false ->
      Server.log w'
      = Server.log w ++
        [Server.EvRemove (SharedFile.file_path r);
         Server.EvDeleteSharedFile fid u
           (snd (Db.deleteSharedFile fid u (Server.db w)))] /\
      Server.db w' = fst (Db.deleteSharedFile fid u (Server.db w)) /\
      res = inr (Http.ok (Http.Success "File deleted successfully"))) /\
     (Server.fails e Server.OpDeleteSharedFile = true ->
      Server.log w' = Server.log w ++ [Server.EvRemove (SharedFile.file_path r)] /\
      Server.db w' = Server.db w /\
      res = inr (Http.mkResponse 500 (Http.Error "Internal server error")))) /\
  (forall u, Js.truthy uid = Some u ->
     snd (Db.deleteSharedFile fid u (Server.db w)) = 0 ->
     w' = w /\ exists r, res = inr r /\ Http.status r <> 200).
Proof.
  intros H. split; [|split].
  - destruct (delete_log_shape _ _ _ _ _ _ H) as (evs & Hlog & Hshape).
    exists evs. split; [exact Hlog|].
    intros i j p f u c Hi Hj.
    destruct Hshape as [->|[[p' ->]|[(p' & u' & c' & ->)|(u' & c' & ->)]]].
    + destruct i; discriminate.
    + destruct j as [|[|j]]; discriminate.
    + destruct i as [|[|i]]; destruct j as [|[|j]]; try discriminate. lia.
    + destruct i as [|[|i]]; discriminate.
  - intros u r blob Hu Hr Hown Hblob Hg Hp Hrm. revert H.
    unfold FilesRoute.delete. rewrite Hu. run_handler.
    rewrite Hg, Hr, Hown, String.eqb_refl. cbn [negb].
    rewrite Hp, Hblob. rewrite bool_decide_eq_true_2 by eauto.
    rewrite Hrm. cbn [Server.disk Server.db Server.log].
    destruct (Server.fails e Server.OpDeleteSharedFile).
    + intros [= <- <-]. cbn [Server.disk Server.db Server.log].
      split; [reflexivity|]. split; [apply lookup_delete_eq|].
      split; [discriminate|]. intros _. repeat split.
    + destruct (Db.deleteSharedFile fid u (Server.db w)) as [d1 changes].
      intros [= <- <-]. cbn [Server.disk Server.db Server.log fst snd].
      split; [reflexivity|]. split; [apply lookup_delete_eq|].
      split; [|discriminate]. intros _. rewrite <- app_assoc. repeat split.
  - intros u Hu Hzero. revert H.
    unfold FilesRoute.delete. rewrite Hu. run_handler.
    destruct (Server.fails e Server.OpGetSharedFile).
    { intros [= <- <-]. split; [reflexivity|]. eexists. split; [reflexivity|]. discriminate. }
    destruct (Db.getSharedFile fid (Server.db w)) as [r|] eqn:Hr.
    2:{ intros [= <- <-]. split; [reflexivity|]. eexists. split; [reflexivity|]. discriminate. }
    destruct (String.eqb_spec (SharedFile.user_id r) u) as [Hown|Hown]; cbn [negb].
    2:{ intros [= <- <-]. split; [reflexivity|]. eexists. split; [reflexivity|]. discriminate. }
    pose proof (deleteSharedFile_hits fid u _ r Hr Hown). lia.
Qed.

Lemma delete_removes_blob_before_row_witness :
  (exists evs,
     Server.log world2 = Server.log world1 ++ evs /\ removal_before_row_delete evs) /\
  (Server.disk world1 !! "uploads/shared/f-1.txt"%string = Some hello /\
   Server.disk world2 !! "uploads/shared/f-1.txt"%string = None /\
   Server.log world2
   = Server.log world1 ++
     [Server.EvRemove "uploads/shared/f-1.txt";
      Server.EvDeleteSharedFile "f-1" "u1"
        (snd (Db.deleteSharedFile "f-1" "u1" (Server.db world1)))]) /\
  (let r := FilesRoute.delete "f-1" (Some "u1"%string)
              (env_failing 200 "-" Server.OpDeleteSharedFile) world1 in
   Server.disk (fst r) !! "uploads/shared/f-1.txt"%string = None /\
   Server.log (fst r) = Server.log world1 ++ [Server.EvRemove "uploads/shared/f-1.txt"] /\
   Server.db (fst r) = Server.db world1) /\
  (let r := FilesRoute.delete "f-1" (Some "u2"%string) (env_ok 200 "-") world1 in
   snd (Db.deleteSharedFile "f-1" "u2" (Server.db world1)) = 0 /\
   fst r = world1 /\
   exists resp, snd r = inr resp /\ Http.status resp <> 200).
Proof.
  assert (Hr : exists r, Db.getSharedFile "f-1" (Server.db world1) = Some r /\
                         SharedFile.user_id r = "u1"%string /\
                         SharedFile.file_path r = "uploads/shared/f-1.txt"%string /\
                         Server.disk world1 !! SharedFile.file_path r = Some hello).
  { eexists. split; [vm_compute; reflexivity|].
    split; [reflexivity|]. split; [reflexivity|]. vm_compute. reflexivity. }
  destruct Hr as (r & Hget & Hown & Hpath & Hblob).
  split; [|split; [|split]].
  - apply (proj1 (delete_removes_blob_before_row (env_ok 200 "-") world1 "f-1"
                    (Some "u1"%string) world2 _ (surjective_pairing _))).
  - destruct (proj1 (proj2 (delete_removes_blob_before_row (env_ok 200 "-") world1 "f-1"
                              (Some "u1"%string) world2 _ (surjective_pairing _)))
                "u1"%string r hello eq_refl Hget Hown Hblob eq_refl eq_refl eq_refl)
      as (_ & Hgone & Hdone & _).
    destruct (Hdone eq_refl) as (Hlog & _ & _).
    rewrite Hpath in *. repeat split; assumption.
  - intros res.
    destruct (proj1 (proj2 (delete_removes_blob_before_row
                              (env_failing 200 "-" Server.OpDeleteSharedFile) world1 "f-1"
                              (Some "u1"%string) (fst res) (snd res)
                              (surjective_pairing res)))
                "u1"%string r hello eq_refl Hget Hown Hblob eq_refl eq_refl eq_refl)
      as (_ & Hgone & _ & Hrej).
    destruct (Hrej eq_refl) as (Hlog & Hdb & _).
    rewrite Hpath in *. repeat split; assumption.
  - intros res. split; [vm_compute; reflexivity|].
    apply (proj2 (proj2 (delete_removes_blob_before_row (env_ok 200 "-") world1 "f-1"
                           (Some "u2"%string) (fst res) (snd res)
                           (surjective_pairing res)))
             "u2"%string).
    + reflexivity.
    + vm_compute. reflexivity.
Defined.

(** C2 as stated fails: u1 deletes the file f-1 it owns.  The handler
    removes the blob first and deletes the row second, so the row delete
    is not performed before the blob removal; when the row delete is then
    rejected, the blob is already gone while the row is still there. *)
Lemma delete_row_is_not_first :
  let r := FilesRoute.delete "f-1" (Some "u1"%string) (env_ok 200 "-") world1 in
  let r' := FilesRoute.delete "f-1" (Some "u1"%string)
              (env_failing 200 "-" Server.OpDeleteSharedFile) world1 in
  let evs := [Server.EvRemove "uploads/shared/f-1.txt";
              Server.EvDeleteSharedFile "f-1" "u1" 1] in
  snd r = inr (Http.ok (Http.Success "File deleted successfully")) /\
  Server.log (fst r) = Server.log world1 ++ evs /\
  ~ row_delete_before_removal evs /\
  snd r' = inr (Http.mkResponse 500 (Http.Error "Internal server error")) /\
  Server.disk world1 !! "uploads/shared/f-1.txt"%string = Some hello /\
  Server.disk (fst r') !! "uploads/shared/f-1.txt"%string = None /\
  Db.getSharedFile "f-1" (Server.db (fst r')) <> None.
Proof.
  repeat split; try (vm_compute; reflexivity).
  - intros Hbad.
    specialize (Hbad 1%nat 0%nat "uploads/shared/f-1.txt"%string
                  "f-1"%string "u1"%string 1 eq_refl eq_refl).
    lia.
  - vm_compute. discriminate.
Qed.

Lemma unique_file_id_row rows (x y : SharedFile.row) :
  NoDup (map SharedFile.file_id rows) ->
  In x rows -> In y rows -> SharedFile.file_id x = SharedFile.file_id y -> x = y.
Proof.
  induction rows as [|r rows IH]; simpl; [tauto|].
  intros Hnd. apply NoDup_cons in Hnd as [Hnotin Hnd].
  rewrite list_elem_of_In in Hnotin.
  intros [->|Hx] [->|Hy] Heq; try reflexivity.
  - exfalso. apply Hnotin. rewrite Heq. now apply in_map.
  - exfalso. apply Hnotin. rewrite <- Heq. now apply in_map.
  - now apply IH.
Qed.

Lemma deleteSharedFile_gone fid u d r :
  Db.unique_file_ids d ->
  Db.getSharedFile fid d = Some r -> SharedFile.user_id r = u ->
  Db.getSharedFile fid (fst (Db.deleteSharedFile fid u d)) = None.
Proof.
  intros Hu Hr Hown. apply find_some_in in Hr as [Hin Hfid].
  unfold Db.getSharedFile, Db.deleteSharedFile. cbn [fst Db.shared_files].
  destruct (List.find _ _) as [x|] eqn:Hx; [exfalso | reflexivity].
  apply find_some_in in Hx as [Hxin Hxfid].
  apply List.filter_In in Hxin as [Hxin Hxkeep].
  assert (x = r).
  { apply (unique_file_id_row _ x r Hu Hxin Hin).
    apply String.eqb_eq in Hfid, Hxfid. congruence. }
  subst x. unfold Db.delete_matches, Db.owned_by in Hxkeep.
  rewrite Hfid, Hown, String.eqb_refl in Hxkeep. discriminate.
Qed.

Lemma deleteSharedFile_absent fid u d :
  Db.getSharedFile fid d = None ->
  Db.deleteSharedFile fid u d = (d, 0).
Proof.
  intros Hnone. unfold Db.deleteSharedFile.
  assert (Hall : forall r, In r (Db.shared_files d) -> Db.delete_matches fid u r = false).
  { intros r Hr. unfold Db.delete_matches.
    destruct (Db.is_file fid r) eqn:Hf; [|reflexivity].
    unfold Db.getSharedFile in Hnone.
    pose proof (List.find_none _ _ Hnone r Hr). congruence. }
  rewrite (filter_none _ _ Hall).
  assert (Hkeep : List.filter (fun r => negb (Db.delete_matches fid u r)) (Db.shared_files d)
                  = Db.shared_files d).
  { clear Hnone. induction (Db.shared_files d) as [|r rows IH]; simpl; [reflexivity|].
    rewrite (Hall r) by now left. simpl. f_equal. apply IH.
    intros y Hy. apply Hall. now right. }
  rewrite Hkeep. destruct d. reflexivity.
Qed.

Lemma delete_passes_gates e w fid c u r :
  (forall o, Server.fails e o = false) ->
  Db.getSharedFile fid (Server.db w) = Some r ->
  SharedFile.user_id r = String c u ->
  FilesRoute.delete fid (Some (String c u)) e w
  = (after_delete w fid (String c u) (SharedFile.file_path r),
     inr (Http.ok (Http.Success "File deleted successfully"))).
Proof.
  intros Hok Hr Hown.
  unfold FilesRoute.delete, after_delete. cbn [Js.truthy]. run_handler.
  rewrite !Hok, Hr, Hown, String.eqb_refl. cbn [negb].
  destruct (bool_decide (is_Some (Server.disk w !! SharedFile.file_path r)));
    rewrite ?Hok; cbn [Server.disk Server.db Server.log];
    destruct (Db.deleteSharedFile fid (String c u) (Server.db w)) as [d1 changes];
    cbn [fst snd Server.disk Server.db Server.log app];
    rewrite <- ?app_assoc; reflexivity.
Qed.

Lemma delete_stops_at_missing_row e w fid c u :
  Server.fails e Server.OpGetSharedFile = false ->
  Db.getSharedFile fid (Server.db w) = None ->
  FilesRoute.delete fid (Some (String c u)) e w
  = (w, inr (Http.mkResponse 404 (Http.Error "File not found"))).
Proof.
  intros Hok Hnone.
  unfold FilesRoute.delete. cbn [Js.truthy]. run_handler.
  rewrite Hok, Hnone. reflexivity.
Qed.

(** C3 (as the code has it): the owner deletes the same file twice, with
    no call rejecting.  The first call removes the blob and the row and
    answers success.  The second call finds no row and answers 404 with
    the error "File not found": it stops at the existence gate, issues no
    row delete, and leaves disk, database and log untouched, so the blob
    is absent after both calls.  (Asked directly, the repository's
    [deleteSharedFile] would report zero affected rows without failing.) *)
Theorem delete_twice_second_is_not_found e1 e2 w fid c u r :
  Db.unique_file_ids (Server.db w) ->
  Db.getSharedFile fid (Server.db w) = Some r ->
  SharedFile.user_id r = String c u ->
  (forall o, Server.fails e1 o = false) ->
  Server.fails e2 Server.OpGetSharedFile = false ->
  exists w1,
    FilesRoute.delete fid (Some (String c u)) e1 w
    = (w1, inr (Http.ok (Http.Success "File deleted successfully"))) /\
    Db.getSharedFile fid (Server.db w1) = None /\
    Server.disk w1 !! SharedFile.file_path r = None /\
    FilesRoute.delete fid (Some (String c u)) e2 w1
    = (w1, inr (Http.mkResponse 404 (Http.Error "File not found"))) /\
    Db.deleteSharedFile fid (String c u) (Server.db w1) = (Server.db w1, 0).
Proof.
  intros Hu Hr Hown Hok1 Hok2.
  pose proof (deleteSharedFile_gone fid _ _ r Hu Hr Hown) as Hgone.
  exists (after_delete w fid (String c u) (SharedFile.file_path r)).
  split; [now apply delete_passes_gates|].
  split; [exact Hgone|].
  split; [|split].
  - unfold after_delete. cbn [Server.disk].
    destruct (bool_decide (is_Some (Server.disk w !! SharedFile.file_path r)))
      eqn:Hpresent.
    + apply lookup_delete_eq.
    + apply bool_decide_eq_false in Hpresent. now apply eq_None_not_Some.
  - now apply delete_stops_at_missing_row.
  - now apply deleteSharedFile_absent.
Qed.

Lemma delete_twice_second_is_not_found_witness :
  exists w1,
    FilesRoute.delete "f-1" (Some "u1"%string) (env_ok 200 "-") world1
    = (w1, inr (Http.ok (Http.Success "File deleted successfully"))) /\
    Db.getSharedFile "f-1" (Server.db w1) = None /\
    Server.disk w1 !! "uploads/shared/f-1.txt"%string = None /\
    FilesRoute.delete "f-1" (Some "u1"%string) (env_ok 300 "-") w1
    = (w1, inr (Http.mkResponse 404 (Http.Error "File not found"))) /\
    Db.deleteSharedFile "f-1" "u1" (Server.db w1) = (Server.db w1, 0).
Proof.
  assert (Hr : exists r, Db.getSharedFile "f-1" (Server.db world1) = Some r /\
                         SharedFile.user_id r = "u1"%string /\
                         SharedFile.file_path r = "uploads/shared/f-1.txt"%string).
  { eexists. split; [vm_compute; reflexivity | split; reflexivity]. }
  destruct Hr as (r & Hr & Hown & Hpath). rewrite <- Hpath.
  apply (delete_twice_second_is_not_found (env_ok 200 "-") (env_ok 300 "-")
           world1 "f-1" "u" "1" r).
  - vm_compute. repeat constructor. intros H. inversion H.
  - exact Hr.
  - exact Hown.
  - reflexivity.
  - reflexivity.
Defined.

(** C3 as stated fails: u1 deletes f-1 twice.  The first call succeeds;
    the second is answered with status 404 and the error "File not found",
    not with a success carrying zero affected rows, and it never reaches
    the row delete. *)
Lemma delete_twice_second_call_is_an_error :
  let second := FilesRoute.delete "f-1" (Some "u1"%string) (env_ok 300 "-") world2 in
  snd (FilesRoute.delete "f-1" (Some "u1"%string) (env_ok 200 "-") world1)
  = inr (Http.ok (Http.Success "File deleted successfully")) /\
  snd second = inr (Http.mkResponse 404 (Http.Error "File not found")) /\
  snd second <> inr (Http.ok (Http.Success "File deleted successfully")) /\
  Server.log (fst second) = Server.log world2 /\
  Server.disk world2 !! "uploads/shared/f-1.txt"%string = None /\
  Server.disk (fst second) !! "uploads/shared/f-1.txt"%string = None.
Proof.
  repeat split; try (vm_compute; reflexivity).
  vm_compute. discriminate.
Qed.

(** ** Replacement of a profile picture *)

Lemma remove_old_picture_outcome userId e w w1 r :
  ProfileRoute.remove_old_picture userId e w = (w1, r) ->
  r = inr tt /\ Server.db w1 = Server.db w /\
  (w1 = w \/
   exists q, Server.disk w1 = delete q (Server.disk w) /\
             Server.log w1 = Server.log w ++ [Server.EvRemove q]).
Proof.
  unfold ProfileRoute.remove_old_picture. run_handler. intros H.
  repeat case_match; simplify_eq; cbn [Server.log Server.disk Server.db];
    repeat match goal with u : unit |- _ => destruct u end;
    (split; [reflexivity|]); (split; [reflexivity|]); eauto.
Qed.

Lemma upload_picture_log_shape e w uid username email file w' res :
  ProfileRoute.upload_picture uid username email file e w = (w', res) ->
  exists evs, Server.log w' = Server.log w ++ evs /\
    (evs = [] \/ (exists p, evs = [Server.EvWriteFile p]) \/
     (exists p q, evs = [Server.EvWriteFile p; Server.EvRemove q]) \/
     (exists p q u l,
        evs = [Server.EvWriteFile p; Server.EvRemove q; Server.EvUpsertUser u l]) \/
     (exists p u l, evs = [Server.EvWriteFile p; Server.EvUpsertUser u l])).
Proof.
  unfold ProfileRoute.upload_picture. run_handler.
  destruct (Js.truthy uid) as [userId|].
  2:{ intros [= <- _]. exists []. rewrite app_nil_r. tauto. }
  destruct file as [f|].
  2:{ intros [= <- _]. exists []. rewrite app_nil_r. tauto. }
  destruct (Server.fails e Server.OpWriteFile).
  { destruct (Js.includes _ _); intros [= <- _]; exists [];
      rewrite app_nil_r; tauto. }
  cbn [Server.disk Server.db Server.log].
  set (w0 := Server.mkWorld _ _ _).
  assert (Hw0 : Server.log w0 = Server.log w ++ [Server.EvWriteFile
            (picture_path userId (Server.uuid e) f)]) by reflexivity.
  destruct (Server.fails e Server.OpStat).
  { destruct (Js.includes _ _); intros [= <- _]; eexists;
      (split; [exact Hw0|]); eauto. }
  rewrite lookup_insert_eq.
  destruct (ProfileRoute.remove_old_picture userId e w0) as [w1 r1] eqn:Hrm.
  apply remove_old_picture_outcome in Hrm as (-> & Hdb & Hw1).
  assert (Hlog1 : exists evs1, Server.log w1 = Server.log w ++ evs1 /\
            ((exists p, evs1 = [Server.EvWriteFile p]) \/
             (exists p q, evs1 = [Server.EvWriteFile p; Server.EvRemove q]))).
  { destruct Hw1 as [->|(q & _ & Hq)].
    - eexists. split; [exact Hw0|]. eauto.
    - eexists. split; [rewrite Hq, Hw0, <- app_assoc; reflexivity|]. eauto. }
  clear Hw1. destruct Hlog1 as (evs1 & Hlog1 & Hshape1).
  destruct (Server.fails e Server.OpUpsertUser).
  { destruct (Js.includes _ _); intros [= <- _]; exists evs1;
      (split; [exact Hlog1|]);
      destruct Hshape1 as [[p ->]|(p & q & ->)]; eauto 10. }
  destruct (Db.upsertUser _ _ _) as [d lastID].
  intros [= <- _]. cbn [Server.log]. rewrite Hlog1, <- app_assoc.
  eexists. split; [reflexivity|].
  destruct Hshape1 as [[p ->]|(p & q & ->)]; cbn [app]; eauto 12.
Qed.

Lemma rejection_is_not_an_image_error :
  Js.includes "operation failed" "Only image files" = false.
Proof. vm_compute. reflexivity. Qed.

(** C4 (as the code has it): in every run of the picture upload the
    previous picture's blob, when it is removed, is removed after the new
    blob is written and before the upsert of the new path and url; a
    rejected blob write leaves disk, database and log as they were (the
    old picture stays servable); a rejected upsert leaves the database
    as it was, still naming the old path, while the old blob has already
    been removed and the new blob stays on disk. *)
Theorem picture_replace_removes_old_blob_first e w uid username email file w' res :
  ProfileRoute.upload_picture uid username email file e w = (w', res) ->
  (exists evs,
     Server.log w' = Server.log w ++ evs /\ removal_before_upsert evs) /\
  (Server.fails e Server.OpWriteFile = true -> w' = w) /\
  (forall c u f old oldPath blob,
     uid = Some (String c u) -> file = Some f ->
     Db.getUser (String c u) (Server.db w) = Some old ->
     Js.truthy (User.profile_picture_path old) = Some oldPath ->
     Server.disk w !! oldPath = Some blob ->
     oldPath <> picture_path (String c u) (Server.uuid e) f ->
     Server.fails e Server.OpWriteFile = false ->
     Server.fails e Server.OpStat = false ->
     Server.fails e Server.OpGetUser = false ->
     Server.fails e Server.OpPathExists = false ->
     Server.fails e Server.OpRemove = false ->
     Server.fails e Server.OpUpsertUser = true ->
     Server.db w' = Server.db w /\
     Server.disk w' !! oldPath = None /\
     Server.disk w' !! picture_path (String c u) (Server.uuid e) f
     = Some (Http.buffer f) /\
     exists message,
       res = inr (Http.mkResponse 500
                    (Http.Failure "Failed to upload profile picture" message))).
Proof.
  intros H. split; [|split].
  - destruct (upload_picture_log_shape _ _ _ _ _ _ _ _ H) as (evs & Hlog & Hshape).
    exists evs. split; [exact Hlog|].
    intros i j p u l Hi Hj.
    destruct Hshape as
      [->|[[p' ->]|[(p' & q' & ->)|[(p' & q' & u' & l' & ->)|(p' & u' & l' & ->)]]]].
    + destruct i; discriminate.
    + destruct j as [|[|j]]; discriminate.
    + destruct j as [|[|[|j]]]; discriminate.
    + destruct i as [|[|[|i]]]; destruct j as [|[|[|j]]]; try discriminate. lia.
    + destruct i as [|[|[|i]]]; discriminate.
  - intros Hw. revert H. unfold ProfileRoute.upload_picture. run_handler.
    destruct (Js.truthy uid); [|now intros [= <- _]].
    destruct file; [|now intros [= <- _]].
    rewrite Hw, rejection_is_not_an_image_error. now intros [= <- _].
  - intros c u f old oldPath blob -> -> Hold Hpath Hblob Hne Hw Hs Hg Hp Hr Hu.
    revert H.
    unfold ProfileRoute.upload_picture, ProfileRoute.remove_old_picture.
    cbn [Js.truthy]. run_handler. fold (picture_path (String c u) (Server.uuid e) f).
    set (newPath := picture_path (String c u) (Server.uuid e) f) in *.
    repeat first
      [ progress cbn [Server.disk Server.db Server.log]
      | rewrite Hw | rewrite Hs | rewrite Hg | rewrite Hold | rewrite Hpath
      | rewrite Hp | rewrite Hr | rewrite Hu
      | rewrite lookup_insert_eq
      | rewrite lookup_insert_ne by congruence
      | rewrite Hblob
      | rewrite bool_decide_eq_true_2 by eauto
      | rewrite rejection_is_not_an_image_error ].
    intros [= <- <-]. cbn [Server.disk Server.db].
    split; [reflexivity|]. split; [apply lookup_delete_eq|].
    split; [|eexists; reflexivity].
    rewrite lookup_delete_ne by congruence. apply lookup_insert_eq.
Qed.

Lemma picture_replace_removes_old_blob_first_witness :
  let e := env_failing 200 "p-2" Server.OpUpsertUser in
  let r := ProfileRoute.upload_picture (Some "u1"%string) None None (Some face_png)
             e world_pic in
  let oldPath := "uploads/profiles/profile_u1_p-1.png"%string in
  (exists evs,
     Server.log (fst r) = Server.log world_pic ++ evs /\ removal_before_upsert evs) /\
  Server.db (fst r) = Server.db world_pic /\
  Server.disk (fst r) !! oldPath = None /\
  Server.disk (fst r) !! picture_path "u1" "p-2" face_png = Some hello /\
  exists message,
    snd r = inr (Http.mkResponse 500
                   (Http.Failure "Failed to upload profile picture" message)).
Proof.
  intros e r oldPath.
  destruct (picture_replace_removes_old_blob_first e world_pic (Some "u1"%string)
              None None (Some face_png) (fst r) (snd r)
              (surjective_pairing r)) as (Horder & _ & Hupsert).
  split; [exact Horder|].
  apply (Hupsert "u"%char "1"%string face_png
           (User.mkRow 1 "u1" None None (Some oldPath)
              (Some "/uploads/profiles/profile_u1_p-1.png"%string) 100 100)
           oldPath hello); try reflexivity.
  intros Heq. vm_compute in Heq. discriminate Heq.
Defined.

(** C4 as stated fails: u1, whose picture p-1 is on disk and in the
    database, uploads a new picture.  The handler writes the new blob,
    removes the old blob and only then upserts, so the removal is not
    after the upsert; when the upsert is rejected the database still
    names the old path, but the old blob is gone. *)
Lemma picture_replace_upsert_is_not_first :
  let good := ProfileRoute.upload_picture (Some "u1"%string) None None (Some face_png)
                (env_ok 200 "p-2") world_pic in
  let bad := ProfileRoute.upload_picture (Some "u1"%string) None None (Some face_png)
               (env_failing 200 "p-2" Server.OpUpsertUser) world_pic in
  let oldPath := "uploads/profiles/profile_u1_p-1.png"%string in
  let newPath := "uploads/profiles/profile_u1_p-2.png"%string in
  let evs := [Server.EvWriteFile newPath; Server.EvRemove oldPath;
              Server.EvUpsertUser "u1" 2] in
  Server.log (fst good) = Server.log world_pic ++ evs /\
  ~ upsert_before_removal evs /\
  option_map User.profile_picture_path (Db.getUser "u1" (Server.db world_pic))
  = Some (Some oldPath) /\
  Server.disk world_pic !! oldPath = Some hello /\
  snd bad = inr (Http.mkResponse 500
                   (Http.Failure "Failed to upload profile picture"
                      "Internal server error")) /\
  option_map User.profile_picture_path (Db.getUser "u1" (Server.db (fst bad)))
  = Some (Some oldPath) /\
  Server.disk (fst bad) !! oldPath = None.
Proof.
  repeat split; try (vm_compute; reflexivity).
  intros Hbad.
  specialize (Hbad 2%nat 1%nat "uploads/profiles/profile_u1_p-1.png"%string
                "u1"%string 2 eq_refl eq_refl).
  lia.
Qed.

(** ** Witnesses on the sample states *)

Lemma upsertUser_replaces_row_witness :
  exists new,
    Db.getUser "u1"
      (fst (Db.upsertUser 200 (Db.mkUserData "u1" (Some "ann"%string) None None None)
              (Server.db world_pic))) = Some new /\
    new = User.mkRow
            (snd (Db.upsertUser 200 (Db.mkUserData "u1" (Some "ann"%string) None None None)
                    (Server.db world_pic)))
            "u1" (Some "ann"%string) None None None 200 200 /\
    User.created_at new = 200 /\
    1 < User.id new /\
    ~ In (User.mkRow 1 "u1" None None
            (Some "uploads/profiles/profile_u1_p-1.png"%string)
            (Some "/uploads/profiles/profile_u1_p-1.png"%string) 100 100)
         (Db.users
            (fst (Db.upsertUser 200
                    (Db.mkUserData "u1" (Some "ann"%string) None None None)
                    (Server.db world_pic)))).
Proof.
  apply (upsertUser_replaces_row 200
           (Db.mkUserData "u1" (Some "ann"%string) None None None)
           (Server.db world_pic)
           (User.mkRow 1 "u1" None None
              (Some "uploads/profiles/profile_u1_p-1.png"%string)
              (Some "/uploads/profiles/profile_u1_p-1.png"%string) 100 100)).
  vm_compute. reflexivity.
Defined.

Lemma stats_zero_without_files_witness :
  Db.total_files (Db.getUserFileStats "u2" (Server.db world1)) = 0 /\
  Db.total_size (Db.getUserFileStats "u2" (Server.db world1)) = None /\
  Db.total_downloads (Db.getUserFileStats "u2" (Server.db world1)) = None /\
  exists s,
    FilesRoute.stats "u2" (env_ok 200 "-") world1
    = (world1, inr (Http.ok (Http.Stats s))) /\
    Http.totalFiles s = 0 /\ Http.totalSize s = 0 /\ Http.totalDownloads s = 0 /\
    Http.formattedTotalSize s = "0 Bytes"%string /\ Http.recentFiles s = [].
Proof.
  apply (stats_zero_without_files (env_ok 200 "-") world1 "u2").
  - intros r Hr. vm_compute in Hr. destruct Hr as [<-|[]]. vm_compute. discriminate.
  - reflexivity.
  - reflexivity.
Defined.

Lemma incrementDownloadCount_counts_witness :
  exists r',
    Db.getSharedFile "f-1" (increment_all "f-1" [200; 300; 300] (Server.db world1))
    = Some r' /\
    SharedFile.download_count r' = 0 + Z.of_nat (length [200; 300; 300]) /\
    access_history "f-1" [200; 300; 300] (Server.db world1)
    = map Some [200; 300; 300] /\
    Sorted read_le
      (Some 100 :: access_history "f-1" [200; 300; 300] (Server.db world1)).
Proof.
  destruct incrementDownloadCount_counts as (_ & _ & _ & Hn & _).
  destruct (Hn "f-1"%string [200; 300; 300] (Server.db world1)
              (SharedFile.mkRow 1 "f-1" "u1" "notes.txt" "f-1.txt"
                 "uploads/shared/f-1.txt" "/uploads/shared/f-1.txt" 5
                 "text/plain" EmptyString "text" 0 false 100 100)
              ltac:(vm_compute; reflexivity))
    as (r' & Hget & Hcount & Hhist & Hsorted).
  exists r'. split; [exact Hget|]. split; [exact Hcount|]. split; [exact Hhist|].
  apply Hsorted. cbn [SharedFile.last_accessed]. repeat constructor; lia.
Defined.


(** * Further properties *)

(** ** Formatting and filtering *)

(** X1: a byte count from 1 to 1023 is printed as the integer itself
    followed by the unit Bytes, with no decimals. *)
Theorem formatFileSize_below_one_kilobyte bytes :
  1 <= bytes < 1024 ->
  Files.formatFileSize bytes = pretty bytes +:+ " Bytes".
Proof.
  intros Hb. unfold Files.formatFileSize.
  destruct (Z.eqb_spec bytes 0); [lia|].
  destruct (Z.ltb_spec bytes 0); [lia|].
  assert (Hi : Files.log_index bytes = 0).
  { unfold Files.log_index.
    assert (Z.log2 bytes < 10) by (apply Z.log2_lt_pow2; [lia | simpl; lia]).
    pose proof (Z.log2_nonneg bytes). apply Z.div_small. lia. }
  rewrite Hi. cbv zeta.
  assert (Hn : Files.toFixed2 bytes (Files.k ^ 0) = 100 * bytes).
  { unfold Files.toFixed2. change (Files.k ^ 0) with 1.
    replace (200 * bytes + 1) with (1 + (100 * bytes) * (2 * 1)) by lia.
    rewrite Z.div_add by lia. reflexivity. }
  rewrite Hn. unfold Files.number_to_string.
  rewrite Z.mul_comm, Z.mod_mul, Z.div_mul by lia. reflexivity.
Qed.

Lemma formatFileSize_below_one_kilobyte_witness :
  Files.formatFileSize 1023 = pretty 1023 +:+ " Bytes".
Proof. apply formatFileSize_below_one_kilobyte. lia. Defined.

(** X2: from 1024^4 bytes on (one terabyte, within the exactly
    representable integers) the unit table is indexed past its last entry:
    the text printed is a number followed by the word undefined, never by
    one of the four units. *)
Theorem formatFileSize_past_the_table bytes :
  1024 ^ 4 <= bytes < 2 ^ 53 ->
  4 <= Files.log_index bytes /\
  Files.sizes !! Z.to_nat (Files.log_index bytes) = None /\
  exists n, Files.formatFileSize bytes = Files.number_to_string n +:+ " undefined".
Proof.
  intros [Hlo Hhi].
  assert (Hi : 4 <= Files.log_index bytes).
  { unfold Files.log_index.
    assert (40 <= Z.log2 bytes).
    { apply Z.log2_le_pow2; [lia|]. change (2 ^ 40) with (1024 ^ 4). exact Hlo. }
    apply Z.div_le_lower_bound; lia. }
  assert (Hnone : Files.sizes !! Z.to_nat (Files.log_index bytes) = None).
  { apply lookup_ge_None. simpl. lia. }
  split; [exact Hi|]. split; [exact Hnone|].
  unfold Files.formatFileSize.
  destruct (Z.eqb_spec bytes 0); [lia|].
  destruct (Z.ltb_spec bytes 0); [lia|].
  eexists. cbv zeta. unfold Files.sizes_at.
  destruct (Z.ltb_spec (Files.log_index bytes) 0); [lia|].
  rewrite Hnone. reflexivity.
Qed.

Lemma formatFileSize_past_the_table_witness :
  4 <= Files.log_index (1024 ^ 4) /\
  Files.sizes !! Z.to_nat (Files.log_index (1024 ^ 4)) = None /\
  exists n, Files.formatFileSize (1024 ^ 4)
            = Files.number_to_string n +:+ " undefined".
Proof. apply formatFileSize_past_the_table. lia. Defined.

Lemma startsWith_refl s : Js.startsWith s s = true.
Proof. apply prefix_has_prefix. exists EmptyString. now rewrite append_empty_r. Qed.

Lemma category_not_image m :
  Js.startsWith m "image/" = false -> Files.getFileCategory m <> "image"%string.
Proof.
  intros H. unfold Files.getFileCategory. rewrite H.
  repeat match goal with
  | |- context [if ?b then _ else _] => destruct b
  end; discriminate.
Qed.

(** X3: the upload filter of the files route lets through every MIME type
    that [getFileCategory] decides by prefix or as the exact PDF type
    (image, video, audio, pdf, text); the filter of the profile route
    accepts exactly the types whose category is image; and category and
    filter are otherwise independent: some type of category archive is
    refused (a gzip type) and some type of category other is accepted
    (a bare OOXML vendor prefix). *)
Theorem fileFilter_and_category :
  (forall m, In (Files.getFileCategory m) prefix_categories ->
             FilesRest.fileFilter m = inr true) /\
  (forall m, ProfileRest.fileFilter m = inr true <->
             Files.getFileCategory m = "image"%string) /\
  (exists m, Files.getFileCategory m = "archive"%string /\
             FilesRest.fileFilter m = inl "File type not allowed"%string) /\
  (exists m, Files.getFileCategory m = "other"%string /\
             FilesRest.fileFilter m = inr true).
Proof.
  split; [|split; [|split;
    [exists "application/gzip"%string
    |exists "application/vnd.openxmlformats"%string]; split; reflexivity]].
  - intros m. unfold FilesRest.fileFilter, FilesRest.isAllowed,
      FilesRest.allowedTypes, Files.getFileCategory, prefix_categories.
    cbn [existsb].
    destruct (Js.startsWith m "image/"); [reflexivity|].
    destruct (Js.startsWith m "video/"); [reflexivity|].
    destruct (Js.startsWith m "audio/"); [reflexivity|].
    destruct (String.eqb_spec m "application/pdf") as [->|_]; [reflexivity|].
    destruct (Js.startsWith m "text/").
    { intros _. cbn [orb]. now rewrite !orb_true_r. }
    intros Hin. exfalso.
    repeat match goal with
    | H : In (if ?b then _ else _) _ |- _ => destruct b
    end;
    cbn [In] in Hin; intuition discriminate.
  - intros m. unfold ProfileRest.fileFilter.
    destruct (Js.startsWith m "image/") eqn:Hi.
    + split; [intros _|reflexivity].
      unfold Files.getFileCategory. now rewrite Hi.
    + split; [discriminate|]. intros H. now apply category_not_image in Hi.
Qed.

(** ** Listing and paging *)

Lemma order_by_created_desc_perm l : Db.order_by_created_desc l ≡ₚ l.
Proof.
  induction l as [|r l IH]; simpl; [reflexivity|].
  rewrite <- IH at 2. generalize (Db.order_by_created_desc l). clear.
  intros l. induction l as [|x l IH]; simpl; [reflexivity|].
  destruct (SharedFile.created_at x <=? SharedFile.created_at r); [reflexivity|].
  rewrite IH. apply Permutation_swap.
Qed.

Lemma drop_sorted {A} (R : A -> A -> Prop) n l :
  Sorted R l -> Sorted R (drop n l).
Proof.
  intros Hs. revert n. induction Hs as [|x l Hs IH Hhd]; intros [|n]; simpl;
    try constructor; auto.
Qed.

Lemma in_drop {A} (x : A) n l : In x (drop n l) -> In x l.
Proof.
  revert n. induction l as [|y l IH]; intros [|n]; simpl; try tauto.
  intros Hx. right. eauto.
Qed.

(** X4: a page of a user's listing holds only rows of the table that
    belong to that user, newest first, and never more rows than a
    non-negative limit asks for. *)
Theorem getUserSharedFiles_page uid limit offset d :
  (forall r, In r (Db.getUserSharedFiles uid limit offset d) ->
     In r (Db.shared_files d) /\ SharedFile.user_id r = uid) /\
  Sorted newest_first (Db.getUserSharedFiles uid limit offset d) /\
  (0 <= limit ->
   Z.of_nat (length (Db.getUserSharedFiles uid limit offset d)) <= limit).
Proof.
  unfold Db.getUserSharedFiles, Db.limit_offset.
  split; [|split].
  - intros r Hr.
    assert (Hin : In r (Db.order_by_created_desc
                          (List.filter (Db.owned_by uid) (Db.shared_files d)))).
    { destruct (limit <? 0); [|apply in_take in Hr]; now apply in_drop in Hr. }
    apply (proj1 (order_by_created_desc_in _ _)) in Hin.
    apply List.filter_In in Hin as [Hin Ho]. split; [exact Hin|].
    now apply String.eqb_eq in Ho.
  - destruct (limit <? 0); [|apply take_sorted];
      apply drop_sorted, order_by_created_desc_sorted.
  - intros Hl. destruct (Z.ltb_spec limit 0); [lia|].
    rewrite length_take. lia.
Qed.

Lemma getUserSharedFiles_page_witness :
  let page := Db.getUserSharedFiles "u1" 2 0 (Server.db world_shared) in
  map SharedFile.file_id (Db.shared_files (Server.db world_shared))
  = ["f-1"; "f-2"; "f-3"; "f-4"]%string /\
  map SharedFile.file_id page = ["f-4"; "f-3"]%string /\
  (forall r, In r page ->
     In r (Db.shared_files (Server.db world_shared)) /\
     SharedFile.user_id r = "u1"%string) /\
  Sorted newest_first page /\
  Z.of_nat (length page) <= 2.
Proof.
  intros page.
  destruct (getUserSharedFiles_page "u1" 2 0 (Server.db world_shared))
    as (Hrows & Hsorted & Hbound).
  split; [vm_compute; reflexivity|].
  split; [vm_compute; reflexivity|].
  split; [exact Hrows|]. split; [exact Hsorted|].
  apply Hbound. lia.
Defined.

(** X5: consecutive pages tile the listing: the page of [n] rows at
    offset [m] followed by the page of [n'] rows at offset [m + n] is the
    page of [n + n'] rows at offset [m]; and a first page whose limit
    covers the user's files lists each of them exactly once. *)
Theorem getUserSharedFiles_pages_tile uid d :
  (forall n n' m, 0 <= n -> 0 <= n' -> 0 <= m ->
     Db.getUserSharedFiles uid n m d ++ Db.getUserSharedFiles uid n' (m + n) d
     = Db.getUserSharedFiles uid (n + n') m d) /\
  (forall n, Z.of_nat (length (files_of uid d)) <= n ->
     Db.getUserSharedFiles uid n 0 d ≡ₚ files_of uid d).
Proof.
  unfold Db.getUserSharedFiles, Db.limit_offset, files_of. split.
  - intros n n' m Hn Hn' Hm.
    destruct (Z.ltb_spec n 0); [lia|].
    destruct (Z.ltb_spec n' 0); [lia|].
    destruct (Z.ltb_spec (n + n') 0); [lia|].
    rewrite !Z2Nat.inj_add by lia.
    rewrite <- drop_drop. apply take_take_drop.
  - intros n Hn.
    set (l := List.filter (Db.owned_by uid) (Db.shared_files d)) in *.
    pose proof (order_by_created_desc_perm l) as Hp.
    destruct (Z.ltb_spec n 0); [lia|].
    pose proof (Permutation_length Hp) as Hlen.
    change (Z.to_nat 0) with 0%nat. rewrite drop_0.
    rewrite take_ge; [exact Hp | lia].
Qed.

Lemma getUserSharedFiles_pages_tile_witness :
  Db.getUserSharedFiles "u1" 1 0 (Server.db world1)
  ++ Db.getUserSharedFiles "u1" 2 (0 + 1) (Server.db world1)
  = Db.getUserSharedFiles "u1" (1 + 2) 0 (Server.db world1) /\
  Db.getUserSharedFiles "u1" 1 0 (Server.db world1)
  ≡ₚ files_of "u1" (Server.db world1).
Proof.
  destruct (getUserSharedFiles_pages_tile "u1" (Server.db world1)) as [Ht Hp].
  split; [apply Ht; lia | apply Hp; vm_compute; discriminate].
Defined.

(** ** Statistics and counters *)

Lemma or_zero_sql_sum l : Js.or_zero (Db.sql_sum l) = total l.
Proof. destruct l; reflexivity. Qed.

(** X6: whenever both queries succeed, the statistics response reports
    the number of the owner's rows, the sum of their sizes and the sum of
    their download counters (replacing a NULL sum by 0 never changes a
    value), the formatted form of that total size, and as recent files
    the first page of five of the owner's listing; the handler changes
    nothing. *)
Theorem stats_agree_with_rows e w uid :
  Server.fails e Server.OpGetUserFileStats = false ->
  Server.fails e Server.OpGetUserSharedFiles = false ->
  exists s,
    FilesRoute.stats uid e w = (w, inr (Http.ok (Http.Stats s))) /\
    Http.totalFiles s = Z.of_nat (length (files_of uid (Server.db w))) /\
    Http.totalSize s = total (map SharedFile.file_size (files_of uid (Server.db w))) /\
    Http.totalDownloads s
    = total (map SharedFile.download_count (files_of uid (Server.db w))) /\
    Http.formattedTotalSize s = Files.formatFileSize (Http.totalSize s) /\
    Http.recentFiles s
    = map FilesRoute.recent_of (Db.getUserSharedFiles uid 5 0 (Server.db w)) /\
    (length (Http.recentFiles s) <= 5)%nat.
Proof.
  intros Hf1 Hf2. eexists. split.
  - unfold FilesRoute.stats. run_handler. rewrite Hf1, Hf2. reflexivity.
  - cbn [Http.totalFiles Http.totalSize Http.totalDownloads
         Http.formattedTotalSize Http.recentFiles].
    unfold Db.getUserFileStats.
    cbn [Db.total_files Db.total_size Db.total_downloads Js.or_zero].
    rewrite !or_zero_sql_sum. repeat split.
    rewrite length_map. unfold Db.getUserSharedFiles, Db.limit_offset.
    cbn [Z.ltb Z.compare]. rewrite length_take. lia.
Qed.

Lemma stats_agree_with_rows_witness :
  exists s,
    FilesRoute.stats "u1" (env_ok 300 "-") world1
    = (world1, inr (Http.ok (Http.Stats s))) /\
    Http.totalFiles s = Z.of_nat (length (files_of "u1" (Server.db world1))) /\
    Http.totalSize s
    = total (map SharedFile.file_size (files_of "u1" (Server.db world1))) /\
    Http.totalDownloads s
    = total (map SharedFile.download_count (files_of "u1" (Server.db world1))) /\
    Http.formattedTotalSize s = Files.formatFileSize (Http.totalSize s) /\
    Http.recentFiles s
    = map FilesRoute.recent_of (Db.getUserSharedFiles "u1" 5 0 (Server.db world1)) /\
    (length (Http.recentFiles s) <= 5)%nat.
Proof.
  apply (stats_agree_with_rows (env_ok 300 "-") world1 "u1"); reflexivity.
Defined.

Lemma touched_owner now fid u rows :
  List.filter (Db.owned_by u)
    (map (fun r => if Db.is_file fid r then SharedFile.touch now r else r) rows)
  = map (fun r => if Db.is_file fid r then SharedFile.touch now r else r)
      (List.filter (Db.owned_by u) rows).
Proof.
  induction rows as [|r rows IH]; simpl; [reflexivity|].
  assert (Hsame : Db.owned_by u (if Db.is_file fid r then SharedFile.touch now r else r)
                  = Db.owned_by u r) by (destruct (Db.is_file fid r); reflexivity).
  rewrite Hsame. destruct (Db.owned_by u r); simpl; now rewrite IH.
Qed.

Lemma touched_sizes now fid rows :
  map SharedFile.file_size
    (map (fun r => if Db.is_file fid r then SharedFile.touch now r else r) rows)
  = map SharedFile.file_size rows.
Proof.
  rewrite map_map. apply map_ext. intros r. now destruct (Db.is_file fid r).
Qed.

Lemma touched_counts now fid rows :
  total (map SharedFile.download_count
           (map (fun r => if Db.is_file fid r then SharedFile.touch now r else r) rows))
  = total (map SharedFile.download_count rows)
    + Z.of_nat (length (List.filter (Db.is_file fid) rows)).
Proof.
  unfold total. induction rows as [|r rows IH]; simpl; [reflexivity|].
  rewrite IH. destruct (Db.is_file fid r); simpl length;
    cbn [SharedFile.touch SharedFile.download_count]; lia.
Qed.

Lemma hits_of_owner fid u d r :
  Db.unique_file_ids d ->
  Db.getSharedFile fid d = Some r ->
  length (List.filter (Db.is_file fid) (files_of u d))
  = if String.eqb (SharedFile.user_id r) u then 1%nat else 0%nat.
Proof.
  intros Hu Hr. apply find_some_in in Hr as [Hin Hfid].
  pose proof (filter_unique_length fid _ (filter_unique (Db.owned_by u) _ Hu)) as Hle.
  unfold files_of in *.
  destruct (String.eqb_spec (SharedFile.user_id r) u) as [Ho|Ho].
  - assert (Hr : In r (List.filter (Db.is_file fid)
                         (List.filter (Db.owned_by u) (Db.shared_files d)))).
    { apply List.filter_In. split; [|exact Hfid].
      apply List.filter_In. split; [exact Hin|]. now apply String.eqb_eq. }
    destruct (List.filter (Db.is_file fid) _); [destruct Hr | simpl in *; lia].
  - destruct (List.filter (Db.is_file fid) _) as [|x l] eqn:Hf; [reflexivity|].
    exfalso.
    assert (Hx : In x (List.filter (Db.is_file fid)
                         (List.filter (Db.owned_by u) (Db.shared_files d))))
      by (rewrite Hf; now left).
    apply List.filter_In in Hx as [Hx Hxfid].
    apply List.filter_In in Hx as [Hx Hxo].
    assert (x = r).
    { apply (unique_file_id_row _ x r Hu Hx Hin).
      apply String.eqb_eq in Hfid, Hxfid. congruence. }
    subst x. now apply String.eqb_eq in Hxo.
Qed.

(** X7: under the UNIQUE constraint on [file_id], counting one download
    of an existing file raises the total download count of the file's
    owner by exactly one, leaves every other user's total alone, and
    changes no user's file count or total size. *)
Theorem incrementDownloadCount_raises_owner_total now fid d r :
  Db.unique_file_ids d ->
  Db.getSharedFile fid d = Some r ->
  forall u,
    total (map SharedFile.download_count (files_of u (increment_at fid d now)))
    = total (map SharedFile.download_count (files_of u d))
      + (if String.eqb (SharedFile.user_id r) u then 1 else 0) /\
    total (map SharedFile.file_size (files_of u (increment_at fid d now)))
    = total (map SharedFile.file_size (files_of u d)) /\
    length (files_of u (increment_at fid d now)) = length (files_of u d).
Proof.
  intros Hu Hr u.
  unfold files_of at 1 3 5, increment_at, Db.incrementDownloadCount.
  cbn [fst Db.shared_files]. rewrite touched_owner.
  fold (files_of u d).
  split; [|split].
  - rewrite touched_counts, (hits_of_owner fid u d r Hu Hr).
    now destruct (String.eqb (SharedFile.user_id r) u).
  - now rewrite touched_sizes.
  - apply length_map.
Qed.

Lemma incrementDownloadCount_raises_owner_total_witness :
  total (map SharedFile.download_count
           (files_of "u1" (increment_at "f-1" (Server.db world1) 200)))
  = total (map SharedFile.download_count (files_of "u1" (Server.db world1)))
    + (if String.eqb "u1" "u1" then 1 else 0).
Proof.
  apply (incrementDownloadCount_raises_owner_total 200 "f-1" (Server.db world1)
           (SharedFile.mkRow 1 "f-1" "u1" "notes.txt" "f-1.txt"
              "uploads/shared/f-1.txt" "/uploads/shared/f-1.txt" 5
              "text/plain" EmptyString "text" 0 false 100 100)).
  - vm_compute. repeat constructor. intros H. inversion H.
  - vm_compute. reflexivity.
Defined.

(** ** Repository writes *)

Lemma filter_all {A} (f : A -> bool) l :
  (forall x, In x l -> f x = true) -> List.filter f l = l.
Proof.
  induction l as [|x l IH]; intros H; simpl; [reflexivity|].
  rewrite (H x) by now left. f_equal. apply IH. intros y Hy. apply H. now right.
Qed.

Lemma find_filter_implied {A} (f p : A -> bool) l :
  (forall x, f x = true -> p x = true) ->
  List.find f (List.filter p l) = List.find f l.
Proof.
  intros Himp. induction l as [|x l IH]; simpl; [reflexivity|].
  destruct (f x) eqn:Hf.
  - rewrite (Himp x Hf). simpl. now rewrite Hf.
  - destruct (p x); simpl; [now rewrite Hf | exact IH].
Qed.

Lemma delete_matches_nothing fid u d :
  (forall r, In r (Db.shared_files d) -> Db.delete_matches fid u r = false) ->
  Db.deleteSharedFile fid u d = (d, 0).
Proof.
  intros Hall. unfold Db.deleteSharedFile.
  rewrite (filter_none _ _ Hall), filter_all.
  - destruct d. reflexivity.
  - intros r Hr. now rewrite (Hall r Hr).
Qed.

Lemma deleteSharedFile_other_ids fid fid' u d :
  fid' <> fid ->
  Db.getSharedFile fid' (fst (Db.deleteSharedFile fid u d))
  = Db.getSharedFile fid' d.
Proof.
  intros Hne. unfold Db.getSharedFile, Db.deleteSharedFile.
  cbn [fst Db.shared_files]. apply find_filter_implied.
  intros x Hx. unfold Db.delete_matches.
  destruct (Db.is_file fid x) eqn:Hfid; [|reflexivity].
  apply String.eqb_eq in Hx, Hfid. congruence.
Qed.

(** X8: under the UNIQUE constraint on [file_id], the row delete checks
    the owner itself: for an existing file, a delete issued for another
    user affects 0 rows and leaves the store exactly as it was, a delete
    issued for the owner affects exactly 1 row after which the id is no
    longer found; either way every other file is still found as before. *)
Theorem deleteSharedFile_checks_owner fid u d r :
  Db.unique_file_ids d ->
  Db.getSharedFile fid d = Some r ->
  (SharedFile.user_id r <> u -> Db.deleteSharedFile fid u d = (d, 0)) /\
  (SharedFile.user_id r = u ->
   snd (Db.deleteSharedFile fid u d) = 1 /\
   Db.getSharedFile fid (fst (Db.deleteSharedFile fid u d)) = None) /\
  (forall fid', fid' <> fid ->
   Db.getSharedFile fid' (fst (Db.deleteSharedFile fid u d))
   = Db.getSharedFile fid' d).
Proof.
  intros Hu Hr. split; [|split].
  - intros Hne. apply delete_matches_nothing. intros x Hx.
    unfold Db.delete_matches.
    destruct (Db.is_file fid x) eqn:Hfid; [|reflexivity].
    pose proof Hr as Hr'. apply find_some_in in Hr' as [Hin Hrfid].
    assert (x = r).
    { apply (unique_file_id_row _ x r Hu Hx Hin).
      apply String.eqb_eq in Hfid, Hrfid. congruence. }
    subst x. cbn [andb]. now apply String.eqb_neq.
  - intros Ho. split; [|now apply (deleteSharedFile_gone fid u d r)].
    pose proof (deleteSharedFile_hits fid u d r Hr Ho) as Hpos.
    unfold Db.deleteSharedFile in *. cbn [snd] in *.
    pose proof (filter_unique_length fid _ Hu) as Hle.
    assert (Hsub : (length (List.filter (Db.delete_matches fid u) (Db.shared_files d))
                    <= length (List.filter (Db.is_file fid) (Db.shared_files d)))%nat).
    { clear. induction (Db.shared_files d) as [|x l IH]; simpl; [lia|].
      unfold Db.delete_matches at 1.
      destruct (Db.is_file fid x); cbn [andb]; [|exact IH].
      destruct (Db.owned_by u x); simpl; lia. }
    lia.
  - intros fid' Hne. now apply deleteSharedFile_other_ids.
Qed.

Lemma deleteSharedFile_checks_owner_witness :
  Db.deleteSharedFile "f-1" "u2" (Server.db world1) = (Server.db world1, 0) /\
  snd (Db.deleteSharedFile "f-1" "u1" (Server.db world1)) = 1.
Proof.
  destruct (deleteSharedFile_checks_owner "f-1" "u2" (Server.db world1)
              (SharedFile.mkRow 1 "f-1" "u1" "notes.txt" "f-1.txt"
                 "uploads/shared/f-1.txt" "/uploads/shared/f-1.txt" 5
                 "text/plain" EmptyString "text" 0 false 100 100))
    as (Hother & _ & _).
  { vm_compute. repeat constructor. intros H. inversion H. }
  { vm_compute. reflexivity. }
  destruct (deleteSharedFile_checks_owner "f-1" "u1" (Server.db world1)
              (SharedFile.mkRow 1 "f-1" "u1" "notes.txt" "f-1.txt"
                 "uploads/shared/f-1.txt" "/uploads/shared/f-1.txt" 5
                 "text/plain" EmptyString "text" 0 false 100 100))
    as (_ & Hown & _).
  { vm_compute. repeat constructor. intros H. inversion H. }
  { vm_compute. reflexivity. }
  split.
  - apply Hother. cbn [SharedFile.user_id]. discriminate.
  - apply Hown. reflexivity.
Defined.

Lemma find_other_user uid' uid rows (r : User.row) :
  uid' <> uid -> User.user_id r = uid ->
  List.find (Db.is_user uid')
    (List.filter (fun x => negb (Db.is_user uid x)) rows ++ [r])
  = List.find (Db.is_user uid') rows.
Proof.
  intros Hne Hr. induction rows as [|x rows IH]; simpl.
  - unfold Db.is_user. rewrite Hr.
    destruct (String.eqb_spec uid uid'); [congruence | reflexivity].
  - destruct (Db.is_user uid x) eqn:Hx; destruct (Db.is_user uid' x) eqn:Hx';
      simpl; rewrite ?Hx'; try reflexivity; try exact IH.
    apply String.eqb_eq in Hx, Hx'. congruence.
Qed.

Lemma upsertUser_unique now u d :
  Db.unique_user_ids d -> Db.unique_user_ids (fst (Db.upsertUser now u d)).
Proof.
  unfold Db.upsertUser, Db.unique_user_ids. cbn [fst Db.users].
  intros Hu. rewrite map_app. apply NoDup_app. split; [|split].
  - clear -Hu. induction (Db.users d) as [|x l IH]; simpl; [constructor|].
    apply NoDup_cons in Hu as [Hnotin Hu].
    destruct (negb (Db.is_user (Db.userId u) x)); [|now apply IH].
    simpl. apply NoDup_cons. split; [|now apply IH].
    intros Hin. apply Hnotin.
    apply list_elem_of_In, in_map_iff in Hin as (y & Hy & Hin).
    apply List.filter_In in Hin as [Hin _].
    apply list_elem_of_In, in_map_iff. eauto.
  - intros x Hx Hx2. cbn [map User.user_id] in Hx2.
    apply list_elem_of_In in Hx2 as [Heq|[]]. subst x.
    apply list_elem_of_In, in_map_iff in Hx as (y & Hy & Hin).
    apply List.filter_In in Hin as [_ Hin].
    apply negb_true_iff in Hin. unfold Db.is_user in Hin.
    rewrite Hy, String.eqb_refl in Hin. discriminate.
  - repeat constructor. intros H. inversion H.
Qed.

(** X9: [upsertUser] touches one user only: afterwards there is exactly
    one row for the upserted [userId], every other user is read back as
    before, the UNIQUE constraint on [user_id] still holds when it held
    before, and the table of shared files is not changed. *)
Theorem upsertUser_keeps_other_users now u d :
  length (List.filter (Db.is_user (Db.userId u))
            (Db.users (fst (Db.upsertUser now u d)))) = 1%nat /\
  (forall uid', uid' <> Db.userId u ->
     Db.getUser uid' (fst (Db.upsertUser now u d)) = Db.getUser uid' d) /\
  (Db.unique_user_ids d -> Db.unique_user_ids (fst (Db.upsertUser now u d))) /\
  Db.shared_files (fst (Db.upsertUser now u d)) = Db.shared_files d.
Proof.
  unfold Db.upsertUser, Db.getUser, Db.unique_user_ids.
  cbn [fst Db.users Db.shared_files].
  split; [|split; [|split; [|reflexivity]]].
  - rewrite List.filter_app, length_app.
    rewrite (filter_none (Db.is_user (Db.userId u))).
    + cbn [List.filter]. unfold Db.is_user at 1. cbn [User.user_id].
      rewrite String.eqb_refl. reflexivity.
    + intros x Hx. apply List.filter_In in Hx as [_ Hx].
      now apply negb_true_iff in Hx.
  - intros uid' Hne. now apply find_other_user.
  - intros Hu. exact (upsertUser_unique now u d Hu).
Qed.

Lemma upsertUser_keeps_other_users_witness :
  Db.unique_user_ids
    (fst (Db.upsertUser 200 (Db.mkUserData "u2" None None None None)
            (Server.db world_pic))) /\
  Db.getUser "u1"
    (fst (Db.upsertUser 200 (Db.mkUserData "u2" None None None None)
            (Server.db world_pic)))
  = Db.getUser "u1" (Server.db world_pic).
Proof.
  destruct (upsertUser_keeps_other_users 200
              (Db.mkUserData "u2" None None None None) (Server.db world_pic))
    as (_ & Hother & Huniq & _).
  split.
  - apply Huniq. vm_compute. repeat constructor. intros H. inversion H.
  - apply Hother. discriminate.
Defined.

(** ** The files route *)

Lemma find_none_existsb {A} (f : A -> bool) l :
  List.find f l = None -> existsb f l = false.
Proof.
  intros H. destruct (existsb f l) eqn:He; [|reflexivity].
  apply existsb_find in He. congruence.
Qed.

Lemma find_app_other {A} (f : A -> bool) l x :
  f x = false -> List.find f (l ++ [x]) = List.find f l.
Proof.
  intros Hx. induction l as [|y l IH]; simpl; [now rewrite Hx|].
  destruct (f y); [reflexivity | exact IH].
Qed.

Lemma upload_no_faults e w c uid description file :
  Server.fails e Server.OpWriteFile = false ->
  Server.fails e Server.OpCreateSharedFile = false ->
  Db.getSharedFile (Server.uuid e) (Server.db w) = None ->
  exists up,
    FilesRoute.upload (Some (String c uid)) description (Some file) e w
    = (after_upload e w (String c uid) description file,
       inr (Http.ok (Http.Uploaded "File uploaded successfully" up))) /\
    Http.up_fileId up = Server.uuid e /\
    Http.up_fileSize up = Http.size file /\
    Http.up_formattedSize up = Files.formatFileSize (Http.size file).
Proof.
  intros Hw Hc Hfresh.
  unfold FilesRoute.upload, after_upload, uploaded_row.
  cbn [Js.truthy]. run_handler. rewrite Hw, Hc.
  unfold Db.createSharedFile.
  cbn [Db.fileId Server.db Server.disk Server.log SharedFile.file_path SharedFile.id].
  rewrite (find_none_existsb _ _ Hfresh).
  eexists. split.
  { cbn [Server.db Server.disk Server.log]. rewrite <- app_assoc. reflexivity. }
  repeat split.
Qed.

Lemma uploaded_row_found e w uid description file :
  Db.getSharedFile (Server.uuid e) (Server.db w) = None ->
  Db.getSharedFile (Server.uuid e)
    (Server.db (after_upload e w uid description file))
  = Some (uploaded_row e (Server.db w) uid description file).
Proof.
  intros Hfresh. unfold after_upload, Db.getSharedFile in *.
  cbn [Server.db Db.shared_files].
  rewrite (find_app_none _ _ _ Hfresh).
  cbn [List.find]. unfold Db.is_file at 1, uploaded_row at 1.
  cbn [SharedFile.file_id]. rewrite String.eqb_refl. reflexivity.
Qed.

(** X10: an upload whose identifier is new and whose write and insert
    both succeed commits row and blob together: the row found under the
    new identifier carries the uploader, the declared name, size and MIME
    type, the category computed from the MIME type, a zero download
    counter and the path under which the uploaded bytes are now on disk
    (its url is that path behind a slash); no other path on disk, no
    other file row and no user row is changed, and the response reports
    the same identifier and the formatted size. *)
Theorem upload_commits_row_and_blob e w c uid description file :
  Server.fails e Server.OpWriteFile = false ->
  Server.fails e Server.OpCreateSharedFile = false ->
  Db.getSharedFile (Server.uuid e) (Server.db w) = None ->
  let path :=
    ("uploads/shared/" +:+ Server.uuid e +:+ Path.extname (Http.originalname file))%string in
  exists w' r up,
    FilesRoute.upload (Some (String c uid)) description (Some file) e w
    = (w', inr (Http.ok (Http.Uploaded "File uploaded successfully" up))) /\
    Db.getSharedFile (Server.uuid e) (Server.db w') = Some r /\
    SharedFile.user_id r = String c uid /\
    SharedFile.original_name r = Http.originalname file /\
    SharedFile.file_size r = Http.size file /\
    SharedFile.mime_type r = Http.mimetype file /\
    SharedFile.category r = Files.getFileCategory (Http.mimetype file) /\
    SharedFile.description r = Js.or_else description EmptyString /\
    SharedFile.download_count r = 0 /\
    SharedFile.created_at r = Server.now e /\
    SharedFile.file_path r = path /\
    SharedFile.file_url r = ("/" +:+ path)%string /\
    Server.disk w' !! path = Some (Http.buffer file) /\
    (forall p, p <> path -> Server.disk w' !! p = Server.disk w !! p) /\
    (forall fid, fid <> Server.uuid e ->
       Db.getSharedFile fid (Server.db w') = Db.getSharedFile fid (Server.db w)) /\
    Db.users (Server.db w') = Db.users (Server.db w) /\
    Http.up_fileId up = Server.uuid e /\
    Http.up_fileSize up = Http.size file /\
    Http.up_formattedSize up = Files.formatFileSize (Http.size file).
Proof.
  intros Hw Hc Hfresh path.
  destruct (upload_no_faults e w c uid description file Hw Hc Hfresh)
    as (up & Hrun & Hid & Hsize & Hfmt).
  exists (after_upload e w (String c uid) description file),
         (uploaded_row e (Server.db w) (String c uid) description file), up.
  split; [exact Hrun|].
  split; [now apply uploaded_row_found|].
  unfold after_upload, uploaded_row.
  cbn [Server.db Server.disk Db.shared_files Db.users SharedFile.user_id
       SharedFile.original_name SharedFile.file_size SharedFile.mime_type
       SharedFile.category SharedFile.description SharedFile.download_count
       SharedFile.created_at SharedFile.file_path SharedFile.file_url].
  fold path.
  repeat split; try assumption.
  - apply lookup_insert_eq.
  - intros p Hp. apply lookup_insert_ne. congruence.
  - intros fid Hfid. unfold Db.getSharedFile. cbn [Db.shared_files].
    apply find_app_other. unfold Db.is_file. cbn [SharedFile.file_id].
    apply String.eqb_neq. congruence.
Qed.

Lemma upload_commits_row_and_blob_witness :
  exists w' r up,
    FilesRoute.upload (Some "u1"%string) None (Some notes_txt) (env_ok 100 "f-1") world0
    = (w', inr (Http.ok (Http.Uploaded "File uploaded successfully" up))) /\
    Db.getSharedFile "f-1" (Server.db w') = Some r /\
    SharedFile.file_path r = "uploads/shared/f-1.txt"%string /\
    Server.disk w' !! "uploads/shared/f-1.txt"%string = Some hello.
Proof.
  destruct (upload_commits_row_and_blob (env_ok 100 "f-1") world0 "u"%char
              "1"%string None notes_txt eq_refl eq_refl eq_refl)
    as (w' & r & up & Hrun & Hrow & _ & _ & _ & _ & _ & _ & _ & _ & Hpath & _ & Hblob & _).
  exists w', r, up. repeat split; assumption.
Defined.

Lemma validHeaderValue_cons c rest :
  FilesRoute.validHeaderValue (String c rest)
  = if ((N_of_ascii c =? 9) || ((32 <=? N_of_ascii c) && (N_of_ascii c <=? 126)))%N
    then FilesRoute.validHeaderValue rest
    else if ((N_of_ascii c =? 194) || (N_of_ascii c =? 195))%N then
      match rest with
      | String c' rest' =>
        ((128 <=? N_of_ascii c') && (N_of_ascii c' <=? 191))%N
        && FilesRoute.validHeaderValue rest'
      | EmptyString => false
      end
    else false.
Proof. reflexivity. Qed.

Lemma validHeaderValue_quote_both name :
  FilesRoute.validHeaderValue (name +:+ FilesRoute.quote)
  = FilesRoute.validHeaderValue name /\
  forall c, FilesRoute.validHeaderValue (String c name +:+ FilesRoute.quote)
            = FilesRoute.validHeaderValue (String c name).
Proof.
  induction name as [|c' name [IH1 IH2]].
  - split; [reflexivity|]. intros c. rewrite append_cons.
    rewrite !validHeaderValue_cons.
    destruct (_ || _)%N; [reflexivity|].
    destruct (_ || _)%N; reflexivity.
  - split; [apply IH2|]. intros c. rewrite append_cons.
    rewrite (validHeaderValue_cons c (String c' name +:+ FilesRoute.quote)),
      (validHeaderValue_cons c (String c' name)).
    destruct (_ || _)%N; [apply IH2|].
    destruct (_ || _)%N; [|reflexivity].
    rewrite append_cons, IH1. reflexivity.
Qed.

Lemma validHeaderValue_disposition name :
  FilesRoute.validHeaderValue (contentDisposition_of name)
  = FilesRoute.validHeaderValue name.
Proof.
  unfold contentDisposition_of.
  transitivity (FilesRoute.validHeaderValue (name +:+ FilesRoute.quote));
    [|apply validHeaderValue_quote_both].
  reflexivity.
Qed.

Lemma download_serves e w fid r blob :
  (forall o, Server.fails e o = false) ->
  Db.getSharedFile fid (Server.db w) = Some r ->
  Server.disk w !! SharedFile.file_path r = Some blob ->
  headers_ok r = true ->
  exists changes,
    FilesRoute.download fid e w
    = (Server.mkWorld (Server.disk w) (increment_at fid (Server.db w) (Server.now e))
         (Server.log w ++ [Server.EvIncrementDownloadCount fid changes]),
       inr (Http.ok (Http.SentFile (SharedFile.file_path r) (SharedFile.mime_type r)
                       (contentDisposition_of (SharedFile.original_name r))))).
Proof.
  intros Hok Hr Hblob Hh.
  apply andb_true_iff in Hh as [Hmime Hname]. unfold contentDisposition_of in *.
  unfold FilesRoute.download, FilesRoute.setHeader, increment_at. run_handler.
  repeat first
    [ progress cbn [Server.disk Server.db Server.log negb]
    | rewrite Hok | rewrite Hr | rewrite Hblob | rewrite Hmime | rewrite Hname
    | rewrite bool_decide_eq_true_2 by eauto ].
  destruct (Db.incrementDownloadCount (Server.now e) fid (Server.db w))
    as [d changes].
  exists changes. reflexivity.
Qed.

(** X11: round trip of a shared file whose declared MIME type and
    original name are valid header values.  After a committed upload, a
    download of the new identifier is answered with the stored path (under
    which the disk holds exactly the uploaded bytes), the declared MIME
    type and the original name in the attachment header; the file info
    read afterwards shows the declared name and size, one download, and the
    time of that download as last access. *)
Theorem upload_then_download e1 e2 e3 w c uid description file :
  (forall o, Server.fails e1 o = false) ->
  (forall o, Server.fails e2 o = false) ->
  Server.fails e3 Server.OpGetSharedFile = false ->
  Db.getSharedFile (Server.uuid e1) (Server.db w) = None ->
  FilesRoute.validHeaderValue (Http.mimetype file) = true ->
  FilesRoute.validHeaderValue (Http.originalname file) = true ->
  let fid := Server.uuid e1 in
  let path :=
    ("uploads/shared/" +:+ fid +:+ Path.extname (Http.originalname file))%string in
  exists w1 w2 i,
    fst (FilesRoute.upload (Some (String c uid)) description (Some file) e1 w) = w1 /\
    FilesRoute.download fid e2 w1
    = (w2, inr (Http.ok (Http.SentFile path (Http.mimetype file)
                           ("attachment; filename=" +:+ FilesRoute.quote
                              +:+ Http.originalname file +:+ FilesRoute.quote)))) /\
    Server.disk w2 !! path = Some (Http.buffer file) /\
    FilesRest.get_info fid e3 w2 = (w2, inr (200, FilesRest.Info i)) /\
    FilesRest.in_fileId i = fid /\
    FilesRest.in_originalName i = Http.originalname file /\
    FilesRest.in_fileSize i = Http.size file /\
    FilesRest.in_formattedSize i = Files.formatFileSize (Http.size file) /\
    FilesRest.in_category i = Files.getFileCategory (Http.mimetype file) /\
    FilesRest.in_downloadCount i = 1 /\
    FilesRest.in_uploadedAt i = Server.now e1 /\
    FilesRest.in_lastAccessed i = Server.now e2.
Proof.
  intros Hok1 Hok2 Hok3 Hfresh Hmime Hname fid path.
  destruct (upload_no_faults e1 w c uid description file (Hok1 _) (Hok1 _) Hfresh)
    as (up & Hrun & _).
  set (w1 := after_upload e1 w (String c uid) description file) in *.
  set (r := uploaded_row e1 (Server.db w) (String c uid) description file).
  assert (Hrow : Db.getSharedFile fid (Server.db w1) = Some r)
    by now apply uploaded_row_found.
  assert (Hblob : Server.disk w1 !! SharedFile.file_path r = Some (Http.buffer file))
    by apply lookup_insert_eq.
  assert (Hh : headers_ok r = true).
  { unfold headers_ok. rewrite validHeaderValue_disposition.
    cbn [r uploaded_row SharedFile.mime_type SharedFile.original_name].
    now rewrite Hmime, Hname. }
  destruct (download_serves e2 w1 fid r _ Hok2 Hrow Hblob Hh) as (changes & Hdl).
  pose proof (increment_row (Server.now e2) fid (Server.db w1) r Hrow) as Hrow2.
  eexists w1, _, (FilesRest.info_of (SharedFile.touch (Server.now e2) r)).
  split; [now rewrite Hrun|].
  split; [exact Hdl|].
  cbn [Server.disk Server.db].
  split; [exact Hblob|].
  split.
  { unfold FilesRest.get_info. run_handler. rewrite Hok3.
    cbn [Server.db]. rewrite Hrow2. reflexivity. }
  repeat split.
Qed.

Lemma upload_then_download_witness :
  exists w1 w2 i,
    fst (FilesRoute.upload (Some "u1"%string) None (Some notes_txt)
           (env_ok 100 "f-1") world0) = w1 /\
    FilesRoute.download "f-1" (env_ok 200 "-") w1
    = (w2, inr (Http.ok (Http.SentFile "uploads/shared/f-1.txt" "text/plain"
                           ("attachment; filename=" +:+ FilesRoute.quote
                              +:+ "notes.txt" +:+ FilesRoute.quote)))) /\
    Server.disk w2 !! "uploads/shared/f-1.txt"%string = Some hello /\
    FilesRest.get_info "f-1" (env_ok 300 "-") w2 = (w2, inr (200, FilesRest.Info i)) /\
    FilesRest.in_downloadCount i = 1 /\
    FilesRest.in_lastAccessed i = 200.
Proof.
  destruct (upload_then_download (env_ok 100 "f-1") (env_ok 200 "-") (env_ok 300 "-")
              world0 "u"%char "1"%string None notes_txt
              (fun _ => eq_refl) (fun _ => eq_refl) eq_refl eq_refl eq_refl eq_refl)
    as (w1 & w2 & i & H1 & H2 & H3 & H4 & _ & _ & _ & _ & _ & H5 & _ & H6).
  exists w1, w2, i. repeat split; assumption.
Defined.

(** X12: a delete request for a file that exists but belongs to another
    user is answered 403, and neither the blob, nor the row, nor anything
    else is touched, whichever later call would have failed. *)
Theorem delete_by_other_user_is_forbidden e w fid c u r :
  Server.fails e Server.OpGetSharedFile = false ->
  Db.getSharedFile fid (Server.db w) = Some r ->
  SharedFile.user_id r <> String c u ->
  FilesRoute.delete fid (Some (String c u)) e w
  = (w, inr (Http.mkResponse 403
               (Http.Error "Unauthorized - you can only delete your own files"))).
Proof.
  intros Hok Hr Hne.
  unfold FilesRoute.delete. cbn [Js.truthy]. run_handler.
  rewrite Hok, Hr.
  destruct (String.eqb_spec (SharedFile.user_id r) (String c u)); [congruence|].
  reflexivity.
Qed.

Lemma delete_by_other_user_is_forbidden_witness :
  FilesRoute.delete "f-1" (Some "u2"%string) (env_ok 200 "-") world1
  = (world1, inr (Http.mkResponse 403
                    (Http.Error "Unauthorized - you can only delete your own files"))).
Proof.
  apply (delete_by_other_user_is_forbidden (env_ok 200 "-") world1 "f-1"
           "u"%char "2"%string
           (SharedFile.mkRow 1 "f-1" "u1" "notes.txt" "f-1.txt"
              "uploads/shared/f-1.txt" "/uploads/shared/f-1.txt" 5
              "text/plain" EmptyString "text" 0 false 100 100)).
  - reflexivity.
  - vm_compute. reflexivity.
  - cbn [SharedFile.user_id]. discriminate.
Defined.

(** X13: a delete by the owner with no call failing removes one file
    only: every other path on disk holds what it held, every other file
    id is found as before, the users table is unchanged and the UNIQUE
    constraint on [file_id] still holds. *)
Theorem delete_leaves_other_files e w fid c u r :
  Db.unique_file_ids (Server.db w) ->
  (forall o, Server.fails e o = false) ->
  Db.getSharedFile fid (Server.db w) = Some r ->
  SharedFile.user_id r = String c u ->
  exists w',
    FilesRoute.delete fid (Some (String c u)) e w
    = (w', inr (Http.ok (Http.Success "File deleted successfully"))) /\
    (forall p, p <> SharedFile.file_path r ->
       Server.disk w' !! p = Server.disk w !! p) /\
    (forall fid', fid' <> fid ->
       Db.getSharedFile fid' (Server.db w') = Db.getSharedFile fid' (Server.db w)) /\
    Db.users (Server.db w') = Db.users (Server.db w) /\
    Db.unique_file_ids (Server.db w').
Proof.
  intros Hu Hok Hr Hown.
  exists (after_delete w fid (String c u) (SharedFile.file_path r)).
  split; [now apply delete_passes_gates|].
  unfold after_delete. cbn [Server.disk Server.db].
  split; [|split; [|split]].
  - intros p Hp.
    destruct (bool_decide (is_Some (Server.disk w !! SharedFile.file_path r)));
      [apply lookup_delete_ne; congruence | reflexivity].
  - intros fid' Hne.
    now apply deleteSharedFile_other_ids.
  - reflexivity.
  - now apply deleteSharedFile_unique.
Qed.

Lemma delete_leaves_other_files_witness :
  exists w',
    FilesRoute.delete "f-1" (Some "u1"%string) (env_ok 200 "-") world1
    = (w', inr (Http.ok (Http.Success "File deleted successfully"))) /\
    Db.users (Server.db w') = Db.users (Server.db world1) /\
    Db.unique_file_ids (Server.db w').
Proof.
  destruct (delete_leaves_other_files (env_ok 200 "-") world1 "f-1" "u"%char "1"%string
              (SharedFile.mkRow 1 "f-1" "u1" "notes.txt" "f-1.txt"
                 "uploads/shared/f-1.txt" "/uploads/shared/f-1.txt" 5
                 "text/plain" EmptyString "text" 0 false 100 100))
    as (w' & Hrun & _ & _ & Husers & Huniq).
  - vm_compute. repeat constructor. intros H. inversion H.
  - reflexivity.
  - vm_compute. reflexivity.
  - reflexivity.
  - exists w'. repeat split; assumption.
Defined.



(** X15: the read handlers are read-only: file info, statistics, search,
    picture and picture url return the state they were given, unchanged
    in disk, database and log, whatever the request is and whichever call
    fails. *)
Theorem read_handlers_change_nothing e w :
  (forall fid, fst (FilesRest.get_info fid e w) = w) /\
  (forall uid, fst (FilesRoute.stats uid e w) = w) /\
  (forall uid q, fst (FilesRoute.search uid q e w) = w) /\
  (forall uid, fst (ProfileRest.get_picture uid e w) = w) /\
  (forall uid, fst (ProfileRest.get_picture_url uid e w) = w).
Proof.
  repeat split; intros.
  - unfold FilesRest.get_info. run_handler. repeat case_match; simplify_eq; reflexivity.
  - unfold FilesRoute.stats. run_handler. repeat case_match; simplify_eq; reflexivity.
  - unfold FilesRoute.search. run_handler. repeat case_match; simplify_eq; reflexivity.
  - unfold ProfileRest.get_picture. run_handler.
    repeat case_match; simplify_eq; reflexivity.
  - unfold ProfileRest.get_picture_url. run_handler.
    repeat case_match; simplify_eq; reflexivity.
Qed.

Lemma upload_store_outcome e w uid description file w' res :
  FilesRoute.upload uid description file e w = (w', res) ->
  Server.db w' = Server.db w \/
  exists f d rid,
    Db.createSharedFile (Server.now e) f (Server.db w) = inr (d, rid) /\
    Server.db w' = d.
Proof.
  unfold FilesRoute.upload. run_handler.
  destruct (Js.truthy uid) as [userId|]; [|intros [= <- _]; auto].
  destruct file as [file|]; [|intros [= <- _]; auto].
  destruct (Server.fails e Server.OpWriteFile).
  { destruct (Js.includes _ _); intros [= <- _]; auto. }
  cbn [Server.disk Server.db Server.log].
  destruct (Server.fails e Server.OpCreateSharedFile).
  { destruct (Js.includes _ _); intros [= <- _]; auto. }
  match goal with
  | |- context [Db.createSharedFile ?n ?f ?d] =>
      destruct (Db.createSharedFile n f d) as [err|[d' rid]] eqn:Hc
  end.
  { destruct (Js.includes _ _); intros [= <- _]; auto. }
  intros [= <- _]. right. eauto.
Qed.

Lemma delete_store_outcome e w fid uid w' res :
  FilesRoute.delete fid uid e w = (w', res) ->
  Server.db w' = Server.db w \/
  exists u, Server.db w' = fst (Db.deleteSharedFile fid u (Server.db w)).
Proof.
  unfold FilesRoute.delete. run_handler. intros H.
  repeat case_match; simplify_eq; cbn [Server.db] in *; auto;
    right; eexists;
    match goal with
    | H : Db.deleteSharedFile _ _ _ = _ |- _ => rewrite H; reflexivity
    end.
Qed.

Lemma createSharedFile_users now f d d' rid :
  Db.createSharedFile now f d = inr (d', rid) -> Db.users d' = Db.users d.
Proof.
  unfold Db.createSharedFile. destruct (existsb _ _); [discriminate|].
  now intros [= <- _].
Qed.

Lemma download_store_outcome e w fid w' res :
  FilesRoute.download fid e w = (w', res) ->
  Server.db w' = Server.db w \/
  Server.db w' = increment_at fid (Server.db w) (Server.now e).
Proof.
  unfold FilesRoute.download, FilesRoute.setHeader, increment_at. run_handler.
  intros H.
  repeat case_match; simplify_eq; cbn [Server.db] in *; auto.
  all: right;
    match goal with
    | H : Db.incrementDownloadCount _ _ _ = _ |- _ => now rewrite H
    end.
Qed.

(** X16: the three writers of the files route (upload, delete,
    download) keep the store well formed in every run, with or without
    failing calls: the UNIQUE constraint on [file_id] holds afterwards
    when it held before, and the users table is never changed. *)
Theorem files_route_keeps_store_invariants e w w' res :
  Db.unique_file_ids (Server.db w) ->
  (forall uid description file,
     FilesRoute.upload uid description file e w = (w', res) ->
     Db.unique_file_ids (Server.db w') /\
     Db.users (Server.db w') = Db.users (Server.db w)) /\
  (forall fid uid,
     FilesRoute.delete fid uid e w = (w', res) ->
     Db.unique_file_ids (Server.db w') /\
     Db.users (Server.db w') = Db.users (Server.db w)) /\
  (forall fid,
     FilesRoute.download fid e w = (w', res) ->
     Db.unique_file_ids (Server.db w') /\
     Db.users (Server.db w') = Db.users (Server.db w)).
Proof.
  intros Hu. split; [|split].
  - intros uid description file H.
    apply upload_store_outcome in H as [->|(f & d & rid & Hc & ->)]; [auto|].
    split; [now apply (createSharedFile_unique _ _ _ _ _ Hu Hc)|].
    now apply (createSharedFile_users _ _ _ _ _ Hc).
  - intros fid uid H.
    apply delete_store_outcome in H as [->|(u & ->)]; [auto|].
    split; [now apply deleteSharedFile_unique | reflexivity].
  - intros fid H.
    apply download_store_outcome in H as [->| ->]; [auto|].
    split; [now apply incrementDownloadCount_unique | reflexivity].
Qed.

Lemma files_route_keeps_store_invariants_witness :
  Db.unique_file_ids (Server.db world2) /\
  Db.users (Server.db world2) = Db.users (Server.db world1).
Proof.
  apply (proj1 (proj2 (files_route_keeps_store_invariants (env_ok 200 "-") world1 world2
           (snd (FilesRoute.delete "f-1" (Some "u1"%string) (env_ok 200 "-") world1))
           ltac:(vm_compute; repeat constructor; intros H; inversion H)))
           "f-1"%string (Some "u1"%string)).
  apply surjective_pairing.
Defined.


(** ** File extensions and paths in normal form *)

Lemma char_at_index path i c : char_at path i = Some c -> 0 <= i.
Proof. unfold char_at. destruct (Z.ltb_spec i 0); [discriminate | lia]. Qed.

Lemma scan_step_ok path i c st :
  scan_ok path i st -> char_at path i = Some c ->
  scan_ok path (i - 1) (Path.step i c st).
Proof.
  intros (Ha & Hd & Hb & Hc) Hi. pose proof (char_at_index _ _ _ Hi) as Hi0.
  unfold Path.step.
  destruct (Path.stopped st) eqn:Hstop.
  { unfold scan_ok. rewrite Hstop. repeat split; auto; try discriminate;
      now apply Hc. }
  destruct (Ascii.eqb_spec c "/") as [->|Hslash].
  { destruct (Path.matchedSlash st) eqn:Hm; cbn [negb].
    - unfold scan_ok. rewrite Hstop, Hm.
      assert (He : Path.end_ st = -1).
      { destruct (Z.eq_dec (Path.end_ st) (-1)) as [He|He]; [exact He|].
        specialize (Hd He). discriminate. }
      repeat split; auto; try congruence; now apply Hc.
    - unfold scan_ok.
      cbn [Path.end_ Path.startDot Path.matchedSlash Path.stopped].
      repeat split; auto; try discriminate; now apply Hc. }
  assert (Hci : forall j, j = i -> char_at path j <> Some "/"%char).
  { intros j ->. rewrite Hi. congruence. }
  destruct (Z.eqb_spec (Path.end_ st) (-1)) as [He|He].
  - specialize (Ha He).
    destruct (Ascii.eqb c "."); cbn [Path.startDot Path.end_ Path.matchedSlash
      Path.preDotState Path.stopped Path.startPart];
      rewrite ?Ha, ?Z.eqb_refl; cbn [negb];
      unfold scan_ok;
      cbn [Path.startDot Path.end_ Path.matchedSlash Path.preDotState
           Path.stopped Path.startPart];
      repeat split; intros; try lia; try reflexivity; try congruence;
      apply Hci; lia.
  - destruct (Hb He eq_refl) as [Hlt Hrange].
    assert (Hrange' : forall j, i - 1 < j < Path.end_ st ->
                                char_at path j <> Some "/"%char).
    { intros j Hj. destruct (Z.eq_dec j i) as [->|Hne]; [now apply Hci|].
      apply Hrange. lia. }
    destruct (Ascii.eqb c ".");
      [destruct (Z.eqb_spec (Path.startDot st) (-1)) as [Hs|Hs];
       [|destruct (negb (Path.preDotState st =? 1))]
      |destruct (negb (Path.startDot st =? -1))];
      unfold scan_ok;
      cbn [Path.startDot Path.end_ Path.matchedSlash Path.preDotState
           Path.stopped Path.startPart];
      repeat split; intros; try lia; auto; try congruence;
      try (apply Hrange'; lia);
      try (now apply Hc); try (apply Hc; assumption).
Qed.

Lemma scan_from_ok path l : forall i st,
  (forall k c, nth_error l k = Some c ->
               char_at path (i - Z.of_nat k) = Some c) ->
  scan_ok path i st ->
  scan_ok path (i - Z.of_nat (length l)) (Path.scan_from i l st).
Proof.
  induction l as [|c l IH]; intros i st Hl Hst.
  - cbn [Path.scan_from length Z.of_nat]. rewrite Z.sub_0_r. exact Hst.
  - cbn [Path.scan_from length].
    replace (i - Z.of_nat (S (length l))) with (i - 1 - Z.of_nat (length l)) by lia.
    apply IH.
    + intros k c' Hk. replace (i - 1 - Z.of_nat k) with (i - Z.of_nat (S k)) by lia.
      now apply Hl.
    + apply scan_step_ok; [exact Hst|].
      specialize (Hl 0%nat c eq_refl). cbn [Z.of_nat] in Hl.
      rewrite Z.sub_0_r in Hl. exact Hl.
Qed.

Lemma nth_error_chars s n : nth_error (list_ascii_of_string s) n = String.get n s.
Proof.
  revert n. induction s as [|c s IH]; intros [|n]; simpl; auto.
Qed.

Lemma extname_scan_ok path :
  let chars := list_ascii_of_string path in
  exists i,
    scan_ok path i
      (Path.scan_from (Z.of_nat (length chars) - 1) (rev chars) Path.scan0).
Proof.
  intros chars. eexists. apply scan_from_ok.
  - intros k c Hk. rewrite nth_error_rev in Hk.
    destruct (Nat.ltb_spec k (length chars)) as [Hlt|]; [|discriminate].
    unfold chars in Hk at 1. rewrite nth_error_chars in Hk.
    unfold char_at.
    destruct (Z.ltb_spec (Z.of_nat (length chars) - 1 - Z.of_nat k) 0); [lia|].
    replace (Z.to_nat (Z.of_nat (length chars) - 1 - Z.of_nat k))
      with (length chars - S k)%nat by lia.
    exact Hk.
  - unfold scan_ok, Path.scan0. cbn. repeat split; intros; congruence.
Qed.

Lemma extname_no_separator path : no_separator (Path.extname path).
Proof.
  intros p. unfold Path.extname.
  destruct (extname_scan_ok path) as (i & _ & _ & _ & Hc).
  set (st := Path.scan_from _ _ _) in *.
  destruct (Z.eqb_spec (Path.startDot st) (-1)) as [Hs|Hs]; [destruct p; discriminate|].
  cbn [orb].
  destruct (_ || _ || _); [destruct p; discriminate|].
  destruct (Hc Hs) as [Hbounds Hrange].
  destruct (Nat.lt_ge_cases p (Z.to_nat (Path.end_ st - Path.startDot st)))
    as [Hlt|Hge].
  - rewrite substring_correct1 by exact Hlt.
    specialize (Hrange (Path.startDot st + Z.of_nat p) ltac:(lia)).
    unfold char_at in Hrange.
    destruct (Z.ltb_spec (Path.startDot st + Z.of_nat p) 0); [lia|].
    replace (Z.to_nat (Path.startDot st + Z.of_nat p))
      with (p + Z.to_nat (Path.startDot st))%nat in Hrange by lia.
    exact Hrange.
  - rewrite substring_correct2 by exact Hge. discriminate.
Qed.

Lemma no_separator_append a b :
  no_separator a -> no_separator b -> no_separator (a +:+ b).
Proof.
  intros Ha Hb p.
  destruct (Nat.lt_ge_cases p (String.length a)) as [Hlt|Hge].
  - rewrite <- append_correct1 by exact Hlt. apply Ha.
  - replace p with ((p - String.length a) + String.length a)%nat by lia.
    rewrite <- append_correct2. apply Hb.
Qed.

(** ** The profile route *)

Lemma upsertUser_read_back now u d :
  Db.getUser (Db.userId u) (fst (Db.upsertUser now u d))
  = Some (User.mkRow (snd (Db.upsertUser now u d)) (Db.userId u)
            (Db.username u) (Db.email u)
            (Db.profilePicturePath u) (Db.profilePictureUrl u) now now).
Proof.
  unfold Db.getUser, Db.upsertUser. cbn [fst snd Db.users].
  rewrite find_app_none by apply (find_filter_negb (Db.is_user (Db.userId u))).
  cbn [List.find]. unfold Db.is_user at 1. cbn [User.user_id].
  now rewrite String.eqb_refl.
Qed.



Lemma without_old_picture_disk uid w p :
  picture_of uid (Server.db w) <> Some p ->
  Server.disk (without_old_picture uid w) !! p = Server.disk w !! p.
Proof.
  unfold without_old_picture. intros Hp.
  destruct (picture_of uid (Server.db w)) as [oldPath|]; [|reflexivity].
  destruct (bool_decide _); [|reflexivity].
  apply lookup_delete_ne. congruence.
Qed.

Lemma without_old_picture_gone uid w oldPath :
  picture_of uid (Server.db w) = Some oldPath ->
  Server.disk (without_old_picture uid w) !! oldPath = None.
Proof.
  unfold without_old_picture. intros ->.
  destruct (bool_decide (is_Some (Server.disk w !! oldPath))) eqn:Hp.
  - apply lookup_delete_eq.
  - apply bool_decide_eq_false in Hp. now apply eq_None_not_Some.
Qed.









Lemma delete_picture_no_faults e w uid old oldPath :
  (forall o, Server.fails e o = false) ->
  Db.getUser uid (Server.db w) = Some old ->
  Js.truthy (User.profile_picture_path old) = Some oldPath ->
  let data := Db.mkUserData uid (User.username old) (User.email old) None None in
  let w1 := without_old_picture uid w in
  ProfileRest.delete_picture uid e w
  = (Server.mkWorld (Server.disk w1)
       (fst (Db.upsertUser (Server.now e) data (Server.db w)))
       (Server.log w1 ++ [Server.EvUpsertUser uid
                            (snd (Db.upsertUser (Server.now e) data (Server.db w)))]),
     inr (Http.ok (Http.Success "Profile picture deleted successfully"))).
Proof.
  intros Hok Hold Hpath. cbv zeta.
  unfold ProfileRest.delete_picture, without_old_picture, picture_of.
  run_handler. rewrite !Hok, Hold. cbn [mbind option_bind]. rewrite Hpath.
  destruct (bool_decide (is_Some (Server.disk w !! oldPath)));
    rewrite ?Hok; cbn [Server.disk Server.db Server.log];
    destruct (Db.upsertUser (Server.now e)
                (Db.mkUserData uid (User.username old) (User.email old) None None)
                (Server.db w)) as [d lastID];
    reflexivity.
Qed.

(** X18: deleting a profile picture.  For a user without a row or without
    a picture the request is answered 404 and nothing is touched.  For a
    user with a picture whose stored path is in normal form, when no call
    fails, the blob is removed, the row read back has neither path nor url
    but still the name and email it had, no other file is touched, and the
    picture and picture-url requests that follow are answered 404. *)
Theorem delete_picture_clears_both_fields e e2 w uid :
  Server.fails e Server.OpGetUser = false ->
  (picture_of uid (Server.db w) = None ->
   ProfileRest.delete_picture uid e w
   = (w, inr (Http.mkResponse 404 (Http.Error "Profile picture not found")))) /\
  (forall old oldPath,
     (forall o, Server.fails e o = false) ->
     Server.fails e2 Server.OpGetUser = false ->
     Db.getUser uid (Server.db w) = Some old ->
     Js.truthy (User.profile_picture_path old) = Some oldPath ->
     canonical oldPath = true ->
     exists w' row,
       ProfileRest.delete_picture uid e w
       = (w', inr (Http.ok (Http.Success "Profile picture deleted successfully"))) /\
       Db.getUser uid (Server.db w') = Some row /\
       User.profile_picture_path row = None /\
       User.profile_picture_url row = None /\
       User.username row = User.username old /\
       User.email row = User.email old /\
       Server.disk w' !! oldPath = None /\
       (forall p, canonical p = true -> p <> oldPath ->
          Server.disk w' !! p = Server.disk w !! p) /\
       ProfileRest.get_picture uid e2 w'
       = (w', inr (404, ProfileRest.PictureError "Profile picture not found")) /\
       ProfileRest.get_picture_url uid e2 w'
       = (w', inr (404, ProfileRest.PictureError "Profile picture not found"))).
Proof.
  intros Hg. split.
  - unfold picture_of, ProfileRest.delete_picture. run_handler. rewrite Hg.
    destruct (Db.getUser uid (Server.db w)) as [old|]; [|reflexivity].
    cbn [mbind option_bind]. now intros ->.
  - intros old oldPath Hok Hg2 Hold Hpath _.
    pose proof (delete_picture_no_faults e w uid old oldPath Hok Hold Hpath) as Hrun.
    cbv zeta in Hrun.
    set (data := Db.mkUserData uid (User.username old) (User.email old) None None) in *.
    pose proof (upsertUser_read_back (Server.now e) data (Server.db w)) as Hback.
    change (Db.userId data) with uid in Hback.
    assert (Hpic : picture_of uid (Server.db w) = Some oldPath).
    { unfold picture_of. rewrite Hold. exact Hpath. }
    eexists _, _. split; [exact Hrun|].
    cbn [Server.db Server.disk]. split; [exact Hback|].
    cbn [User.profile_picture_path User.profile_picture_url User.username User.email].
    repeat split.
    + now apply without_old_picture_gone.
    + intros p _ Hp. apply without_old_picture_disk. congruence.
    + unfold ProfileRest.get_picture. run_handler. rewrite Hg2.
      cbn [Server.db]. rewrite Hback. reflexivity.
    + unfold ProfileRest.get_picture_url. run_handler. rewrite Hg2.
      cbn [Server.db]. rewrite Hback. reflexivity.
Qed.

Lemma delete_picture_clears_both_fields_witness :
  ProfileRest.delete_picture "u1" (env_ok 200 "-") world0
  = (world0, inr (Http.mkResponse 404 (Http.Error "Profile picture not found"))) /\
  exists w' row,
    ProfileRest.delete_picture "u1" (env_ok 200 "-") world_pic
    = (w', inr (Http.ok (Http.Success "Profile picture deleted successfully"))) /\
    Db.getUser "u1" (Server.db w') = Some row /\
    User.profile_picture_path row = None /\
    User.profile_picture_url row = None /\
    Server.disk w' !! "uploads/profiles/profile_u1_p-1.png"%string = None.
Proof.
  split.
  - apply (proj1 (delete_picture_clears_both_fields (env_ok 200 "-") (env_ok 300 "-")
                    world0 "u1" eq_refl)).
    reflexivity.
  - destruct (proj2 (delete_picture_clears_both_fields (env_ok 200 "-") (env_ok 300 "-")
                       world_pic "u1" eq_refl)
                (User.mkRow 1 "u1" None None
                   (Some "uploads/profiles/profile_u1_p-1.png"%string)
                   (Some "/uploads/profiles/profile_u1_p-1.png"%string) 100 100)
                "uploads/profiles/profile_u1_p-1.png"%string
                (fun _ => eq_refl) eq_refl)
      as (w' & row & Hrun & Hrow & Hp & Hu & _ & _ & Hgone & _).
    + vm_compute. reflexivity.
    + reflexivity.
    + reflexivity.
    + exists w', row. repeat split; assumption.
Defined.

(** X19: a profile sync in which no call fails stores the submitted name
    and email and carries the picture forward: the row read back has the
    picture path and url the user had before (none for a new user), the
    disk is untouched, and every other user is read back as before. *)
Theorem sync_carries_picture_forward e w c u data :
  (forall o, Server.fails e o = false) ->
  exists w' row,
    ProfileRest.sync (Some (String c u)) (Some data) e w
    = (w', inr (Http.ok (Http.Success "Profile synced successfully"))) /\
    Db.getUser (String c u) (Server.db w') = Some row /\
    User.username row = ProfileRest.pd_username data /\
    User.email row = ProfileRest.pd_email data /\
    User.profile_picture_path row = picture_of (String c u) (Server.db w) /\
    User.profile_picture_url row
    = Db.getUser (String c u) (Server.db w)
        ≫= (fun r => Js.truthy (User.profile_picture_url r)) /\
    Server.disk w' = Server.disk w /\
    (forall uid', uid' <> String c u ->
       Db.getUser uid' (Server.db w') = Db.getUser uid' (Server.db w)).
Proof.
  intros Hok.
  unfold ProfileRest.sync. cbn [Js.truthy]. run_handler. rewrite !Hok.
  cbn [Server.db Server.disk Server.log].
  set (upd := Db.mkUserData (String c u) _ _ _ _).
  pose proof (upsertUser_read_back (Server.now e) upd (Server.db w)) as Hback.
  assert (Hother : forall uid', uid' <> String c u ->
            Db.getUser uid' (fst (Db.upsertUser (Server.now e) upd (Server.db w)))
            = Db.getUser uid' (Server.db w)).
  { intros uid' Hne. unfold Db.getUser, Db.upsertUser. cbn [fst Db.users].
    now apply find_other_user. }
  destruct (Db.upsertUser (Server.now e) upd (Server.db w)) as [d lastID].
  cbn [fst snd] in *.
  eexists _, _. split; [reflexivity|].
  cbn [Server.db Server.disk]. split; [exact Hback|].
  cbn [User.username User.email User.profile_picture_path User.profile_picture_url
       Db.username Db.email Db.profilePicturePath Db.profilePictureUrl upd].
  unfold picture_of, Js.or_null.
  destruct (Db.getUser (String c u) (Server.db w)); repeat split; auto.
Qed.

Lemma sync_carries_picture_forward_witness :
  exists w' row,
    ProfileRest.sync (Some "u1"%string)
      (Some (ProfileRest.mkProfileData (Some "ann"%string) None))
      (env_ok 200 "-") world_pic
    = (w', inr (Http.ok (Http.Success "Profile synced successfully"))) /\
    Db.getUser "u1" (Server.db w') = Some row /\
    User.username row = Some "ann"%string /\
    User.profile_picture_path row = picture_of "u1" (Server.db world_pic) /\
    Server.disk w' = Server.disk world_pic.
Proof.
  destruct (sync_carries_picture_forward (env_ok 200 "-") world_pic "u"%char "1"%string
              (ProfileRest.mkProfileData (Some "ann"%string) None)
              (fun _ => eq_refl))
    as (w' & row & Hrun & Hrow & Hname & _ & Hpath & _ & Hdisk & _).
  exists w', row. repeat split; assumption.
Defined.

Lemma truthy_idempotent v : Js.truthy (Js.truthy v) = Js.truthy v.
Proof. destruct v as [[|c s]|]; reflexivity. Qed.

Lemma upsertUser_pictures_agree now u d :
  pictures_agree d ->
  (Js.truthy (Db.profilePicturePath u) = None <->
   Js.truthy (Db.profilePictureUrl u) = None) ->
  pictures_agree (fst (Db.upsertUser now u d)).
Proof.
  intros Hd Hu r Hr. unfold Db.upsertUser in Hr. cbn [fst Db.users] in Hr.
  apply List.in_app_iff in Hr as [Hr|[<-|[]]].
  - apply List.filter_In in Hr as [Hr _]. now apply Hd.
  - exact Hu.
Qed.

Lemma upload_picture_store_outcome e w uid username email file w' res :
  ProfileRoute.upload_picture uid username email file e w = (w', res) ->
  Server.db w' = Server.db w \/
  exists data,
    Server.db w' = fst (Db.upsertUser (Server.now e) data (Server.db w)) /\
    Js.truthy (Db.profilePicturePath data) <> None /\
    Js.truthy (Db.profilePictureUrl data) <> None.
Proof.
  unfold ProfileRoute.upload_picture. run_handler.
  destruct (Js.truthy uid) as [userId|]; [|intros [= <- _]; auto].
  destruct file as [f|]; [|intros [= <- _]; auto].
  destruct (Server.fails e Server.OpWriteFile).
  { destruct (Js.includes _ _); intros [= <- _]; auto. }
  cbn [Server.disk Server.db Server.log].
  set (w0 := Server.mkWorld _ _ _).
  destruct (Server.fails e Server.OpStat).
  { destruct (Js.includes _ _); intros [= <- _]; auto. }
  rewrite lookup_insert_eq.
  destruct (ProfileRoute.remove_old_picture userId e w0) as [w1 r1] eqn:Hrm.
  apply remove_old_picture_outcome in Hrm as (-> & Hdb & _).
  change (Server.db w0) with (Server.db w) in Hdb.
  destruct (Server.fails e Server.OpUpsertUser).
  { destruct (Js.includes _ _); intros [= <- _]; auto. }
  rewrite Hdb.
  match goal with
  | |- context [Db.upsertUser ?n ?data ?d] =>
      pose proof (eq_refl (Db.upsertUser n data d)) as Hup;
      destruct (Db.upsertUser n data d) as [d' lastID] in Hup at 2 |- *;
      intros [= <- _]; right; exists data
  end.
  cbn [Server.db]. rewrite Hup. repeat split; discriminate.
Qed.

Lemma delete_picture_store_outcome e w uid w' res :
  ProfileRest.delete_picture uid e w = (w', res) ->
  Server.db w' = Server.db w \/
  exists data,
    Server.db w' = fst (Db.upsertUser (Server.now e) data (Server.db w)) /\
    Db.profilePicturePath data = None /\ Db.profilePictureUrl data = None.
Proof.
  unfold ProfileRest.delete_picture. run_handler. intros H.
  repeat case_match; simplify_eq; cbn [Server.db] in *; auto;
    right; eexists;
    match goal with
    | H : Db.upsertUser _ _ _ = _ |- _ => rewrite H; repeat split
    end.
Qed.

Lemma sync_store_outcome e w uid data w' res :
  ProfileRest.sync uid data e w = (w', res) ->
  Server.db w' = Server.db w \/
  exists userId name mail,
    Server.db w'
    = fst (Db.upsertUser (Server.now e)
             (Db.mkUserData userId name mail
                (Js.or_null (Db.getUser userId (Server.db w)
                               ≫= User.profile_picture_path))
                (Js.or_null (Db.getUser userId (Server.db w)
                               ≫= User.profile_picture_url)))
             (Server.db w)).
Proof.
  unfold ProfileRest.sync. run_handler. intros H.
  repeat case_match; simplify_eq; cbn [Server.db] in *; auto;
    right; eexists _, _, _;
    match goal with
    | H : Db.upsertUser _ _ _ = _ |- _ => rewrite H; reflexivity
    end.
Qed.

(** X20: the three writers of the profile route (picture upload, picture
    delete, sync) keep the users table well formed in every run, with or
    without failing calls: when every row had a picture path exactly when
    it had a picture url, every row still does; the UNIQUE constraint on
    [user_id] still holds; and the table of shared files is never
    changed. *)
Theorem profile_route_keeps_store_invariants e w w' res :
  pictures_agree (Server.db w) ->
  Db.unique_user_ids (Server.db w) ->
  (forall uid username email file,
     ProfileRoute.upload_picture uid username email file e w = (w', res) ->
     pictures_agree (Server.db w') /\ Db.unique_user_ids (Server.db w') /\
     Db.shared_files (Server.db w') = Db.shared_files (Server.db w)) /\
  (forall uid,
     ProfileRest.delete_picture uid e w = (w', res) ->
     pictures_agree (Server.db w') /\ Db.unique_user_ids (Server.db w') /\
     Db.shared_files (Server.db w') = Db.shared_files (Server.db w)) /\
  (forall uid data,
     ProfileRest.sync uid data e w = (w', res) ->
     pictures_agree (Server.db w') /\ Db.unique_user_ids (Server.db w') /\
     Db.shared_files (Server.db w') = Db.shared_files (Server.db w)).
Proof.
  intros Hagree Huniq. split; [|split].
  - intros uid username email file H.
    apply upload_picture_store_outcome in H as [->|(data & -> & Hp & Hu)]; [auto|].
    split; [|split; [now apply upsertUser_unique | reflexivity]].
    apply upsertUser_pictures_agree; [exact Hagree | tauto].
  - intros uid H.
    apply delete_picture_store_outcome in H as [->|(data & -> & Hp & Hu)]; [auto|].
    split; [|split; [now apply upsertUser_unique | reflexivity]].
    apply upsertUser_pictures_agree; [exact Hagree|]. now rewrite Hp, Hu.
  - intros uid data H.
    apply sync_store_outcome in H as [->|(userId & name & mail & ->)]; [auto|].
    split; [|split; [now apply upsertUser_unique | reflexivity]].
    apply upsertUser_pictures_agree; [exact Hagree|].
    cbn [Db.profilePicturePath Db.profilePictureUrl]. unfold Js.or_null.
    rewrite !truthy_idempotent.
    destruct (Db.getUser userId (Server.db w)) as [old|] eqn:Hold; [|tauto].
    cbn [mbind option_bind]. apply Hagree.
    now apply find_some_in in Hold as [Hin _].
Qed.

Lemma profile_route_keeps_store_invariants_witness :
  let r := ProfileRest.sync (Some "u1"%string)
             (Some (ProfileRest.mkProfileData (Some "ann"%string) None))
             (env_ok 200 "-") world_pic in
  pictures_agree (Server.db (fst r)) /\ Db.unique_user_ids (Server.db (fst r)) /\
  Db.shared_files (Server.db (fst r)) = Db.shared_files (Server.db world_pic).
Proof.
  intros r.
  apply (proj2 (proj2 (profile_route_keeps_store_invariants (env_ok 200 "-")
                         world_pic (fst r) (snd r)
                         ltac:(intros x Hx; vm_compute in Hx;
                               destruct Hx as [<-|[]]; split; discriminate)
                         ltac:(vm_compute; repeat constructor; intros H; inversion H)))
           (Some "u1"%string)
           (Some (ProfileRest.mkProfileData (Some "ann"%string) None))).
  apply surjective_pairing.
Defined.

(** ** Search, again *)

Lemma upper_facts c :
  Db.upper (Db.upper c) = Db.upper c /\
  Ascii.eqb (Db.upper c) Db.percent = Ascii.eqb c Db.percent /\
  Ascii.eqb (Db.upper c) Db.underscore = Ascii.eqb c Db.underscore.
Proof.
  destruct c as [[] [] [] [] [] [] [] []]; vm_compute; repeat split.
Qed.

Lemma like_fold_pattern p q s :
  Db.like (fold_case p +:+ q) s = Db.like (p +:+ q) s.
Proof.
  revert s. induction p as [|c p IH]; intros s; [reflexivity|].
  cbn [fold_case]. rewrite !append_cons. cbn [Db.like].
  destruct (upper_facts c) as (Hidem & Hpct & Hund).
  rewrite Hpct.
  destruct (Ascii.eqb c Db.percent).
  - apply any_suffix_ext. exact IH.
  - destruct s as [|d s]; [reflexivity|].
    rewrite Hund, IH. unfold Db.same_letter. now rewrite Hidem.
Qed.

Lemma like_fold_subject p s : Db.like p (fold_case s) = Db.like p s.
Proof.
  revert s. induction p as [|c p IH]; intros s.
  - destruct s; reflexivity.
  - cbn [Db.like]. destruct (Ascii.eqb c Db.percent).
    + induction s as [|d s IHs]; cbn [fold_case Db.any_suffix].
      * now rewrite <- (IH EmptyString).
      * rewrite IHs. f_equal. exact (IH (String d s)).
    + destruct s as [|d s]; [reflexivity|].
      cbn [fold_case]. rewrite IH. unfold Db.same_letter.
      now rewrite (proj1 (upper_facts d)).
Qed.

(** X21: the search ignores ASCII letter case on both sides, for every
    term (wildcards included): folding the case of the search term does
    not change the rows returned, and a stored name, description or
    category matches a term exactly when its case-folded form does. *)
Theorem searchFiles_ignores_case uid term d :
  Db.searchFiles uid (fold_case term) d = Db.searchFiles uid term d /\
  (forall s, Db.like (Db.search_pattern term) (fold_case s)
             = Db.like (Db.search_pattern term) s) /\
  (forall r, Db.search_matches uid (fold_case term) r = Db.search_matches uid term r).
Proof.
  assert (Hpat : forall s, Db.like (Db.search_pattern (fold_case term)) s
                           = Db.like (Db.search_pattern term) s).
  { intros s. unfold Db.search_pattern. rewrite !append_cons.
    change (EmptyString +:+ (fold_case term +:+ "%"))
      with (fold_case term +:+ "%").
    change (EmptyString +:+ (term +:+ "%")) with (term +:+ "%").
    cbn [Db.like]. change (Ascii.eqb "%" Db.percent) with true. cbv iota.
    apply any_suffix_ext. intros x. apply like_fold_pattern. }
  assert (Hm : forall r, Db.search_matches uid (fold_case term) r
                         = Db.search_matches uid term r).
  { intros r. unfold Db.search_matches. now rewrite !Hpat. }
  split; [|split].
  - unfold Db.searchFiles. f_equal. f_equal. apply List.filter_ext. exact Hm.
  - intros s. apply like_fold_subject.
  - exact Hm.
Qed.

(** ** Upload followed by delete *)

(** X22: round trip of upload and delete.  When a committed upload is
    followed by a delete of the new identifier by the uploader, with no
    call failing, the table of shared files and the users table hold
    exactly the rows they held before the upload, the path the upload
    wrote holds nothing, every other path holds what it held, and only
    the rowid counter has advanced. *)
Theorem upload_then_delete_leaves_no_row e1 e2 w c uid description file :
  (forall o, Server.fails e1 o = false) ->
  (forall o, Server.fails e2 o = false) ->
  Db.getSharedFile (Server.uuid e1) (Server.db w) = None ->
  let fid := Server.uuid e1 in
  let path :=
    ("uploads/shared/" +:+ fid +:+ Path.extname (Http.originalname file))%string in
  exists w1 w2,
    fst (FilesRoute.upload (Some (String c uid)) description (Some file) e1 w) = w1 /\
    FilesRoute.delete fid (Some (String c uid)) e2 w1
    = (w2, inr (Http.ok (Http.Success "File deleted successfully"))) /\
    Db.shared_files (Server.db w2) = Db.shared_files (Server.db w) /\
    Db.users (Server.db w2) = Db.users (Server.db w) /\
    Db.shared_files_seq (Server.db w) < Db.shared_files_seq (Server.db w2) /\
    Server.disk w2 !! path = None /\
    (forall p, p <> path -> Server.disk w2 !! p = Server.disk w !! p).
Proof.
  intros Hok1 Hok2 Hfresh fid path.
  destruct (upload_no_faults e1 w c uid description file (Hok1 _) (Hok1 _) Hfresh)
    as (up & Hrun & _).
  set (w1 := after_upload e1 w (String c uid) description file) in *.
  set (r := uploaded_row e1 (Server.db w) (String c uid) description file).
  assert (Hrow : Db.getSharedFile fid (Server.db w1) = Some r)
    by now apply uploaded_row_found.
  pose proof (delete_passes_gates e2 w1 fid c uid r Hok2 Hrow eq_refl) as Hdel.
  exists w1, (after_delete w1 fid (String c uid) (SharedFile.file_path r)).
  split; [now rewrite Hrun|]. split; [exact Hdel|].
  assert (Hpresent : Server.disk w1 !! SharedFile.file_path r = Some (Http.buffer file))
    by apply lookup_insert_eq.
  unfold after_delete. rewrite Hpresent, bool_decide_eq_true_2 by eauto.
  cbn [Server.db Server.disk]. unfold Db.deleteSharedFile.
  cbn [fst Db.shared_files Db.users Db.shared_files_seq].
  change (SharedFile.file_path r) with path.
  split; [|split; [reflexivity|split; [|split]]].
  - unfold w1, after_upload. cbn [Server.db Db.shared_files]. fold r.
    rewrite List.filter_app. cbn [List.filter].
    assert (Hr : Db.delete_matches fid (String c uid) r = true).
    { unfold Db.delete_matches, Db.is_file, Db.owned_by, r, uploaded_row.
      cbn [SharedFile.file_id SharedFile.user_id]. now rewrite !String.eqb_refl. }
    rewrite Hr. cbn [negb]. rewrite app_nil_r. apply filter_all.
    intros x Hx. unfold Db.delete_matches.
    unfold Db.getSharedFile in Hfresh.
    pose proof (List.find_none _ _ Hfresh x Hx) as Hx'.
    change (Db.is_file fid x) with (Db.is_file (Server.uuid e1) x).
    now rewrite Hx'.
  - unfold w1, after_upload, uploaded_row.
    cbn [Server.db Db.shared_files_seq SharedFile.id]. unfold Db.next_rowid. lia.
  - apply lookup_delete_eq.
  - intros p Hp. assert (Hp' : path <> p) by congruence.
    rewrite lookup_delete_ne by exact Hp'.
    unfold w1, after_upload. cbn [Server.disk]. apply lookup_insert_ne.
    exact Hp'.
Qed.

Lemma upload_then_delete_leaves_no_row_witness :
  exists w1 w2,
    fst (FilesRoute.upload (Some "u1"%string) None (Some notes_txt)
           (env_ok 100 "f-1") world0) = w1 /\
    FilesRoute.delete "f-1" (Some "u1"%string) (env_ok 200 "-") w1
    = (w2, inr (Http.ok (Http.Success "File deleted successfully"))) /\
    Db.shared_files (Server.db w2) = Db.shared_files (Server.db world0) /\
    Db.shared_files_seq (Server.db world0) < Db.shared_files_seq (Server.db w2).
Proof.
  destruct (upload_then_delete_leaves_no_row (env_ok 100 "f-1") (env_ok 200 "-")
              world0 "u"%char "1"%string None notes_txt
              (fun _ => eq_refl) (fun _ => eq_refl) eq_refl)
    as (w1 & w2 & H1 & H2 & H3 & _ & H4 & _).
  exists w1, w2. repeat split; assumption.
Defined.


(** ** Stored file names *)

(** X23: the name under which an upload is stored cannot gain a directory
    part from the client's file name: the extension taken from the
    original name never holds a slash, so when the generated identifier
    holds none, the stored file name holds none, and the stored path of
    the committed row is that name directly under uploads/shared/. *)
Theorem upload_name_has_no_directory_part e w c uid description file :
  Server.fails e Server.OpWriteFile = false ->
  Server.fails e Server.OpCreateSharedFile = false ->
  Db.getSharedFile (Server.uuid e) (Server.db w) = None ->
  no_separator (Server.uuid e) ->
  no_separator (Path.extname (Http.originalname file)) /\
  exists r,
    Db.getSharedFile (Server.uuid e)
      (Server.db (fst (FilesRoute.upload (Some (String c uid)) description
                         (Some file) e w))) = Some r /\
    no_separator (SharedFile.file_name r) /\
    SharedFile.file_path r = ("uploads/shared/" +:+ SharedFile.file_name r)%string /\
    SharedFile.file_url r = ("/uploads/shared/" +:+ SharedFile.file_name r)%string.
Proof.
  intros Hw Hc Hfresh Hid.
  split; [apply extname_no_separator|].
  destruct (upload_no_faults e w c uid description file Hw Hc Hfresh)
    as (up & Hrun & _).
  rewrite Hrun. cbn [fst].
  exists (uploaded_row e (Server.db w) (String c uid) description file).
  split; [now apply uploaded_row_found|].
  unfold uploaded_row. cbn [SharedFile.file_name SharedFile.file_path SharedFile.file_url].
  split; [|split; reflexivity].
  apply no_separator_append; [exact Hid | apply extname_no_separator].
Qed.

Lemma upload_name_has_no_directory_part_witness :
  no_separator (Path.extname "../../etc/notes.txt") /\
  exists r,
    Db.getSharedFile "f-1"
      (Server.db (fst (FilesRoute.upload (Some "u1"%string) None
                         (Some (Http.mkFile "../../etc/notes.txt" "text/plain" 5 hello))
                         (env_ok 100 "f-1") world0))) = Some r /\
    no_separator (SharedFile.file_name r) /\
    SharedFile.file_path r = ("uploads/shared/" +:+ SharedFile.file_name r)%string /\
    SharedFile.file_url r = ("/uploads/shared/" +:+ SharedFile.file_name r)%string.
Proof.
  apply (upload_name_has_no_directory_part (env_ok 100 "f-1") world0 "u"%char
           "1"%string None (Http.mkFile "../../etc/notes.txt" "text/plain" 5 hello));
    try reflexivity.
  intros p. do 3 (destruct p as [|p]; [discriminate|]). discriminate.
Defined.
